(** * git-wt: worktree classification, branch resolution and the
      multi-select removal session

    A shallow embedding of the parts of [internal/git], [internal/tui] and
    [cmd] that classify worktrees, resolve a branch query and drive the
    interactive removal session, followed by the properties established
    about them.

    Conventions of the embedding.
    - A Go [string] is a byte sequence: Rocq's [string] (a list of 8-bit
      [ascii]).  Byte-wise functions of package [strings] ([HasPrefix],
      [TrimPrefix], [Contains], [Join]) are written out; the functions
      whose result depends on Unicode tables ([ToLower], [EqualFold],
      [TrimSpace]) are fields of the class [GoRuntime].
    - A Go [int] is a [Z].  No modelled operation can leave the 64-bit
      range: counters are bounded by slice lengths.
    - A Go [error] is its message; [nil] is [None].
    - A slice is a [list]; indexing out of range is a run-time panic,
      written [Panics].
    - The environment is explicit.  The [git] binary, the working
      directory and [filepath.Abs] are the class [Host], and every
      invocation of [git] is logged; the terminal styling is the class
      [tui.Terminal]; a function that reads the clock takes the reading
      [now] as an argument. *)

From Stdlib Require Import ZArith String Ascii List Bool Lia.
From Stdlib Require Import DecimalString DecimalPos.
From Stdlib Require Import PrimFloat FloatOps SpecFloat Uint63.
From stdpp Require Import base list.

Import ListNotations.
Local Open Scope string_scope.
Local Open Scope Z_scope.

(** ** Builtins *)

(** [append(s, x)] on a slice. *)
Definition append {A} (s : list A) (x : A) : list A := (s ++ [x])%list.

(** ** Package [strings] and [fmt] *)

Module strings.

(** [strings.HasPrefix s prefix]. *)
Fixpoint HasPrefix (s prefix : string) : bool :=
  match prefix, s with
  | EmptyString, _ => true
  | String c p', String d s' => Ascii.eqb c d && HasPrefix s' p'
  | String _ _, EmptyString => false
  end.

(** [strings.TrimPrefix s prefix]: [s] without the leading [prefix], or
    [s] itself when it does not start with [prefix]. *)
Fixpoint dropPrefix (s prefix : string) : option string :=
  match prefix, s with
  | EmptyString, _ => Some s
  | String c p', String d s' =>
      if Ascii.eqb c d then dropPrefix s' p' else None
  | String _ _, EmptyString => None
  end.

Definition TrimPrefix (s prefix : string) : string :=
  match dropPrefix s prefix with
  | Some rest => rest
  | None => s
  end.

(** [strings.Contains s substr]: [substr] occurs at some byte offset. *)
Fixpoint Contains (s substr : string) : bool :=
  HasPrefix s substr ||
  match s with
  | EmptyString => false
  | String _ s' => Contains s' substr
  end.

(** [strings.Join elems sep]. *)
Fixpoint Join (elems : list string) (sep : string) : string :=
  match elems with
  | [] => ""
  | [e] => e
  | e :: rest => e ++ sep ++ Join rest sep
  end.

(** [fmt.Sprintf "%d"] on an [int]. *)
Definition Itoa (n : Z) : string := NilEmpty.string_of_int (Z.to_int n).

(** [strings.Split s sep] for a separator [sep] of one byte. *)
Fixpoint Split (s : string) (sep : ascii) : list string :=
  match s with
  | EmptyString => [""]
  | String c s' =>
      if Ascii.eqb c sep then "" :: Split s' sep
      else match Split s' sep with
           | piece :: rest => String c piece :: rest
           | [] => [String c ""]
           end
  end.

(** The line feed, the separator of [strings.Split(out, "\n")]. *)
Definition LF : ascii := ascii_of_nat 10.

(** [len(s)] of a string, in bytes. *)
Definition Len (s : string) : Z := Z.of_nat (String.length s).

(** [strings.ReplaceAll s old new] for a non-empty [old]: the
    non-overlapping occurrences of [old] are replaced from left to right.
    [skip] counts the bytes of an occurrence still to be dropped. *)
Fixpoint replaceFrom (s old new : string) (skip : nat) : string :=
  match s with
  | EmptyString => EmptyString
  | String c s' =>
      match skip with
      | S k => replaceFrom s' old new k
      | O =>
          if HasPrefix s old
          then new ++ replaceFrom s' old new (String.length old - 1)
          else String c (replaceFrom s' old new 0)
      end
  end.

Definition ReplaceAll (s old new : string) : string :=
  replaceFrom s old new 0.

(** [strings.NewReplacer(pairs...).Replace s] when every old and new
    string is a single byte: each byte is mapped on its own, the first
    pair with that old byte deciding. *)
Fixpoint replaceByte (pairs : list (ascii * ascii)) (c : ascii) : ascii :=
  match pairs with
  | [] => c
  | (old, new) :: rest =>
      if Ascii.eqb c old then new else replaceByte rest c
  end.

Fixpoint ByteReplace (pairs : list (ascii * ascii)) (s : string) : string :=
  match s with
  | EmptyString => EmptyString
  | String c s' => String (replaceByte pairs c) (ByteReplace pairs s')
  end.

End strings.

(** The part of the Go library that is taken as given: the
    Unicode-dependent functions of package [strings], and the line
    splitting of a [bufio.Scanner] over a string. *)
Class GoRuntime := {
  ToLower : string -> string;
  EqualFold : string -> string -> bool;
  TrimSpace : string -> string;
  ScanLines : string -> list string;
}.

(** ** Package [time] *)

Module time.

(** An instant, in nanoseconds since the zero [time.Time]
    (January 1, year 1, 00:00:00 UTC).  Monotonic clock readings are not
    modelled. *)
Definition Time := Z.

Definition IsZero (t : Time) : bool := t =? 0.

(** A [time.Duration]: a signed 64-bit count of nanoseconds. *)
Definition Duration := Z.
Definition maxDuration : Duration := 2 ^ 63 - 1.
Definition minDuration : Duration := - 2 ^ 63.

Definition Nanosecond : Duration := 1.
Definition Second : Duration := 1000000000.
Definition Hour : Duration := 3600 * Second.
Definition Day : Duration := 24 * Hour.

(** [t.Sub u], saturating at the ends of the [Duration] range. *)
Definition Sub (t u : Time) : Duration :=
  let d := t - u in
  if maxDuration <? d then maxDuration
  else if d <? minDuration then minDuration
  else d.

(** [time.Since t] evaluated when the clock reads [now]. *)
Definition Since (now t : Time) : Duration := Sub now t.

(** [float64(n)] for an integer of magnitude below [2^63]. *)
Definition float64_of_int (n : Z) : float :=
  if n <? 0
  then PrimFloat.opp (PrimFloat.of_uint63 (Uint63.of_Z (- n)))
  else PrimFloat.of_uint63 (Uint63.of_Z n).

(** [int(x)] for a finite [float64]: the fraction is discarded. *)
Definition int_of_float64 (x : float) : Z :=
  match Prim2SF x with
  | S754_finite s m e =>
      let v := if 0 <=? e then Z.pos m * 2 ^ e else Z.pos m / 2 ^ (- e) in
      if s then - v else v
  | _ => 0
  end.

(** [d.Hours()]:
    [hour := d / Hour; nsec := d % Hour;
     return float64(hour) + float64(nsec)/(60*60*1e9)]. *)
Definition Hours (d : Duration) : float :=
  let hour := Z.quot d Hour in
  let nsec := Z.rem d Hour in
  PrimFloat.add (float64_of_int hour)
    (PrimFloat.div (float64_of_int nsec) (float64_of_int 3600000000000)).

(** A signed 64-bit integer after an overflowing operation. *)
Definition wrap64 (z : Z) : Z := (z + 2 ^ 63) mod 2 ^ 64 - 2 ^ 63.

(** Seconds from the zero [Time] to the Unix epoch. *)
Definition unixToInternal : Z := 62135596800.

(** [time.Unix sec 0]: the internal second count is [sec + unixToInternal]
    in 64-bit arithmetic. *)
Definition Unix (sec : Z) : Time := wrap64 (sec + unixToInternal) * Second.

End time.

(** ** The process environment *)

Module host.

(** One execution of the [git] binary: working directory and arguments. *)
Record Invocation := {
  inv_dir : string;
  inv_args : list string;
}.

(** What [cmd.Run] leaves behind: its error ([None] on exit status 0) and
    the two captured streams. *)
Record Completed := {
  run_err : option string;
  stdout : string;
  stderr : string;
}.

(** The invocations made so far, oldest first, each with its completion. *)
Definition Log := list (Invocation * Completed).

End host.

(** The environment of the process.  [exec] answers an invocation of [git]
    given everything that was invoked before it, which lets any sequence
    of answers be described.  [Abs] is the first result of
    [filepath.Abs], whose error the code discards. *)
Class Host := {
  exec : host.Log -> host.Invocation -> host.Completed;
  Getwd : string * option string;
  Abs : string -> string;
  PathSeparator : string;
}.

(** Computations that invoke [git]: the log is threaded through. *)
Definition Git (A : Type) : Type := host.Log -> A * host.Log.

Definition ret {A} (a : A) : Git A := fun log => (a, log).

Definition bind {A B} (c : Git A) (k : A -> Git B) : Git B :=
  fun log => let (a, log') := c log in k a log'.

Notation "'let*' x ':=' c 'in' k" := (bind c (fun x => k))
  (at level 10, x pattern, c at level 100, k at level 200).

(** A Go [error]. *)
Definition error := option string.

(** ** Package [internal/git] *)

Module git.

(** *** exec.go *)

Definition run `{GoRuntime} `{Host} (dir : string) (args : list string)
  : Git (string * error) :=
  fun log =>
    let inv := {| host.inv_dir := dir; host.inv_args := args |} in
    let c := exec log inv in
    let log := append log (inv, c) in
    match host.run_err c with
    | Some e =>
        let msg := TrimSpace (host.stderr c) in
        let msg := if String.eqb msg "" then e else msg in
        (("", Some ("git " ++ strings.Join args " " ++ ": " ++ msg)), log)
    | None => ((TrimSpace (host.stdout c), None), log)
    end.

(** *** worktree.go *)

Record Worktree := {
  Path : string;
  Head : string;
  Branch : string;
  IsBare : bool;
  IsDetached : bool;
  IsCurrent : bool;
  Modified : Z;
  Untracked : Z;
  Ahead : Z;
  Behind : Z;
  IsMerged : bool;
  LastCommit : time.Time;
}.

Definition IsClean (w : Worktree) : bool :=
  (Modified w =? 0) && (Untracked w =? 0).

Definition BranchShort (w : Worktree) : string :=
  strings.TrimPrefix (Branch w) "refs/heads/".

Definition StatusText (w : Worktree) : string :=
  if IsBare w then "bare"
  else if IsClean w then "clean"
  else
    let parts := [] in
    let parts :=
      if 0 <? Modified w
      then append parts (strings.Itoa (Modified w) ++ " modified")
      else parts in
    let parts :=
      if 0 <? Untracked w
      then append parts (strings.Itoa (Untracked w) ++ " untracked")
      else parts in
    strings.Join parts ", ".

(** The two arrows are the UTF-8 encodings of U+2193 and U+2191. *)
Definition arrowDown : string :=
  String (ascii_of_nat 226) (String (ascii_of_nat 134)
    (String (ascii_of_nat 147) EmptyString)).
Definition arrowUp : string :=
  String (ascii_of_nat 226) (String (ascii_of_nat 134)
    (String (ascii_of_nat 145) EmptyString)).

Definition SyncText (w : Worktree) : string :=
  if (Ahead w =? 0) && (Behind w =? 0) then "-"
  else
    let parts := [] in
    let parts :=
      if 0 <? Behind w
      then append parts (arrowDown ++ strings.Itoa (Behind w)) else parts in
    let parts :=
      if 0 <? Ahead w
      then append parts (arrowUp ++ strings.Itoa (Ahead w)) else parts in
    strings.Join parts " ".

(** [InactiveDays], evaluated when the clock reads [now]:
    [int(time.Since(w.LastCommit).Hours() / 24)]. *)
Definition InactiveDays (now : time.Time) (w : Worktree) : Z :=
  if time.IsZero (LastCommit w) then 0
  else
    time.int_of_float64
      (PrimFloat.div (time.Hours (time.Since now (LastCommit w)))
                     (time.float64_of_int 24)).

Definition emptyWorktree : Worktree :=
  {| Path := ""; Head := ""; Branch := ""; IsBare := false;
     IsDetached := false; IsCurrent := false; Modified := 0; Untracked := 0;
     Ahead := 0; Behind := 0; IsMerged := false; LastCommit := 0 |}.

Definition set_Path (w : Worktree) (v : string) : Worktree :=
  {| Path := v; Head := Head w; Branch := Branch w; IsBare := IsBare w;
     IsDetached := IsDetached w; IsCurrent := IsCurrent w;
     Modified := Modified w; Untracked := Untracked w; Ahead := Ahead w;
     Behind := Behind w; IsMerged := IsMerged w; LastCommit := LastCommit w |}.

Definition set_Head (w : Worktree) (v : string) : Worktree :=
  {| Path := Path w; Head := v; Branch := Branch w; IsBare := IsBare w;
     IsDetached := IsDetached w; IsCurrent := IsCurrent w;
     Modified := Modified w; Untracked := Untracked w; Ahead := Ahead w;
     Behind := Behind w; IsMerged := IsMerged w; LastCommit := LastCommit w |}.

Definition set_Branch (w : Worktree) (v : string) : Worktree :=
  {| Path := Path w; Head := Head w; Branch := v; IsBare := IsBare w;
     IsDetached := IsDetached w; IsCurrent := IsCurrent w;
     Modified := Modified w; Untracked := Untracked w; Ahead := Ahead w;
     Behind := Behind w; IsMerged := IsMerged w; LastCommit := LastCommit w |}.

Definition set_IsBare (w : Worktree) (v : bool) : Worktree :=
  {| Path := Path w; Head := Head w; Branch := Branch w; IsBare := v;
     IsDetached := IsDetached w; IsCurrent := IsCurrent w;
     Modified := Modified w; Untracked := Untracked w; Ahead := Ahead w;
     Behind := Behind w; IsMerged := IsMerged w; LastCommit := LastCommit w |}.

Definition set_IsDetached (w : Worktree) (v : bool) : Worktree :=
  {| Path := Path w; Head := Head w; Branch := Branch w; IsBare := IsBare w;
     IsDetached := v; IsCurrent := IsCurrent w;
     Modified := Modified w; Untracked := Untracked w; Ahead := Ahead w;
     Behind := Behind w; IsMerged := IsMerged w; LastCommit := LastCommit w |}.

Definition set_IsCurrent (w : Worktree) (v : bool) : Worktree :=
  {| Path := Path w; Head := Head w; Branch := Branch w; IsBare := IsBare w;
     IsDetached := IsDetached w; IsCurrent := v;
     Modified := Modified w; Untracked := Untracked w; Ahead := Ahead w;
     Behind := Behind w; IsMerged := IsMerged w; LastCommit := LastCommit w |}.

(** The body of the scanning loop of [ListWorktrees].  [current] is the
    record under construction (a pointer in the source, [nil] before the
    first [worktree] line). *)
Definition scanLine (st : list Worktree * option Worktree) (line : string)
  : list Worktree * option Worktree :=
  let (worktrees, current) := st in
  if strings.HasPrefix line "worktree " then
    let worktrees :=
      match current with
      | Some c => append worktrees c
      | None => worktrees
      end in
    (worktrees,
     Some (set_Path emptyWorktree (strings.TrimPrefix line "worktree ")))
  else if strings.HasPrefix line "HEAD " then
    (worktrees,
     option_map (fun c => set_Head c (strings.TrimPrefix line "HEAD ")) current)
  else if strings.HasPrefix line "branch " then
    (worktrees,
     option_map (fun c => set_Branch c (strings.TrimPrefix line "branch "))
       current)
  else if String.eqb line "bare" then
    (worktrees, option_map (fun c => set_IsBare c true) current)
  else if String.eqb line "detached" then
    (worktrees, option_map (fun c => set_IsDetached c true) current)
  else st.

(** The loop that marks the worktree the process runs in. *)
Definition markCurrent `{Host} (cwd : string) (w : Worktree) : Worktree :=
  let wtAbs := Abs (Path w) in
  if String.eqb cwd wtAbs || strings.HasPrefix cwd (wtAbs ++ PathSeparator)
  then set_IsCurrent w true
  else w.

(** [ListWorktrees] parses [git worktree list --porcelain]. *)
Definition ListWorktrees `{GoRuntime} `{Host} (repoDir : string)
  : Git (list Worktree * error) :=
  let* (out, err) := run repoDir ["worktree"; "list"; "--porcelain"] in
  match err with
  | Some e => ret ([], Some e)
  | None =>
      let (worktrees, current) :=
        fold_left scanLine (ScanLines out) ([], None) in
      let worktrees :=
        match current with
        | Some c => append worktrees c
        | None => worktrees
        end in
      let worktrees :=
        match Getwd with
        | (cwd, None) =>
            let cwd := Abs cwd in
            map (markCurrent cwd) worktrees
        | (_, Some _) => worktrees
        end in
      ret (worktrees, None)
  end.

(** The search loop of [RemoveWorktree]: the short branch name of the first
    listed worktree whose absolute path is that of [wtPath]. *)
Fixpoint branchAt `{Host} (worktrees : list Worktree) (wtPath : string)
  : string :=
  match worktrees with
  | [] => ""
  | wt :: rest =>
      let absWt := Abs (Path wt) in
      let absTarget := Abs wtPath in
      if String.eqb absWt absTarget then BranchShort wt
      else branchAt rest wtPath
  end.

(** [RemoveWorktree] removes a worktree and optionally deletes the
    branch. *)
Definition RemoveWorktree `{GoRuntime} `{Host}
  (repoDir wtPath : string) (deleteBranch : bool) : Git error :=
  let* branchName :=
    (if deleteBranch then
       let* (worktrees, err) := ListWorktrees repoDir in
       match err with
       | None => ret (branchAt worktrees wtPath)
       | Some _ => ret ""
       end
     else ret "") in
  let* (_, err) := run repoDir ["worktree"; "remove"; wtPath] in
  let* failure :=
    (match err with
     | Some _ =>
         let* (_, err) :=
           run repoDir ["worktree"; "remove"; "--force"; wtPath] in
         ret err
     | None => ret None
     end) in
  match failure with
  | Some e => ret (Some e)
  | None =>
      if deleteBranch && negb (String.eqb branchName "") then
        let* _ := run repoDir ["branch"; "-d"; branchName] in
        ret None
      else ret None
  end.

(** [PruneWorktrees] cleans up stale worktree references. *)
Definition PruneWorktrees `{GoRuntime} `{Host} (repoDir : string)
  : Git error :=
  let* (_, err) := run repoDir ["worktree"; "prune"] in
  ret err.

(** *** exec.go, continued *)

Definition RepoRoot `{GoRuntime} `{Host} (dir : string)
  : Git (string * error) :=
  run dir ["rev-parse"; "--show-toplevel"].

(** The fallback loop of [DefaultBranch] over the conventional names: the
    first name whose branch exists. *)
Fixpoint firstVerified `{GoRuntime} `{Host} (dir : string)
  (names : list string) : Git (option string) :=
  match names with
  | [] => ret None
  | name :: rest =>
      let* (_, err) :=
        run dir ["rev-parse"; "--verify"; "refs/heads/" ++ name] in
      match err with
      | None => ret (Some name)
      | Some _ => firstVerified dir rest
      end
  end.

Definition DefaultBranch `{GoRuntime} `{Host} (dir : string)
  : Git (string * error) :=
  let* (out, err) := run dir ["symbolic-ref"; "refs/remotes/origin/HEAD"] in
  match err with
  | None => ret (strings.TrimPrefix out "refs/remotes/origin/", None)
  | Some _ =>
      let* found := firstVerified dir ["main"; "master"] in
      match found with
      | Some name => ret (name, None)
      | None => ret ("main", None)
      end
  end.

Definition BranchExists `{GoRuntime} `{Host} (dir branch : string)
  : Git bool :=
  let* (_, err) :=
    run dir ["rev-parse"; "--verify"; "refs/heads/" ++ branch] in
  ret (match err with None => true | Some _ => false end).

Definition IsInsideWorktree `{GoRuntime} `{Host} (dir : string) : Git bool :=
  let* (out, err) := run dir ["rev-parse"; "--is-inside-work-tree"] in
  ret (match err with None => true | Some _ => false end &&
       String.eqb out "true").

(** *** worktree.go, continued *)

Definition ShortHead (w : Worktree) : string :=
  if 8 <=? strings.Len (Head w) then String.substring 0 8 (Head w)
  else Head w.

Definition set_Modified (w : Worktree) (v : Z) : Worktree :=
  {| Path := Path w; Head := Head w; Branch := Branch w; IsBare := IsBare w;
     IsDetached := IsDetached w; IsCurrent := IsCurrent w;
     Modified := v; Untracked := Untracked w; Ahead := Ahead w;
     Behind := Behind w; IsMerged := IsMerged w; LastCommit := LastCommit w |}.

Definition set_Untracked (w : Worktree) (v : Z) : Worktree :=
  {| Path := Path w; Head := Head w; Branch := Branch w; IsBare := IsBare w;
     IsDetached := IsDetached w; IsCurrent := IsCurrent w;
     Modified := Modified w; Untracked := v; Ahead := Ahead w;
     Behind := Behind w; IsMerged := IsMerged w; LastCommit := LastCommit w |}.

Definition set_AheadBehind (w : Worktree) (a b : Z) : Worktree :=
  {| Path := Path w; Head := Head w; Branch := Branch w; IsBare := IsBare w;
     IsDetached := IsDetached w; IsCurrent := IsCurrent w;
     Modified := Modified w; Untracked := Untracked w; Ahead := a;
     Behind := b; IsMerged := IsMerged w; LastCommit := LastCommit w |}.

Definition set_IsMerged (w : Worktree) (v : bool) : Worktree :=
  {| Path := Path w; Head := Head w; Branch := Branch w; IsBare := IsBare w;
     IsDetached := IsDetached w; IsCurrent := IsCurrent w;
     Modified := Modified w; Untracked := Untracked w; Ahead := Ahead w;
     Behind := Behind w; IsMerged := v; LastCommit := LastCommit w |}.

Definition set_LastCommit (w : Worktree) (v : time.Time) : Worktree :=
  {| Path := Path w; Head := Head w; Branch := Branch w; IsBare := IsBare w;
     IsDetached := IsDetached w; IsCurrent := IsCurrent w;
     Modified := Modified w; Untracked := Untracked w; Ahead := Ahead w;
     Behind := Behind w; IsMerged := IsMerged w; LastCommit := v |}.

(** What [EnrichWorktree] takes from the library and the file system:
    [strings.Fields], [strconv.Atoi] and [strconv.ParseInt s 10 64] (value
    and error), and whether [os.Stat] of a path reports that it does not
    exist, which may depend on what [git] was invoked for so far. *)
Class Platform := {
  Fields : string -> list string;
  Atoi : string -> Z * error;
  ParseInt : string -> Z * error;
  NotExist : host.Log -> string -> bool;
}.

Definition statNotExist `{Platform} (path : string) : Git bool :=
  fun log => (NotExist log path, log).

(** [n++] on an [int]. *)
Definition incr (n : Z) : Z := time.wrap64 (n + 1).

(** The body of the loop over the lines of [git status --porcelain]. *)
Definition statusLine (w : Worktree) (line : string) : Worktree :=
  if strings.Len line <? 2 then w
  else if String.eqb (String.substring 0 2 line) "??"
       then set_Untracked w (incr (Untracked w))
       else set_Modified w (incr (Modified w)).

(** The loop over the lines of [git branch --merged], which stops at the
    first line naming [branch]. *)
Fixpoint listedMerged `{GoRuntime} (lines : list string) (branch : string)
  : bool :=
  match lines with
  | [] => false
  | line :: rest =>
      let name :=
        TrimSpace (strings.TrimPrefix (TrimSpace line) "* ") in
      if String.eqb name branch then true else listedMerged rest branch
  end.

(** The four blocks of [EnrichWorktree], in source order.  The record is
    updated through a pointer in the source; here each block returns the
    updated record. *)

(** Modified + untracked count. *)
Definition countStatus `{GoRuntime} `{Host} (w : Worktree) : Git Worktree :=
  let* (out, err) := run (Path w) ["status"; "--porcelain"] in
  match err with
  | None =>
      if negb (String.eqb out "")
      then ret (fold_left statusLine (strings.Split out strings.LF) w)
      else ret w
  | Some _ => ret w
  end.

(** Ahead/behind upstream. *)
Definition countAheadBehind `{GoRuntime} `{Host} `{Platform} (w : Worktree)
  : Git Worktree :=
  let* (out, err) :=
    run (Path w)
      ["rev-list"; "--left-right"; "--count"; "HEAD...@{upstream}"] in
  match err with
  | None =>
      match Fields out with
      | [ahead; behind] =>
          ret (set_AheadBehind w (fst (Atoi ahead)) (fst (Atoi behind)))
      | _ => ret w
      end
  | Some _ => ret w
  end.

(** Merged into default branch. *)
Definition checkMerged `{GoRuntime} `{Host} (w : Worktree)
  (defaultBranch : string) : Git Worktree :=
  let branch := BranchShort w in
  if negb (String.eqb branch "") && negb (String.eqb branch defaultBranch)
  then
    let* (out, err) := run (Path w) ["branch"; "--merged"; defaultBranch] in
    match err with
    | None =>
        if listedMerged (strings.Split out strings.LF) branch
        then ret (set_IsMerged w true)
        else ret w
    | Some _ => ret w
    end
  else ret w.

(** Last commit time. *)
Definition readLastCommit `{GoRuntime} `{Host} `{Platform} (w : Worktree)
  : Git Worktree :=
  let* (out, err) := run (Path w) ["log"; "-1"; "--format=%ct"] in
  match err with
  | None =>
      if negb (String.eqb out "") then
        match ParseInt out with
        | (ts, None) => ret (set_LastCommit w (time.Unix ts))
        | (_, Some _) => ret w
        end
      else ret w
  | Some _ => ret w
  end.

(** [EnrichWorktree] populates status, ahead/behind, merge status, and
    last commit. *)
Definition EnrichWorktree `{GoRuntime} `{Host} `{Platform}
  (w : Worktree) (defaultBranch : string) : Git Worktree :=
  if IsBare w then ret w
  else
    let* missing := statNotExist (Path w) in
    if missing then ret w
    else
      let* w := countStatus w in
      let* w := countAheadBehind w in
      let* w := checkMerged w defaultBranch in
      readLastCommit w.

(** [AddWorktree] creates a new worktree at [targetPath] for the given
    branch. *)
Definition AddWorktree `{GoRuntime} `{Host}
  (repoDir targetPath branch baseBranch : string) : Git error :=
  let* known := BranchExists repoDir branch in
  if known then
    let* (_, err) := run repoDir ["worktree"; "add"; targetPath; branch] in
    ret err
  else
    let args := ["worktree"; "add"; "-b"; branch; targetPath] in
    let args :=
      if negb (String.eqb baseBranch "") then append args baseBranch
      else args in
    let* (_, err) := run repoDir args in
    ret err.

End git.

(** ** Run-time panics *)

(** The result of code that may panic (here: by indexing a slice out of
    range). *)
Inductive outcome (A : Type) : Type :=
| Returns (a : A)
| Panics.
Arguments Returns {A} a.
Arguments Panics {A}.

Definition obind {A B} (c : outcome A) (k : A -> outcome B) : outcome B :=
  match c with
  | Returns a => k a
  | Panics => Panics
  end.

Notation "'let!' x ':=' c 'in' k" := (obind c (fun x => k))
  (at level 10, x pattern, c at level 100, k at level 200).

(** [len(s)]. *)
Definition len {A} (s : list A) : Z := Z.of_nat (length s).

(** [s[i]] as a value: panics unless [0 <= i < len(s)]. *)
Definition index {A} (s : list A) (i : Z) : outcome A :=
  if i <? 0 then Panics
  else match s !! Z.to_nat i with
       | Some a => Returns a
       | None => Panics
       end.

(** [s[i] = a]: panics unless [0 <= i < len(s)]. *)
Definition store {A} (s : list A) (i : Z) (a : A) : outcome (list A) :=
  if (0 <=? i) && (i <? len s) then Returns (<[Z.to_nat i := a]> s)
  else Panics.

(** [for i := range s { body }] where [n] is [len(s)] on entry and the
    body works on a state [S]. *)
Definition for_range {S} (n : nat) (body : Z -> S -> outcome S) (s : S)
  : outcome S :=
  fold_left (fun acc i => let! s := acc in body (Z.of_nat i) s)
            (seq 0 n) (Returns s).

(** ** Package [internal/tui] *)

Module tui.

(** The package-level lipgloss styles. *)
Inductive Style : Type :=
| titleStyle | normalStyle | selectedStyle | currentStyle | dimStyle
| dirtyStyle | mergedStyle | staleStyle | checkStyle | helpStyle
| confirmYesStyle | confirmNoStyle.

(** The terminal: how lipgloss renders a string in a style. *)
Class Terminal := {
  Render : Style -> string -> string;
}.

(** *** The multi-select model *)

Inductive mode : Type := modeList | modeConfirm | modeDone.

Record item := {
  worktree : git.Worktree;
  checked : bool;
}.

Record model := {
  items : list item;
  cursor : Z;
  mode_ : mode;
  confirmCursor : Z;
  repoDir : string;
  removed : list string;
  errors : list string;
  width : Z;
  height : Z;
}.

Definition set_checked (it : item) (v : bool) : item :=
  {| worktree := worktree it; checked := v |}.

Definition set_items (m : model) (v : list item) : model :=
  {| items := v; cursor := cursor m; mode_ := mode_ m;
     confirmCursor := confirmCursor m; repoDir := repoDir m;
     removed := removed m; errors := errors m; width := width m;
     height := height m |}.

Definition set_cursor (m : model) (v : Z) : model :=
  {| items := items m; cursor := v; mode_ := mode_ m;
     confirmCursor := confirmCursor m; repoDir := repoDir m;
     removed := removed m; errors := errors m; width := width m;
     height := height m |}.

Definition set_mode (m : model) (v : mode) : model :=
  {| items := items m; cursor := cursor m; mode_ := v;
     confirmCursor := confirmCursor m; repoDir := repoDir m;
     removed := removed m; errors := errors m; width := width m;
     height := height m |}.

Definition set_confirmCursor (m : model) (v : Z) : model :=
  {| items := items m; cursor := cursor m; mode_ := mode_ m;
     confirmCursor := v; repoDir := repoDir m;
     removed := removed m; errors := errors m; width := width m;
     height := height m |}.

Definition set_removed (m : model) (v : list string) : model :=
  {| items := items m; cursor := cursor m; mode_ := mode_ m;
     confirmCursor := confirmCursor m; repoDir := repoDir m;
     removed := v; errors := errors m; width := width m;
     height := height m |}.

Definition set_errors (m : model) (v : list string) : model :=
  {| items := items m; cursor := cursor m; mode_ := mode_ m;
     confirmCursor := confirmCursor m; repoDir := repoDir m;
     removed := removed m; errors := v; width := width m;
     height := height m |}.

Definition set_size (m : model) (w h : Z) : model :=
  {| items := items m; cursor := cursor m; mode_ := mode_ m;
     confirmCursor := confirmCursor m; repoDir := repoDir m;
     removed := removed m; errors := errors m; width := w;
     height := h |}.

(** A [tea.Msg]: a key press is represented by [msg.String()]. *)
Inductive Msg : Type :=
| WindowSizeMsg (Width Height : Z)
| KeyMsg (key : string)
| OtherMsg.

(** A [tea.Cmd]: [nil] or [tea.Quit]. *)
Inductive Cmd : Type := NoCmd | Quit.

(** One [case] of a string switch. *)
Definition is_key (key : string) (cases : list string) : bool :=
  existsb (String.eqb key) cases.

Definition New (worktrees : list git.Worktree) (repoDir : string) : model :=
  {| items := map (fun wt => {| worktree := wt; checked := false |}) worktrees;
     cursor := 0; mode_ := modeList; confirmCursor := 0; repoDir := repoDir;
     removed := []; errors := []; width := 0; height := 0 |}.

Definition selectedCount (m : model) : Z :=
  fold_left (fun count it => if checked it then count + 1 else count)
            (items m) 0.

(** The body of the loop under key [a]: select a non-current merged
    worktree. *)
Definition selectMergedAt (i : Z) (its : list item) : outcome (list item) :=
  let! it := index its i in
  if negb (git.IsCurrent (worktree it)) && git.IsMerged (worktree it)
  then store its i (set_checked it true)
  else Returns its.

(** The body of the loop under key [n]: deselect. *)
Definition deselectAt (i : Z) (its : list item) : outcome (list item) :=
  let! it := index its i in
  store its i (set_checked it false).

(** [updateList] has a value receiver, but [m.items] is a slice: the
    writes below go to the backing array that the caller's model shares.
    The session keeps only the returned model, so the items are threaded
    through as a value. *)
Definition updateList (m : model) (key : string) : outcome (model * Cmd) :=
  if is_key key ["q"; "ctrl+c"; "esc"] then Returns (m, Quit)
  else if is_key key ["up"; "k"] then
    let m := if 0 <? cursor m then set_cursor m (cursor m - 1) else m in
    Returns (m, NoCmd)
  else if is_key key ["down"; "j"] then
    let m :=
      if cursor m <? len (items m) - 1 then set_cursor m (cursor m + 1)
      else m in
    Returns (m, NoCmd)
  else if is_key key [" "; "x"] then
    let! it := index (items m) (cursor m) in
    if negb (git.IsCurrent (worktree it)) then
      let! its := store (items m) (cursor m)
                    (set_checked it (negb (checked it))) in
      Returns (set_items m its, NoCmd)
    else Returns (m, NoCmd)
  else if is_key key ["a"] then
    let! its := for_range (length (items m)) selectMergedAt (items m) in
    Returns (set_items m its, NoCmd)
  else if is_key key ["n"] then
    let! its := for_range (length (items m)) deselectAt (items m) in
    Returns (set_items m its, NoCmd)
  else if is_key key ["d"; "enter"] then
    let selected := selectedCount m in
    let m :=
      if 0 <? selected then set_confirmCursor (set_mode m modeConfirm) 0
      else m in
    Returns (m, NoCmd)
  else Returns (m, NoCmd).

(** The body of the loop of [executeRemoval], for one item. *)
Definition removeItem `{GoRuntime} `{Host} (m : model) (it : item)
  : Git model :=
  if negb (checked it) then ret m
  else
    let wt := worktree it in
    let branch := git.BranchShort wt in
    let deleteBranch := git.IsMerged wt in
    let* err := git.RemoveWorktree (repoDir m) (git.Path wt) deleteBranch in
    match err with
    | Some e => ret (set_errors m (append (errors m) (branch ++ ": " ++ e)))
    | None => ret (set_removed m (append (removed m) branch))
    end.

Fixpoint removeItems `{GoRuntime} `{Host} (m : model) (its : list item)
  : Git model :=
  match its with
  | [] => ret m
  | it :: rest => let* m := removeItem m it in removeItems m rest
  end.

Definition executeRemoval `{GoRuntime} `{Host} (m : model)
  : Git (model * Cmd) :=
  let* m := removeItems m (items m) in
  let* _ := git.PruneWorktrees (repoDir m) in
  let m := set_mode m modeDone in
  ret (m, NoCmd).

Definition updateConfirm `{GoRuntime} `{Host} (m : model) (key : string)
  : Git (model * Cmd) :=
  if is_key key ["q"; "ctrl+c"; "esc"] then
    ret (set_mode m modeList, NoCmd)
  else if is_key key ["left"; "h"; "right"; "l"; "tab"] then
    ret (set_confirmCursor m (1 - confirmCursor m), NoCmd)
  else if is_key key ["y"] then
    executeRemoval (set_confirmCursor m 1)
  else if is_key key ["n"] then
    ret (set_mode m modeList, NoCmd)
  else if is_key key ["enter"] then
    if confirmCursor m =? 1 then executeRemoval m
    else ret (set_mode m modeList, NoCmd)
  else ret (m, NoCmd).

Definition updateDone (m : model) (key : string) : model * Cmd := (m, Quit).

Definition Update `{GoRuntime} `{Host} (m : model) (msg : Msg)
  : Git (outcome (model * Cmd)) :=
  match msg with
  | WindowSizeMsg w h => ret (Returns (set_size m w h, NoCmd))
  | KeyMsg key =>
      match mode_ m with
      | modeList => ret (updateList m key)
      | modeConfirm => let* r := updateConfirm m key in ret (Returns r)
      | modeDone => ret (Returns (updateDone m key))
      end
  | OtherMsg => ret (Returns (m, NoCmd))
  end.

(** *** The single-select model of [switch]

    Its fields [items], [cursor], [width] and [height] carry the prefix
    [sel_] here, and its method [Update] is [selector_Update]. *)

Record selectorModel := {
  sel_items : list git.Worktree;
  sel_cursor : Z;
  selected : option git.Worktree;
  done : bool;
  sel_width : Z;
  sel_height : Z;
}.

Definition NewSelector (worktrees : list git.Worktree) : selectorModel :=
  {| sel_items := worktrees; sel_cursor := 0; selected := None;
     done := false; sel_width := 0; sel_height := 0 |}.

Definition selector_Update (m : selectorModel) (msg : Msg)
  : outcome (selectorModel * Cmd) :=
  match msg with
  | WindowSizeMsg w h =>
      Returns ({| sel_items := sel_items m; sel_cursor := sel_cursor m;
                  selected := selected m; done := done m;
                  sel_width := w; sel_height := h |}, NoCmd)
  | KeyMsg key =>
      if is_key key ["q"; "ctrl+c"; "esc"] then
        Returns ({| sel_items := sel_items m; sel_cursor := sel_cursor m;
                    selected := selected m; done := true;
                    sel_width := sel_width m; sel_height := sel_height m |},
                 Quit)
      else if is_key key ["up"; "k"] then
        let c := if 0 <? sel_cursor m then sel_cursor m - 1
                 else sel_cursor m in
        Returns ({| sel_items := sel_items m; sel_cursor := c;
                    selected := selected m; done := done m;
                    sel_width := sel_width m; sel_height := sel_height m |},
                 NoCmd)
      else if is_key key ["down"; "j"] then
        let c := if sel_cursor m <? len (sel_items m) - 1
                 then sel_cursor m + 1 else sel_cursor m in
        Returns ({| sel_items := sel_items m; sel_cursor := c;
                    selected := selected m; done := done m;
                    sel_width := sel_width m; sel_height := sel_height m |},
                 NoCmd)
      else if is_key key ["enter"] then
        let! sel :=
          (if 0 <? len (sel_items m) then
             let! wt := index (sel_items m) (sel_cursor m) in
             Returns (Some wt)
           else Returns (selected m)) in
        Returns ({| sel_items := sel_items m; sel_cursor := sel_cursor m;
                    selected := sel; done := true;
                    sel_width := sel_width m; sel_height := sel_height m |},
                 Quit)
      else Returns (m, NoCmd)
  | OtherMsg => Returns (m, NoCmd)
  end.

(** [tea.NewProgram(m, ...).Run()] on the single-select model: the model
    the program ends with and its error.  Which messages arrive is the
    business of the terminal and of the user. *)
Class Program := {
  RunProgram : selectorModel -> selectorModel * error;
}.

(** [RunSelector] launches the selector and returns the chosen worktree,
    or [nil] if the user cancelled. *)
Definition RunSelector `{Program} (worktrees : list git.Worktree)
  : option git.Worktree * error :=
  let m := NewSelector worktrees in
  let (result, err) := RunProgram m in
  match err with
  | Some e => (None, Some e)
  | None => (selected result, None)
  end.

(** *** Tags *)

(** [BuildTags], evaluated when the clock reads [now]. *)
Definition BuildTags `{Terminal} (now : time.Time) (wt : git.Worktree)
  : string :=
  let tags := [] in
  let tags :=
    if git.IsCurrent wt
    then append tags (Render currentStyle "current") else tags in
  let tags :=
    if negb (git.IsClean wt)
    then append tags (Render dirtyStyle (git.StatusText wt)) else tags in
  let tags :=
    if git.IsMerged wt
    then append tags (Render mergedStyle "merged") else tags in
  let sync := git.SyncText wt in
  let tags :=
    if negb (String.eqb sync "-")
    then append tags (Render dimStyle sync) else tags in
  let days := git.InactiveDays now wt in
  let tags :=
    if 30 <? days
    then append tags
           (Render staleStyle (strings.Itoa days ++ "d stale"))
    else tags in
  if len tags =? 0 then ""
  else Render dimStyle "[" ++
       strings.Join tags (Render dimStyle ", ") ++
       Render dimStyle "]".

End tui.

(** ** Package [os]

    The file system and the user's account, taken as given.  What [Stat]
    reports may depend on what [git] was invoked for so far. *)

Module os.

Class FileSystem := {
  UserHomeDir : string * error;
  Stat : host.Log -> string -> error;
}.

End os.

(** ** Package [path/filepath]

    [Base], [Dir] and [Join] are the library's; they depend on the
    operating system and are taken as given. *)

Module filepath.

Class Library := {
  Base : string -> string;
  Dir : string -> string;
  Join : list string -> string;
}.

End filepath.

(** ** Package [internal/config] *)

Module config.

(** [LayoutStrategy] is a string type; a configuration file can hold any
    string. *)
Definition LayoutStrategy : Type := string.
Definition LayoutAdjacent : LayoutStrategy := "adjacent".
Definition LayoutSubdirectory : LayoutStrategy := "subdirectory".

Record LayoutConfig := {
  Strategy : LayoutStrategy;
  Pattern : string;
}.

Record CleanupConfig := {
  StaleDays : Z;
  AutoPrune : bool;
}.

Record HooksConfig := {
  PostAdd : string;
}.

Record Config := {
  Layout : LayoutConfig;
  Cleanup : CleanupConfig;
  Hooks : HooksConfig;
}.

Definition Default : Config :=
  {| Layout := {| Strategy := LayoutAdjacent; Pattern := "{repo}-{branch}" |};
     Cleanup := {| StaleDays := 30; AutoPrune := true |};
     Hooks := {| PostAdd := "" |} |}.

(** The pairs of the replacer of [sanitizeBranch]: every old and new
    string is one byte. *)
Definition replacerPairs : list (ascii * ascii) :=
  [ ("/", "-"); ("\", "-"); (":", "-"); ("@", "-"); ("*", "-"); ("?", "-");
    ("[", "-"); ("]", "-"); ("~", "-"); ("^", "-"); (" ", "-") ]%char.

Definition sanitizeBranch (branch : string) : string :=
  strings.ByteReplace replacerPairs branch.

(** [WorktreePath] computes the target path for a new worktree. *)
Definition WorktreePath `{filepath.Library} (c : Config)
  (repoRoot branch : string) : string :=
  let repoName := filepath.Base repoRoot in
  let safeBranch := sanitizeBranch branch in
  if String.eqb (Strategy (Layout c)) LayoutSubdirectory
  then filepath.Join [repoRoot; ".worktrees"; safeBranch]
  else
    let pattern := Pattern (Layout c) in
    let pattern :=
      if String.eqb pattern "" then "{repo}-{branch}" else pattern in
    let dirName := strings.ReplaceAll pattern "{repo}" repoName in
    let dirName := strings.ReplaceAll dirName "{branch}" safeBranch in
    filepath.Join [filepath.Dir repoRoot; dirName].

(** [toml.DecodeFile path cfg] writes the settings of the file into [cfg]:
    what [cfg] holds afterwards, and the error, are taken as given. *)
Class Decoder := {
  DecodeFile : host.Log -> string -> Config -> Config * error;
}.

(** [loadFile] returns without a trace when the file cannot be found.  A
    file that does not parse leaves in [cfg] what the decoder wrote and
    costs a warning on the standard error.  The lines written to the
    standard error are returned with the configuration. *)
Definition loadFile `{os.FileSystem} `{Decoder} (path : string)
  (cfg : Config) : Git (Config * list string) :=
  fun log =>
    match os.Stat log path with
    | Some _ => ((cfg, []), log)
    | None =>
        let (cfg, err) := DecodeFile log path cfg in
        match err with
        | Some e =>
            ((cfg, ["warning: failed to parse config " ++ path ++ ": " ++ e]),
             log)
        | None => ((cfg, []), log)
        end
    end.

(** [LoadForRepo] loads the configuration, the local file resolved from
    [repoRoot]; with it come the warnings written to the standard
    error. *)
Definition LoadForRepo `{Host} `{filepath.Library} `{os.FileSystem}
  `{Decoder} (repoRoot : string) : Git (Config * list string) :=
  let cfg := Default in
  let* (cfg, warned) :=
    (match os.UserHomeDir with
     | (home, None) =>
         let globalPath :=
           filepath.Join [home; ".config"; "git-wt"; "config.toml"] in
         loadFile globalPath cfg
     | (_, Some _) => ret (cfg, [])
     end) in
  let localDir := repoRoot in
  let localDir := if String.eqb localDir "" then fst Getwd else localDir in
  let* (cfg, warned') :=
    (if negb (String.eqb localDir "") then
       let localPath := filepath.Join [localDir; ".git-wt.toml"] in
       loadFile localPath cfg
     else ret (cfg, [])) in
  ret (cfg, app warned warned').

End config.

(** ** Package [cmd] *)

Module cmd.

(** *** switch: branch resolution *)

(** The first loop of [matchWorktrees]: it returns at the first worktree
    whose short branch name equals the query under case folding. *)
Fixpoint exactMatch `{GoRuntime} (worktrees : list git.Worktree)
  (query : string) : option git.Worktree :=
  match worktrees with
  | [] => None
  | wt :: rest =>
      if EqualFold (git.BranchShort wt) query then Some wt
      else exactMatch rest query
  end.

(** [matchWorktrees] returns worktrees matching the query with the
    priority exact match > prefix match > substring match. *)
Definition matchWorktrees `{GoRuntime} (worktrees : list git.Worktree)
  (query : string) : list git.Worktree :=
  let queryLower := ToLower query in
  match exactMatch worktrees query with
  | Some wt => [wt]
  | None =>
      let prefixMatches :=
        fold_left
          (fun acc wt =>
             if strings.HasPrefix (ToLower (git.BranchShort wt)) queryLower
             then append acc wt else acc)
          worktrees [] in
      if 0 <? len prefixMatches then prefixMatches
      else
        let substringMatches :=
          fold_left
            (fun acc wt =>
               if strings.Contains (ToLower (git.BranchShort wt)) queryLower
               then append acc wt else acc)
            worktrees [] in
        substringMatches
  end.

(** *** clean: the candidate filter *)

(** The flags of [clean] that the filter reads. *)
Record cleanFlags := {
  cleanMerged : bool;
  cleanStaleDays : Z;
}.

(** The effective threshold and whether a criterion was requested
    explicitly; [cfgStaleDays] is [cfg.Cleanup.StaleDays]. *)
Definition hasExplicitFlags (f : cleanFlags) : bool :=
  cleanMerged f || (0 <? cleanStaleDays f).

Definition staleDays (f : cleanFlags) (cfgStaleDays : Z) : Z :=
  if negb (hasExplicitFlags f) then cfgStaleDays else cleanStaleDays f.

(** The staleness test of the filter, for one worktree, when the clock
    reads [now]. *)
Definition staleForClean (f : cleanFlags) (cfgStaleDays : Z)
  (now : time.Time) (wt : git.Worktree) : bool :=
  if hasExplicitFlags f
  then (0 <? cleanStaleDays f) &&
       (staleDays f cfgStaleDays <=? git.InactiveDays now wt)
  else (0 <? staleDays f cfgStaleDays) &&
       (staleDays f cfgStaleDays <=? git.InactiveDays now wt).

(** The reasons collected for one worktree.  The clock is read once for
    the test ([now]) and once more for the text ([now']). *)
Definition cleanReasons (f : cleanFlags) (cfgStaleDays : Z)
  (now now' : time.Time) (wt : git.Worktree) : list string :=
  let reasons := [] in
  if hasExplicitFlags f then
    let reasons :=
      if cleanMerged f && git.IsMerged wt then append reasons "merged"
      else reasons in
    let reasons :=
      if staleForClean f cfgStaleDays now wt
      then append reasons
             (strings.Itoa (git.InactiveDays now' wt) ++ "d inactive")
      else reasons in
    reasons
  else
    let reasons :=
      if git.IsMerged wt then append reasons "merged" else reasons in
    let reasons :=
      if staleForClean f cfgStaleDays now wt
      then append reasons
             (strings.Itoa (git.InactiveDays now' wt) ++ "d inactive")
      else reasons in
    reasons.

(** Whether the filter loop keeps a worktree as a candidate for removal. *)
Definition isCandidate (f : cleanFlags) (cfgStaleDays : Z)
  (defaultBranch : string) (now now' : time.Time) (wt : git.Worktree)
  : bool :=
  if git.IsBare wt || git.IsCurrent wt then false
  else if String.eqb (git.BranchShort wt) defaultBranch then false
  else 0 <? len (cleanReasons f cfgStaleDays now now' wt).

(** *** clean: the command

    What a command prints is kept as the sequence of its print
    statements, each with the values it formats; colours are left out.
    The warnings of the configuration go to the standard error, the rest
    to the standard output. *)

Record candidate := {
  worktree : git.Worktree;
  reason : string;
}.

Inductive cleanLine : Type :=
| ConfigWarning (line : string)
| NothingToClean
| Heading (n : Z)
| Row (branch path : string) (tags : list string)
| Blank
| DryRunNotice
| Prompt
| Cancelled
| FailedToRemove (branch err : string)
| Removed (branch : string)
| Summary (removed : Z).

(** [for i := range worktrees { git.EnrichWorktree(&worktrees[i], ...) }],
    the loop that every command runs on the listing. *)
Fixpoint enrichAll `{GoRuntime} `{Host} `{git.Platform}
  (worktrees : list git.Worktree) (defaultBranch : string)
  : Git (list git.Worktree) :=
  match worktrees with
  | [] => ret []
  | wt :: rest =>
      let* wt := git.EnrichWorktree wt defaultBranch in
      let* rest := enrichAll rest defaultBranch in
      ret (wt :: rest)
  end.

(** One iteration of the filter loop.  [clock i] is what the clock reads
    in iteration [i], at the test and at the text. *)
Definition filterStep (f : cleanFlags) (cfgStaleDays : Z)
  (defaultBranch : string) (clock : nat -> time.Time * time.Time)
  (acc : list candidate * nat) (wt : git.Worktree)
  : list candidate * nat :=
  let (candidates, i) := acc in
  let (now, now') := clock i in
  (if isCandidate f cfgStaleDays defaultBranch now now' wt
   then append candidates
          {| worktree := wt;
             reason :=
               strings.Join (cleanReasons f cfgStaleDays now now' wt) ", " |}
   else candidates,
   S i).

Definition filterCandidates (f : cleanFlags) (cfgStaleDays : Z)
  (defaultBranch : string) (clock : nat -> time.Time * time.Time)
  (worktrees : list git.Worktree) : list candidate :=
  fst (fold_left (filterStep f cfgStaleDays defaultBranch clock) worktrees
         ([], O)).

(** The line that displays one candidate. *)
Definition candidateRow (c : candidate) : cleanLine :=
  let wt := worktree c in
  let branch := git.BranchShort wt in
  let tags := [reason c] in
  let tags :=
    if negb (git.IsClean wt) then append tags (git.StatusText wt)
    else tags in
  Row branch (git.Path wt) tags.

(** The removal loop: [removed] counts the successes, [out] is what was
    printed so far. *)
Fixpoint removeCandidates `{GoRuntime} `{Host} (repoRoot : string)
  (candidates : list candidate) (removed : Z) (out : list cleanLine)
  : Git (Z * list cleanLine) :=
  match candidates with
  | [] => ret (removed, out)
  | c :: rest =>
      let wt := worktree c in
      let branch := git.BranchShort wt in
      let deleteBranch := git.IsMerged wt in
      let* err := git.RemoveWorktree repoRoot (git.Path wt) deleteBranch in
      match err with
      | Some e =>
          removeCandidates repoRoot rest removed
            (append out (FailedToRemove branch e))
      | None =>
          removeCandidates repoRoot rest (git.incr removed)
            (append out (Removed branch))
      end
  end.

(** [if cfg.Cleanup.AutoPrune { _ = git.PruneWorktrees(repoRoot) }]. *)
Definition autoPrune `{GoRuntime} `{Host} (cfg : config.Config)
  (repoRoot : string) : Git unit :=
  if config.AutoPrune (config.Cleanup cfg) then
    let* _ := git.PruneWorktrees repoRoot in
    ret tt
  else ret tt.

(** [runClean] with the flags [f], [cleanDryRun] and [cleanForce].
    [answer] is the line that the confirmation reads from the standard
    input. *)
Definition runClean `{GoRuntime} `{Host} `{git.Platform}
  `{filepath.Library} `{os.FileSystem} `{config.Decoder}
  (f : cleanFlags) (cleanDryRun cleanForce : bool)
  (clock : nat -> time.Time * time.Time) (answer : string)
  : Git (error * list cleanLine) :=
  let* (repoRoot, err) := git.RepoRoot "" in
  match err with
  | Some _ => ret (Some "not a git repository", [])
  | None =>
      let* (cfg, warned) := config.LoadForRepo repoRoot in
      let out := map ConfigWarning warned in
      let* (worktrees, err) := git.ListWorktrees repoRoot in
      match err with
      | Some e => ret (Some e, out)
      | None =>
          let* (defaultBranch, _) := git.DefaultBranch repoRoot in
          let* worktrees := enrichAll worktrees defaultBranch in
          let candidates :=
            filterCandidates f (config.StaleDays (config.Cleanup cfg))
              defaultBranch clock worktrees in
          if len candidates =? 0 then
            let* _ := autoPrune cfg repoRoot in
            ret (None, append out NothingToClean)
          else
            let out := append out (Heading (len candidates)) in
            let out := app out (map candidateRow candidates) in
            let out := append out Blank in
            if cleanDryRun then ret (None, append out DryRunNotice)
            else
              let out := if negb cleanForce then append out Prompt else out in
              let answer := TrimSpace (ToLower answer) in
              if negb cleanForce &&
                 (negb (String.eqb answer "y") &&
                  negb (String.eqb answer "yes"))
              then ret (None, append out Cancelled)
              else
                let* (removed, out) :=
                  removeCandidates repoRoot candidates 0 out in
                let* _ := autoPrune cfg repoRoot in
                ret (None, append out (Summary removed))
      end
  end.

(** *** switch: the command *)

(** [fmt]'s verb [%q] on a string. *)
Class Quoting := {
  Quote : string -> string;
}.

(** The two shell functions that [--init] prints. *)
Inductive shellScript : Type := shellInitBashZsh | shellInitFish.

(** What [switch] prints: a script or a path on the standard output, the
    notice of several matches on the standard error. *)
Inductive switchLine : Type :=
| InitScript (script : shellScript)
| MultipleMatch (query : string)
| PathLine (path : string).

Definition printShellInit `{GoRuntime} (shell : string)
  : error * list switchLine :=
  let lowered := ToLower shell in
  if tui.is_key lowered ["bash"; "zsh"]
  then (None, [InitScript shellInitBashZsh])
  else if tui.is_key lowered ["fish"]
  then (None, [InitScript shellInitFish])
  else (Some ("unsupported shell: " ++ shell
              ++ " (supported: bash, zsh, fish)"), []).

(** The selector launched on [worktrees], after [out] was printed. *)
Definition selectAmong `{tui.Program} (worktrees : list git.Worktree)
  (out : list switchLine) : error * list switchLine :=
  let (selected, err) := tui.RunSelector worktrees in
  match err with
  | Some e => (Some e, out)
  | None =>
      match selected with
      | None => (Some "cancelled", out)
      | Some wt => (None, append out (PathLine (git.Path wt)))
      end
  end.

(** The loop that filters out bare and detached worktrees. *)
Definition switchCandidates (worktrees : list git.Worktree)
  : list git.Worktree :=
  fold_left
    (fun candidates wt =>
       if git.IsBare wt || git.IsDetached wt then candidates
       else append candidates wt)
    worktrees [].

(** [runSwitch] with the flag [--init] in [switchInitShell]. *)
Definition runSwitch `{GoRuntime} `{Host} `{git.Platform} `{tui.Program}
  `{Quoting} (switchInitShell : string) (args : list string)
  : Git (error * list switchLine) :=
  if negb (String.eqb switchInitShell "")
  then ret (printShellInit switchInitShell)
  else
    let* (repoDir, err) := git.RepoRoot "" in
    match err with
    | Some _ => ret (Some "not a git repository", [])
    | None =>
        let* (worktrees, err) := git.ListWorktrees repoDir in
        match err with
        | Some e => ret (Some e, [])
        | None =>
            let* (defaultBranch, _) := git.DefaultBranch repoDir in
            let* worktrees := enrichAll worktrees defaultBranch in
            let candidates := switchCandidates worktrees in
            if len candidates =? 0
            then ret (Some "no worktrees available", [])
            else
              match args with
              | [] => ret (selectAmong candidates [])
              | query :: _ =>
                  let matches := matchWorktrees candidates query in
                  match matches with
                  | [] =>
                      ret (Some ("no worktree matching " ++ Quote query), [])
                  | [wt] => ret (None, [PathLine (git.Path wt)])
                  | _ => ret (selectAmong matches [MultipleMatch query])
                  end
              end
        end
    end.

(** *** ls: the command and its table *)

(** What [ls] prints: the notice of an empty listing, or the table of
    the worktrees given to [printWorktreeTable]. *)
Inductive lsOutput : Type :=
| NoWorktreesFound
| Table (worktrees : list git.Worktree).

Definition runLs `{GoRuntime} `{Host} `{git.Platform}
  : Git (error * list lsOutput) :=
  let* (repoRoot, err) := git.RepoRoot "" in
  match err with
  | Some _ => ret (Some "not a git repository", [])
  | None =>
      let* (worktrees, err) := git.ListWorktrees repoRoot in
      match err with
      | Some e => ret (Some e, [])
      | None =>
          if len worktrees =? 0 then ret (None, [NoWorktreesFound])
          else
            let* (defaultBranch, _) := git.DefaultBranch repoRoot in
            let* worktrees := enrichAll worktrees defaultBranch in
            ret (None, [Table worktrees])
      end
  end.

(** The name that the table shows for a worktree. *)
Definition rowName (wt : git.Worktree) : string :=
  let name := git.BranchShort wt in
  let name :=
    if git.IsDetached wt then git.ShortHead wt ++ " (detached)" else name in
  let name := if git.IsBare wt then "(bare)" else name in
  name.

(** The loop of [printWorktreeTable] that calculates the column widths,
    and the cap on the width of the paths. *)
Definition widen (widths : Z * Z * Z) (wt : git.Worktree) : Z * Z * Z :=
  let '(branchW, pathW, statusW) := widths in
  let name := rowName wt in
  let branchW :=
    if branchW <? strings.Len name then strings.Len name else branchW in
  let pathW :=
    if pathW <? strings.Len (git.Path wt) then strings.Len (git.Path wt)
    else pathW in
  let st := git.StatusText wt in
  let statusW :=
    if statusW <? strings.Len st then strings.Len st else statusW in
  (branchW, pathW, statusW).

Definition columnWidths (worktrees : list git.Worktree) : Z * Z * Z :=
  let branchW := strings.Len "Branch" in
  let pathW := strings.Len "Path" in
  let statusW := strings.Len "Status" in
  let '(branchW, pathW, statusW) :=
    fold_left widen worktrees (branchW, pathW, statusW) in
  let pathW := if 50 <? pathW then 50 else pathW in
  (branchW, pathW, statusW).

(** [s[i:]]: panics unless [0 <= i <= len(s)]. *)
Definition sliceFrom (s : string) (i : Z) : outcome string :=
  if (0 <=? i) && (i <=? strings.Len s)
  then Returns (String.substring (Z.to_nat i)
                  (String.length s - Z.to_nat i) s)
  else Panics.

(** The path of a row, truncated if needed. *)
Definition pathCell (pathW : Z) (path : string) : outcome string :=
  let pathStr := path in
  if pathW <? strings.Len pathStr then
    let! tail := sliceFrom pathStr (strings.Len pathStr - pathW + 3) in
    Returns ("..." ++ tail)
  else Returns pathStr.

End cmd.

(** ** A concrete environment, for evaluating the definitions *)

Module sample.

Definition isUpper (c : ascii) : bool :=
  (65 <=? nat_of_ascii c)%nat && (nat_of_ascii c <=? 90)%nat.

Definition lowerByte (c : ascii) : ascii :=
  if isUpper c then ascii_of_nat (nat_of_ascii c + 32) else c.

Fixpoint lower (s : string) : string :=
  match s with
  | EmptyString => EmptyString
  | String c s' => String (lowerByte c) (lower s')
  end.

Definition isSpace (c : ascii) : bool :=
  let n := nat_of_ascii c in
  ((9 <=? n)%nat && (n <=? 13)%nat) || (n =? 32)%nat.

Fixpoint trimLeft (s : string) : string :=
  match s with
  | EmptyString => EmptyString
  | String c s' => if isSpace c then trimLeft s' else s
  end.

Fixpoint trimRight (s : string) : string :=
  match s with
  | EmptyString => EmptyString
  | String c s' =>
      let r := trimRight s' in
      if isSpace c && String.eqb r "" then "" else String c r
  end.

Definition nl : string := String (ascii_of_nat 10) EmptyString.

Fixpoint linesFrom (s cur : string) : list string :=
  match s with
  | EmptyString => if String.eqb cur "" then [] else [cur]
  | String c s' =>
      if (nat_of_ascii c =? 10)%nat then cur :: linesFrom s' ""
      else linesFrom s' (cur ++ String c EmptyString)
  end.

(** ASCII-only text: case mapping, folding and trimming act on bytes. *)
Definition runtime : GoRuntime :=
  {| ToLower := lower;
     EqualFold := fun s t => String.eqb (lower s) (lower t);
     TrimSpace := fun s => trimRight (trimLeft s);
     ScanLines := fun s => linesFrom s "" |}.

Fixpoint args_eqb (a b : list string) : bool :=
  match a, b with
  | [], [] => true
  | x :: a', y :: b' => String.eqb x y && args_eqb a' b'
  | _, _ => false
  end.

Definition succeeded (out : string) : host.Completed :=
  {| host.run_err := None; host.stdout := out; host.stderr := "" |}.

Definition failed (msg : string) : host.Completed :=
  {| host.run_err := Some "exit status 1"; host.stdout := "";
     host.stderr := msg |}.

(** A scripted [git]: [worktree list] prints [porcelain]; a plain removal
    fails on the paths of [dirty] and a forced one on the paths of
    [locked]; deleting a branch and pruning always fail. *)
Definition scripted (porcelain : string) (dirty locked : list string)
  : Host :=
  {| exec := fun _ inv =>
       match host.inv_args inv with
       | [a; b; c] =>
           if args_eqb [a; b; c] ["worktree"; "list"; "--porcelain"]
           then succeeded porcelain
           else if args_eqb [a; b] ["worktree"; "remove"]
           then if existsb (String.eqb c) dirty
                then failed "fatal: contains modified or untracked files"
                else succeeded ""
           else failed "error: branch not found."
       | [a; b; c; d] =>
           if existsb (String.eqb d) locked
           then failed "fatal: cannot remove a locked working tree"
           else succeeded ""
       | _ => failed "fatal: cannot prune"
       end;
     Getwd := ("/repo", None);
     Abs := fun p => p;
     PathSeparator := "/" |}.

Definition porcelain : string :=
  "worktree /repo" ++ nl ++ "HEAD aaaa1111" ++ nl ++
  "branch refs/heads/main" ++ nl ++ nl ++
  "worktree /repo-feature-a" ++ nl ++ "HEAD bbbb2222" ++ nl ++
  "branch refs/heads/feature-a" ++ nl ++ nl ++
  "worktree /repo-feature-b" ++ nl ++ "HEAD cccc3333" ++ nl ++
  "branch refs/heads/feature-b" ++ nl ++ nl ++
  "worktree /repo-feature-c" ++ nl ++ "HEAD dddd4444" ++ nl ++
  "branch refs/heads/feature-c".

(** Styles are not rendered. *)
Definition terminal : tui.Terminal := {| tui.Render := fun _ s => s |}.

Definition wt (path branch : string) (current merged : bool)
  : git.Worktree :=
  {| git.Path := path; git.Head := ""; git.Branch := branch;
     git.IsBare := false; git.IsDetached := false; git.IsCurrent := current;
     git.Modified := 0; git.Untracked := 0; git.Ahead := 0; git.Behind := 0;
     git.IsMerged := merged; git.LastCommit := 0 |}.

(** The worktrees of the package's tests. *)
Definition testWorktrees : list git.Worktree :=
  [ wt "/repo" "refs/heads/main" true false;
    wt "/repo-feature-a" "refs/heads/feature-a" false true;
    wt "/repo-feature-b" "refs/heads/feature-b" false false;
    {| git.Path := "/repo-feature-c"; git.Head := "";
       git.Branch := "refs/heads/feature-c"; git.IsBare := false;
       git.IsDetached := false; git.IsCurrent := false; git.Modified := 3;
       git.Untracked := 1; git.Ahead := 0; git.Behind := 0;
       git.IsMerged := false; git.LastCommit := 0 |} ].

(** The candidates of the resolver's examples. *)
Definition candidates : list git.Worktree :=
  [ wt "/repo" "refs/heads/main" true false;
    wt "/repo-feature-auth" "refs/heads/feature-auth" false false;
    wt "/repo-feature-api" "refs/heads/feature-api" false false;
    wt "/repo-hotfix-123" "refs/heads/hotfix-123" false false ].

(** A worktree whose last commit was made at instant [t]. *)
Definition committedAt (t : time.Time) : git.Worktree :=
  {| git.Path := "/repo-old"; git.Head := "";
     git.Branch := "refs/heads/old"; git.IsBare := false;
     git.IsDetached := false; git.IsCurrent := false; git.Modified := 0;
     git.Untracked := 0; git.Ahead := 0; git.Behind := 0;
     git.IsMerged := false; git.LastCommit := t |}.

(** Some instant: day 738000 after the zero time. *)
Definition epoch : time.Time := 738000 * time.Day.

Definition bareWorktree : git.Worktree :=
  git.set_IsBare (wt "/repo.git" "" false false) true.

(** *** Instances for the functions added to the packages *)

Definition isDigit (c : ascii) : bool :=
  (48 <=? nat_of_ascii c)%nat && (nat_of_ascii c <=? 57)%nat.

Fixpoint digitsFrom (s : string) (acc : Z) : option Z :=
  match s with
  | EmptyString => Some acc
  | String c s' =>
      if isDigit c
      then digitsFrom s' (10 * acc + Z.of_nat (nat_of_ascii c - 48))
      else None
  end.

(** Unsigned decimal numerals that fit; anything else is a syntax error
    with value 0. *)
Definition parseDecimal (s : string) : Z * error :=
  match s with
  | EmptyString => (0, Some "invalid syntax")
  | _ => match digitsFrom s 0 with
         | Some n => if n <? 2 ^ 63 then (n, None)
                     else (2 ^ 63 - 1, Some "value out of range")
         | None => (0, Some "invalid syntax")
         end
  end.

Fixpoint fieldsFrom (s cur : string) : list string :=
  match s with
  | EmptyString => if String.eqb cur "" then [] else [cur]
  | String c s' =>
      if isSpace c
      then (if String.eqb cur "" then fieldsFrom s' ""
            else cur :: fieldsFrom s' "")
      else fieldsFrom s' (cur ++ String c EmptyString)
  end.

(** ASCII text, and a file system in which every path exists. *)
Definition platform : git.Platform :=
  {| git.Fields := fun s => fieldsFrom s "";
     git.Atoi := parseDecimal;
     git.ParseInt := parseDecimal;
     git.NotExist := fun _ _ => false |}.

(** A [git] that answers the queries of [EnrichWorktree]: two modified
    files, one untracked one and a malformed line; two commits ahead and
    one behind; [feature-a] merged; a last commit at Unix time
    1700000000.  Every other invocation fails. *)
Definition answering : Host :=
  {| exec := fun _ inv =>
       match host.inv_args inv with
       | a :: _ =>
           if String.eqb a "status"
           then succeeded (" M a.go" ++ nl ++ "M  b.go" ++ nl ++ "?" ++ nl ++
                           "?? c.go")
           else if String.eqb a "rev-list" then succeeded "2	1"
           else if String.eqb a "branch"
           then succeeded ("  feature-a" ++ nl ++ "* main")
           else if String.eqb a "log" then succeeded "1700000000"
           else failed "fatal: not supported"
       | [] => failed "fatal: no command"
       end;
     Getwd := ("/repo", None);
     Abs := fun p => p;
     PathSeparator := "/" |}.

(** The records that [porcelain] describes. *)
Definition described (path head branch : string) : git.Worktree :=
  {| git.Path := path; git.Head := head; git.Branch := branch;
     git.IsBare := false; git.IsDetached := false; git.IsCurrent := false;
     git.Modified := 0; git.Untracked := 0; git.Ahead := 0; git.Behind := 0;
     git.IsMerged := false; git.LastCommit := 0 |}.

Definition porcelainWorktrees : list git.Worktree :=
  [ described "/repo" "aaaa1111" "refs/heads/main";
    described "/repo-feature-a" "bbbb2222" "refs/heads/feature-a";
    described "/repo-feature-b" "cccc3333" "refs/heads/feature-b";
    described "/repo-feature-c" "dddd4444" "refs/heads/feature-c" ].

(** Paths of a Unix system that hold no empty, [.] or [..] element and no
    trailing separator: on these [filepath]'s functions split and join at
    the last separator. *)
Fixpoint lastSlash (s : string) (dir : option string) (cur : string)
  : option string * string :=
  match s with
  | EmptyString => (dir, cur)
  | String c s' =>
      if Ascii.eqb c "/"
      then lastSlash s'
             (Some match dir with
                   | None => cur
                   | Some d => d ++ "/" ++ cur
                   end) ""
      else lastSlash s' dir (cur ++ String c "")
  end.

Definition paths : filepath.Library :=
  {| filepath.Base := fun p => snd (lastSlash p None "");
     filepath.Dir := fun p =>
       match fst (lastSlash p None "") with
       | None => "."
       | Some EmptyString => "/"
       | Some d => d
       end;
     filepath.Join := fun elems => strings.Join elems "/" |}.

(** A repository: [git] answers the queries of the commands for the
    worktrees of [porcelain], with [origin/HEAD] at [main] and
    [feature-a] merged, and every removal succeeds. *)
Definition repository : Host :=
  {| exec := fun _ inv =>
       match host.inv_args inv with
       | a :: b :: _ =>
           if String.eqb a "rev-parse" && String.eqb b "--show-toplevel"
           then succeeded "/repo"
           else if String.eqb a "worktree" && String.eqb b "list"
           then succeeded porcelain
           else if String.eqb a "symbolic-ref"
           then succeeded "refs/remotes/origin/main"
           else if String.eqb a "status" then succeeded ""
           else if String.eqb a "rev-list" then succeeded "0	0"
           else if String.eqb a "branch" && String.eqb b "--merged"
           then succeeded ("  feature-a" ++ nl ++ "* main")
           else if String.eqb a "log" then succeeded "1700000000"
           else if String.eqb a "rev-parse" then failed "fatal: no such ref"
           else succeeded ""
       | _ => failed "fatal: no command"
       end;
     Getwd := ("/repo", None);
     Abs := fun p => p;
     PathSeparator := "/" |}.

(** No configuration file exists. *)
Definition noFiles : os.FileSystem :=
  {| os.UserHomeDir := ("/home/u", None);
     os.Stat := fun _ _ => Some "no such file or directory" |}.

Definition decoder : config.Decoder :=
  {| config.DecodeFile := fun _ _ cfg => (cfg, None) |}.

(** A repository with a local configuration file that does not parse. *)
Definition localFile : os.FileSystem :=
  {| os.UserHomeDir := ("/home/u", None);
     os.Stat := fun _ path =>
       if String.eqb path "/repo/.git-wt.toml" then None
       else Some "no such file or directory" |}.

Definition malformed : config.Decoder :=
  {| config.DecodeFile := fun _ _ cfg =>
       (cfg, Some "toml: line 1: expected key") |}.

(** A clock that stands still at [epoch]. *)
Definition still : nat -> time.Time * time.Time :=
  fun _ => (epoch, epoch).

(** A user who presses enter at once. *)
Definition entering : tui.Program :=
  {| tui.RunProgram := fun m =>
       match tui.selector_Update m (tui.KeyMsg "enter") with
       | Returns (m', _) => (m', None)
       | Panics => (m, Some "panic")
       end |}.

(** Quoting of a string without special characters. *)
Definition quoting : cmd.Quoting :=
  {| cmd.Quote := fun s =>
       String (ascii_of_nat 34) (s ++ String (ascii_of_nat 34) "") |}.

End sample.

(** ** Vocabulary of the specification *)

Module spec.

(** The comma-joined parts of a dirty status, as the spec lists them. *)
Definition dirtyParts (w : git.Worktree) : list string :=
  app (if 0 <? git.Modified w
       then [strings.Itoa (git.Modified w) ++ " modified"] else [])
      (if 0 <? git.Untracked w
       then [strings.Itoa (git.Untracked w) ++ " untracked"] else []).

(** Modelled from the spec: [isStale(record, thresholdDays)], which the
    code has no function for (it compares [InactiveDays] in place): true
    iff the inactive days strictly exceed the threshold. *)
Definition isStale (now : time.Time) (w : git.Worktree) (thresholdDays : Z)
  : bool :=
  thresholdDays <? git.InactiveDays now w.

(** The tags that do not depend on the clock, in display order. *)
Definition baseTags `{tui.Terminal} (wt : git.Worktree) : list string :=
  app (if git.IsCurrent wt then [tui.Render tui.currentStyle "current"]
       else [])
 (app (if negb (git.IsClean wt)
       then [tui.Render tui.dirtyStyle (git.StatusText wt)] else [])
 (app (if git.IsMerged wt then [tui.Render tui.mergedStyle "merged"]
       else [])
      (if negb (String.eqb (git.SyncText wt) "-")
       then [tui.Render tui.dimStyle (git.SyncText wt)] else []))).

(** The staleness tag for a day count. *)
Definition staleTag `{tui.Terminal} (days : Z) : string :=
  tui.Render tui.staleStyle (strings.Itoa days ++ "d stale").

(** The bracketed, comma-separated rendering of a tag list. *)
Definition showTags `{tui.Terminal} (tags : list string) : string :=
  match tags with
  | [] => ""
  | _ => tui.Render tui.dimStyle "[" ++
         strings.Join tags (tui.Render tui.dimStyle ", ") ++
         tui.Render tui.dimStyle "]"
  end.

(** Two records carry the same classification facts. *)
Definition sameFacts (w1 w2 : git.Worktree) : Prop :=
  git.IsBare w1 = git.IsBare w2 /\
  git.IsCurrent w1 = git.IsCurrent w2 /\
  git.Modified w1 = git.Modified w2 /\
  git.Untracked w1 = git.Untracked w2 /\
  git.Ahead w1 = git.Ahead w2 /\
  git.Behind w1 = git.Behind w2 /\
  git.IsMerged w1 = git.IsMerged w2.

(** What key [a] does to one item, and what key [n] does. *)
Definition selectMerged (it : tui.item) : tui.item :=
  if negb (git.IsCurrent (tui.worktree it)) && git.IsMerged (tui.worktree it)
  then tui.set_checked it true else it.

Definition deselect (it : tui.item) : tui.item := tui.set_checked it false.

(** No item of the current worktree is checked. *)
Definition currentUnchecked (its : list tui.item) : Prop :=
  Forall (fun it => git.IsCurrent (tui.worktree it) = true ->
                    tui.checked it = false) its.

(** No item at all is checked. *)
Definition noneChecked (its : list tui.item) : Prop :=
  Forall (fun it => tui.checked it = false) its.

(** The cursor is a valid index. *)
Definition cursorInRange (m : tui.model) : Prop :=
  0 <= tui.cursor m < len (tui.items m).

(** The session states reachable from [New worktrees repoDir]: one
    [Update] per message, in any state of the log, as long as no update
    panics. *)
Inductive reachable `{GoRuntime} `{Host}
  (worktrees : list git.Worktree) (repoDir : string) : tui.model -> Prop :=
| reach_New : reachable worktrees repoDir (tui.New worktrees repoDir)
| reach_Update (m m' : tui.model) (msg : tui.Msg) (c : tui.Cmd)
    (log log' : host.Log) :
    reachable worktrees repoDir m ->
    tui.Update m msg log = (Returns (m', c), log') ->
    reachable worktrees repoDir m'.

(** The invocations of [git] that the removal makes. *)
Definition listInvocation (repoDir : string) : host.Invocation :=
  {| host.inv_dir := repoDir;
     host.inv_args := ["worktree"; "list"; "--porcelain"] |}.

Definition removeInvocation (repoDir path : string) : host.Invocation :=
  {| host.inv_dir := repoDir; host.inv_args := ["worktree"; "remove"; path] |}.

Definition forceInvocation (repoDir path : string) : host.Invocation :=
  {| host.inv_dir := repoDir;
     host.inv_args := ["worktree"; "remove"; "--force"; path] |}.

Definition branchInvocation (repoDir name : string) : host.Invocation :=
  {| host.inv_dir := repoDir; host.inv_args := ["branch"; "-d"; name] |}.

Definition pruneInvocation (repoDir : string) : host.Invocation :=
  {| host.inv_dir := repoDir; host.inv_args := ["worktree"; "prune"] |}.

(** An entry of the log records a first, unforced attempt to remove some
    worktree; a prune. *)
Definition isRemove (e : host.Invocation * host.Completed) : bool :=
  match host.inv_args (fst e) with
  | [a; b; _] => String.eqb a "worktree" && String.eqb b "remove"
  | _ => false
  end.

Definition isPrune (e : host.Invocation * host.Completed) : bool :=
  match host.inv_args (fst e) with
  | [a; b] => String.eqb a "worktree" && String.eqb b "prune"
  | _ => false
  end.

(** An entry records a removal (forced or not) of [path] that succeeded;
    a deletion of some branch. *)
Definition removed_ok (repoDir path : string)
  (e : host.Invocation * host.Completed) : Prop :=
  (fst e = removeInvocation repoDir path \/
   fst e = forceInvocation repoDir path) /\
  host.run_err (snd e) = None.

Definition isBranchDelete (e : host.Invocation * host.Completed) : Prop :=
  exists name, host.inv_args (fst e) = ["branch"; "-d"; name].

(** A call of [RemoveWorktree] that got the worktree removed when the log
    was [before]: it reports no error, and has at most tried to delete one
    branch since, which it only does when asked to. *)
Definition settled `{Host} (repoDir : string) (deleteBranch : bool)
  (before : host.Log) (r : error * host.Log) : Prop :=
  fst r = None /\
  (snd r = before \/
   (deleteBranch = true /\
    exists name,
      snd r = (before ++ [(branchInvocation repoDir name,
                           exec before (branchInvocation repoDir name))]
              )%list)).

(** One attempt of the removal orchestrator: the removal of the item's
    worktree, deleting its branch iff the record says merged, paired with
    the item's short branch name. *)
Definition attempt `{GoRuntime} `{Host} (repoDir : string) (it : tui.item)
  : Git (string * error) :=
  let wt := tui.worktree it in
  let* err := git.RemoveWorktree repoDir (git.Path wt) (git.IsMerged wt) in
  ret (git.BranchShort wt, err).

(** All attempts, one after the other, whatever their results. *)
Fixpoint attemptAll `{GoRuntime} `{Host} (repoDir : string)
  (its : list tui.item) : Git (list (string * error)) :=
  match its with
  | [] => ret []
  | it :: rest =>
      let* r := attempt repoDir it in
      let* rs := attemptAll repoDir rest in
      ret (r :: rs)
  end.

(** The report of a list of attempts. *)
Definition removedNames (results : list (string * error)) : list string :=
  flat_map (fun r => match snd r with
                     | None => [fst r]
                     | Some _ => []
                     end) results.

Definition errorLines (results : list (string * error)) : list string :=
  flat_map (fun r => match snd r with
                     | Some cause => [fst r ++ ": " ++ cause]
                     | None => []
                     end) results.

(** The branch that a listing names for the worktree at [path]: the short
    name of the branch of the first record whose absolute path is that of
    [path]; it is empty when the listing failed or holds no such record. *)
Definition listedBranch `{Host} (listing : list git.Worktree * error)
  (path : string) : string :=
  match listing with
  | (_, Some _) => ""
  | (worktrees, None) =>
      match List.find
              (fun wt => String.eqb (Abs (git.Path wt)) (Abs path))
              worktrees with
      | Some wt => git.BranchShort wt
      | None => ""
      end
  end.

(** Every entry of [seg] holds what [git] answers to its invocation after
    [log] and the entries before it. *)
Fixpoint answered `{Host} (log seg : host.Log) : Prop :=
  match seg with
  | [] => True
  | e :: rest => snd e = exec log (fst e) /\ answered (app log [e]) rest
  end.

(** What the orchestrator does for one checked item when the log is
    [log]: [seg] is what it invokes and [r] what it records.  The listing
    is asked for exactly when the record says merged.  Then comes the
    plain removal and, exactly when that fails, the forced one; the
    attempt succeeds iff one of the two does.  A branch is deleted exactly
    when the record says merged, the attempt succeeded and the listing
    names a branch for the path of the worktree: then it is that branch,
    and the deletion is the last invocation of the attempt. *)
Definition attemptOf `{GoRuntime} `{Host} (repoDir : string)
  (log : host.Log) (it : tui.item) (seg : host.Log) (r : string * error)
  : Prop :=
  let wt := tui.worktree it in
  let plain := removeInvocation repoDir (git.Path wt) in
  let forced := forceInvocation repoDir (git.Path wt) in
  let name :=
    listedBranch (fst (git.ListWorktrees repoDir log)) (git.Path wt) in
  fst r = git.BranchShort wt /\
  answered log seg /\
  exists listing removal deletion : host.Log,
    seg = app listing (app removal deletion) /\
    map fst listing
    = (if git.IsMerged wt then [listInvocation repoDir] else []) /\
    ((exists c1,
        removal = [(plain, c1)] /\ host.run_err c1 = None /\
        snd r = None) \/
     (exists c1 c2,
        removal = [(plain, c1); (forced, c2)] /\
        host.run_err c1 <> None /\
        (snd r = None <-> host.run_err c2 = None))) /\
    map fst deletion
    = (if git.IsMerged wt && negb (String.eqb name "")
       then match snd r with
            | None => [branchInvocation repoDir name]
            | Some _ => []
            end
       else []).

(** The attempts for a list of items, one after the other: each starts
    in the state that the one before it left. *)
Inductive attemptsOf `{GoRuntime} `{Host} (repoDir : string)
  : host.Log -> list tui.item -> host.Log -> list (string * error) -> Prop :=
| attempts_nil (log : host.Log) : attemptsOf repoDir log [] [] []
| attempts_cons (log : host.Log) (it : tui.item) (its : list tui.item)
    (seg rest : host.Log) (r : string * error)
    (rs : list (string * error)) :
    attemptOf repoDir log it seg r ->
    attemptsOf repoDir (app log seg) its rest rs ->
    attemptsOf repoDir log (it :: its) (app seg rest) (r :: rs).

(** The session while the attempts are being made: the report so far. *)
Definition accumulated (m : tui.model) (results : list (string * error))
  : tui.model :=
  tui.set_errors
    (tui.set_removed m (app (tui.removed m) (removedNames results)))
    (app (tui.errors m) (errorLines results)).

(** The session after the attempts: the report is appended and the mode
    is Done. *)
Definition reported (m : tui.model) (results : list (string * error))
  : tui.model :=
  {| tui.items := tui.items m; tui.cursor := tui.cursor m;
     tui.mode_ := tui.modeDone; tui.confirmCursor := tui.confirmCursor m;
     tui.repoDir := tui.repoDir m;
     tui.removed := app (tui.removed m) (removedNames results);
     tui.errors := app (tui.errors m) (errorLines results);
     tui.width := tui.width m; tui.height := tui.height m |}.

(** The items scheduled for removal, in list order. *)
Definition checkedItems (m : tui.model) : list tui.item :=
  List.filter tui.checked (tui.items m).

(** The three tiers of the branch resolver, as tests on one candidate. *)
Definition equalsQuery `{GoRuntime} (query : string) (wt : git.Worktree)
  : bool :=
  EqualFold (git.BranchShort wt) query.

Definition startsWithQuery `{GoRuntime} (query : string) (wt : git.Worktree)
  : bool :=
  strings.HasPrefix (ToLower (git.BranchShort wt)) (ToLower query).

Definition containsQuery `{GoRuntime} (query : string) (wt : git.Worktree)
  : bool :=
  strings.Contains (ToLower (git.BranchShort wt)) (ToLower query).

(** *** Vocabulary for the properties beyond the claims *)

(** An invocation of [git] that only reads the repository. *)
Definition isQuery (args : list string) : bool :=
  match args with
  | a :: rest =>
      String.eqb a "status" || String.eqb a "rev-list" ||
      String.eqb a "log" || String.eqb a "rev-parse" ||
      String.eqb a "symbolic-ref" ||
      match rest with
      | b :: _ =>
          (String.eqb a "branch" && String.eqb b "--merged") ||
          (String.eqb a "worktree" && String.eqb b "list")
      | [] => false
      end
  | [] => false
  end.

(** Two records describe the same worktree: path, head, branch and the
    flags set by the listing agree. *)
Definition sameWorktree (w w' : git.Worktree) : Prop :=
  git.Path w' = git.Path w /\ git.Head w' = git.Head w /\
  git.Branch w' = git.Branch w /\ git.IsBare w' = git.IsBare w /\
  git.IsDetached w' = git.IsDetached w /\
  git.IsCurrent w' = git.IsCurrent w.

(** A line of [git status --porcelain] that counts, as untracked or as
    modified. *)
Definition untrackedLine (line : string) : bool :=
  (2 <=? strings.Len line) && String.eqb (String.substring 0 2 line) "??".

Definition modifiedLine (line : string) : bool :=
  (2 <=? strings.Len line) &&
  negb (String.eqb (String.substring 0 2 line) "??").

(** A record as the listing creates it: nothing enriched yet. *)
Definition unenriched (w : git.Worktree) : Prop :=
  git.Modified w = 0 /\ git.Untracked w = 0 /\ git.Ahead w = 0 /\
  git.Behind w = 0 /\ git.IsMerged w = false /\ git.LastCommit w = 0.

(** The working directory [cwd] is the directory [dir] or lies below
    it. *)
Definition within `{Host} (cwd dir : string) : bool :=
  String.eqb cwd dir || strings.HasPrefix cwd (dir ++ PathSeparator).

(** More invocations. *)
Definition symbolicRefInvocation (dir : string) : host.Invocation :=
  {| host.inv_dir := dir;
     host.inv_args := ["symbolic-ref"; "refs/remotes/origin/HEAD"] |}.

Definition verifyInvocation (dir branch : string) : host.Invocation :=
  {| host.inv_dir := dir;
     host.inv_args := ["rev-parse"; "--verify"; "refs/heads/" ++ branch] |}.

Definition checkoutInvocation (dir path branch : string)
  : host.Invocation :=
  {| host.inv_dir := dir;
     host.inv_args := ["worktree"; "add"; path; branch] |}.

Definition createInvocation (dir path branch base : string)
  : host.Invocation :=
  {| host.inv_dir := dir;
     host.inv_args :=
       app ["worktree"; "add"; "-b"; branch; path]
           (if String.eqb base "" then [] else [base]) |}.

Definition statusInvocation (dir : string) : host.Invocation :=
  {| host.inv_dir := dir; host.inv_args := ["status"; "--porcelain"] |}.

(** The entries [new] are queries made in the directory [dir]. *)
Definition queriesIn (dir : string) (new : host.Log) : Prop :=
  Forall (fun e => host.inv_dir (fst e) = dir /\
                   isQuery (host.inv_args (fst e)) = true) new.

(** A value of type [int]. *)
Definition isInt (n : Z) : Prop := - 2 ^ 63 <= n < 2 ^ 63.

(** The records of a scan of the listing: the finished ones and the one
    under construction. *)
Definition finished (st : list git.Worktree * option git.Worktree)
  : list git.Worktree :=
  match snd st with
  | Some c => append (fst st) c
  | None => fst st
  end.

(** The marking of the current worktree, when the working directory is
    known. *)
Definition marked `{Host} (worktrees : list git.Worktree)
  : list git.Worktree :=
  match Getwd with
  | (cwd, None) => map (git.markCurrent (Abs cwd)) worktrees
  | (_, Some _) => worktrees
  end.

(** The stanza of [git worktree list --porcelain] for a record: its
    path, then its head and branch when it has them, and its flags. *)
Definition stanza (w : git.Worktree) : list string :=
  app ["worktree " ++ git.Path w]
 (app (if String.eqb (git.Head w) "" then [] else ["HEAD " ++ git.Head w])
 (app (if String.eqb (git.Branch w) "" then []
       else ["branch " ++ git.Branch w])
 (app (if git.IsBare w then ["bare"] else [])
      (if git.IsDetached w then ["detached"] else [])))).

(** The lines of a listing: the stanzas, separated by an empty line. *)
Fixpoint porcelainLines (wts : list git.Worktree) : list string :=
  match wts with
  | [] => []
  | [w] => stanza w
  | w :: rest => app (stanza w) ("" :: porcelainLines rest)
  end.

(** What the listing knows of a record: nothing enriched, not yet marked
    current. *)
Definition listed (w : git.Worktree) : git.Worktree :=
  {| git.Path := git.Path w; git.Head := git.Head w;
     git.Branch := git.Branch w; git.IsBare := git.IsBare w;
     git.IsDetached := git.IsDetached w; git.IsCurrent := false;
     git.Modified := 0; git.Untracked := 0; git.Ahead := 0;
     git.Behind := 0; git.IsMerged := false; git.LastCommit := 0 |}.

(** The session fed a sequence of messages, one [Update] each, whatever
    commands the updates return; a panic ends it. *)
Fixpoint feed `{GoRuntime} `{Host} (m : tui.model) (msgs : list tui.Msg)
  : Git (outcome tui.model) :=
  match msgs with
  | [] => ret (Returns m)
  | msg :: rest =>
      let* r := tui.Update m msg in
      match r with
      | Returns (m', _) => feed m' rest
      | Panics => ret Panics
      end
  end.

(** An entry of the log records an attempt, forced or not, to remove the
    worktree at [path]. *)
Definition removes (path : string) (e : host.Invocation * host.Completed)
  : Prop :=
  host.inv_args (fst e) = ["worktree"; "remove"; path] \/
  host.inv_args (fst e) = ["worktree"; "remove"; "--force"; path].

(** The number of prunes in a log. *)
Definition prunes (log : host.Log) : nat :=
  length (List.filter isPrune log).

(** The states of the single-select model reachable from
    [NewSelector worktrees]. *)
Inductive sel_reachable (worktrees : list git.Worktree)
  : tui.selectorModel -> Prop :=
| sel_New : sel_reachable worktrees (tui.NewSelector worktrees)
| sel_Update (m m' : tui.selectorModel) (msg : tui.Msg) (c : tui.Cmd) :
    sel_reachable worktrees m ->
    tui.selector_Update m msg = Returns (m', c) ->
    sel_reachable worktrees m'.

(** What every reachable state of a session started on [worktrees] in
    [repoDir] satisfies. *)
Definition wellFormed (worktrees : list git.Worktree) (repoDir : string)
  (m : tui.model) : Prop :=
  map tui.worktree (tui.items m) = worktrees /\
  tui.repoDir m = repoDir /\
  (tui.confirmCursor m = 0 \/ tui.confirmCursor m = 1) /\
  (tui.mode_ m = tui.modeConfirm ->
   Exists (fun it => tui.checked it = true) (tui.items m)) /\
  currentUnchecked (tui.items m).

(** The bytes that [sanitizeBranch] replaces. *)
Definition unsafeBytes : list ascii := map fst config.replacerPairs.

(** The bytes of a string. *)
Definition bytes (s : string) : list ascii := list_ascii_of_string s.

(** *** Vocabulary for the commands *)

(** An entry of the log records a query. *)
Definition reads (e : host.Invocation * host.Completed) : Prop :=
  isQuery (host.inv_args (fst e)) = true.

(** What a command learns when it starts in the state [log]: the root
    of the repository, the listing and the default branch. *)
Definition rootAt `{GoRuntime} `{Host} (log : host.Log) : string :=
  fst (fst (git.RepoRoot "" log)).

Definition listingAt `{GoRuntime} `{Host} (log : host.Log)
  : list git.Worktree * error :=
  fst (git.ListWorktrees (rootAt log) (snd (git.RepoRoot "" log))).

Definition defaultBranchAt `{GoRuntime} `{Host} (log : host.Log) : string :=
  fst (fst (git.DefaultBranch (rootAt log)
              (snd (git.ListWorktrees (rootAt log)
                      (snd (git.RepoRoot "" log)))))).

(** If the entry [e] is an attempt to remove a worktree, then that
    worktree is one of [worktrees] and it is neither bare, nor the current
    one, nor on the default branch. *)
Definition spares (worktrees : list git.Worktree) (defaultBranch : string)
  (e : host.Invocation * host.Completed) : Prop :=
  forall path, removes path e ->
    exists wt, In wt worktrees /\ git.Path wt = path /\
               git.IsBare wt = false /\ git.IsCurrent wt = false /\
               git.BranchShort wt <> defaultBranch.

(** The paths and the branches of the candidates that [clean] displayed,
    and the branches whose removal it reported, as done or as failed. *)
Definition rowPath (l : cmd.cleanLine) : list string :=
  match l with
  | cmd.Row _ path _ => [path]
  | _ => []
  end.

Definition rowBranch (l : cmd.cleanLine) : list string :=
  match l with
  | cmd.Row branch _ _ => [branch]
  | _ => []
  end.

Definition reportedBranch (l : cmd.cleanLine) : list string :=
  match l with
  | cmd.Removed branch => [branch]
  | cmd.FailedToRemove branch _ => [branch]
  | _ => []
  end.

Definition isRemovedLine (l : cmd.cleanLine) : bool :=
  match l with
  | cmd.Removed _ => true
  | _ => false
  end.

(** The confirmation of [clean] is given: forced, or answered with "y" or
    "yes" in any case and with any space around. *)
Definition confirmed `{GoRuntime} (cleanForce : bool) (answer : string)
  : bool :=
  cleanForce ||
  String.eqb (TrimSpace (ToLower answer)) "y" ||
  String.eqb (TrimSpace (ToLower answer)) "yes".

(** The configuration that a command loads, the listing after the
    enrichment with the state it leaves, and the candidates that [clean]
    finds. *)
Definition configAt `{GoRuntime} `{Host} `{filepath.Library}
  `{os.FileSystem} `{config.Decoder} (log : host.Log) : config.Config :=
  fst (fst (config.LoadForRepo (rootAt log) (snd (git.RepoRoot "" log)))).

(** The warnings that loading the configuration writes. *)
Definition configWarningsAt `{GoRuntime} `{Host} `{filepath.Library}
  `{os.FileSystem} `{config.Decoder} (log : host.Log)
  : list cmd.cleanLine :=
  map cmd.ConfigWarning
    (snd (fst (config.LoadForRepo (rootAt log)
                 (snd (git.RepoRoot "" log))))).

Definition enrichedAt `{GoRuntime} `{Host} `{git.Platform}
  (log : host.Log) : list git.Worktree * host.Log :=
  cmd.enrichAll (fst (listingAt log)) (defaultBranchAt log)
    (snd (git.DefaultBranch (rootAt log)
            (snd (git.ListWorktrees (rootAt log)
                    (snd (git.RepoRoot "" log)))))).

Definition cleanCandidatesAt `{GoRuntime} `{Host} `{git.Platform}
  `{filepath.Library} `{os.FileSystem} `{config.Decoder}
  (f : cmd.cleanFlags) (clock : nat -> time.Time * time.Time)
  (log : host.Log) : list cmd.candidate :=
  cmd.filterCandidates f
    (config.StaleDays (config.Cleanup (configAt log)))
    (defaultBranchAt log) clock (fst (enrichedAt log)).

(** The selector program ends with a model that the updates of the
    selector lead to from the model it started with. *)
Definition programSound `{tui.Program} : Prop :=
  forall worktrees,
    snd (tui.RunProgram (tui.NewSelector worktrees)) = None ->
    sel_reachable worktrees (fst (tui.RunProgram (tui.NewSelector worktrees))).

End spec.

(** * Properties *)

(** ** Classification *)

Lemma Itoa_pos_head (n : Z) :
  0 < n ->
  exists c s, strings.Itoa n = String c s /\
              (48 <= nat_of_ascii c <= 57)%nat.
Proof.
  intros Hn. destruct n as [|p|p]; try lia.
  unfold strings.Itoa. cbn [Z.to_int NilEmpty.string_of_int].
  pose proof (DecimalPos.Unsigned.to_uint_nonnil p) as Hnil.
  destruct (Pos.to_uint p); try congruence;
    cbn [NilEmpty.string_of_uint]; eexists _, _; (split; [reflexivity|]);
    vm_compute; lia.
Qed.

Lemma Itoa_pos_not_clean (n : Z) (suffix : string) :
  0 < n -> strings.Itoa n ++ suffix <> "clean".
Proof.
  intros Hn Heq. destruct (Itoa_pos_head n Hn) as (c & s & Hs & Hc).
  rewrite Hs in Heq. cbn in Heq. injection Heq as Hc' _. subst c.
  vm_compute in Hc. lia.
Qed.

Lemma Itoa_pos_not_clean2 (n : Z) (suffix rest : string) :
  0 < n -> (strings.Itoa n ++ suffix) ++ rest <> "clean".
Proof.
  intros Hn Heq. destruct (Itoa_pos_head n Hn) as (c & s & Hs & Hc).
  rewrite Hs in Heq. cbn in Heq. injection Heq as Hc' _. subst c.
  vm_compute in Hc. lia.
Qed.

Lemma StatusText_bare (w : git.Worktree) :
  git.IsBare w = true -> git.StatusText w = "bare".
Proof. unfold git.StatusText. intros ->. reflexivity. Qed.

(** C5, as stated, fails: a bare record with no modified and no untracked
    files reads "bare", not "clean". *)
Lemma C5_counterexample :
  ~ (git.StatusText sample.bareWorktree = "clean" <->
     git.Modified sample.bareWorktree = 0 /\
     git.Untracked sample.bareWorktree = 0).
Proof.
  intros [_ H]. specialize (H (conj eq_refl eq_refl)).
  vm_compute in H. discriminate H.
Qed.

Lemma StatusText_parts (w : git.Worktree) :
  git.IsBare w = false -> git.IsClean w = false ->
  git.StatusText w = strings.Join (spec.dirtyParts w) ", ".
Proof.
  intros Hb Hc. unfold git.StatusText, spec.dirtyParts, append.
  rewrite Hb, Hc.
  destruct (0 <? git.Modified w), (0 <? git.Untracked w); reflexivity.
Qed.

Lemma dirtyParts_not_clean (w : git.Worktree) :
  strings.Join (spec.dirtyParts w) ", " <> "clean".
Proof.
  unfold spec.dirtyParts.
  destruct (Z.ltb_spec 0 (git.Modified w));
    destruct (Z.ltb_spec 0 (git.Untracked w)); cbn;
    try discriminate;
    (apply Itoa_pos_not_clean || apply Itoa_pos_not_clean2); assumption.
Qed.

Lemma IsClean_iff (w : git.Worktree) :
  git.IsClean w = true <-> git.Modified w = 0 /\ git.Untracked w = 0.
Proof. unfold git.IsClean. rewrite andb_true_iff, !Z.eqb_eq. tauto. Qed.

(** C5 (amended): for every record that is not bare, [StatusText] is
    "clean" exactly when both counts are zero, and otherwise it is the
    ", "-joined list of "<n> modified" (when the modified count is
    positive) and "<n> untracked" (when the untracked count is positive),
    in that order. *)
Theorem C5_StatusText_clean_iff (w : git.Worktree) :
  git.IsBare w = false ->
  (git.StatusText w = "clean" <->
   git.Modified w = 0 /\ git.Untracked w = 0) /\
  (~ (git.Modified w = 0 /\ git.Untracked w = 0) ->
   git.StatusText w = strings.Join (spec.dirtyParts w) ", ").
Proof.
  intros Hbare. rewrite <- IsClean_iff.
  destruct (git.IsClean w) eqn:Hc.
  - split; [|intros H; exfalso; apply H; reflexivity].
    unfold git.StatusText. rewrite Hbare, Hc. tauto.
  - rewrite (StatusText_parts w Hbare Hc). split; [|reflexivity].
    split; [|discriminate].
    intros H. exfalso. exact (dirtyParts_not_clean w H).
Qed.

Lemma C5_StatusText_clean_iff_witness :
  git.StatusText (sample.wt "/repo" "refs/heads/main" true false) = "clean"
  /\ git.StatusText (nth 3 sample.testWorktrees sample.bareWorktree)
     = "3 modified, 1 untracked".
Proof.
  split.
  - apply (C5_StatusText_clean_iff
             (sample.wt "/repo" "refs/heads/main" true false));
      [reflexivity | split; reflexivity].
  - rewrite (proj2 (C5_StatusText_clean_iff
               (nth 3 sample.testWorktrees sample.bareWorktree) eq_refl)).
    + reflexivity.
    + cbn. intros [H _]. discriminate H.
Defined.

(** ** Branch resolution *)

Section Resolver.
Context `{GoRuntime}.

Lemma exactMatch_find (worktrees : list git.Worktree) (query : string) :
  cmd.exactMatch worktrees query
  = List.find (spec.equalsQuery query) worktrees.
Proof.
  induction worktrees as [|wt rest IH]; cbn; [reflexivity|].
  unfold spec.equalsQuery at 1.
  destruct (EqualFold (git.BranchShort wt) query); [reflexivity|exact IH].
Qed.

Lemma collect_filter {A} (p : A -> bool) (l acc : list A) :
  fold_left (fun acc x => if p x then append acc x else acc) l acc
  = (acc ++ List.filter p l)%list.
Proof.
  revert acc. induction l as [|x l IH]; intros acc; cbn.
  - now rewrite app_nil_r.
  - rewrite IH. destruct (p x); [|reflexivity].
    unfold append. now rewrite <- app_assoc.
Qed.

Lemma find_none_iff {A} (p : A -> bool) (l : list A) :
  List.find p l = None <-> (forall x, In x l -> p x = false).
Proof.
  split; [apply find_none|].
  induction l as [|x l IH]; cbn; intros Hall; [reflexivity|].
  rewrite (Hall x (or_introl eq_refl)). apply IH. intros y Hy.
  apply Hall. now right.
Qed.

(** The resolver, tier by tier. *)
Lemma matchWorktrees_tiers (worktrees : list git.Worktree) (query : string) :
  cmd.matchWorktrees worktrees query =
  match List.find (spec.equalsQuery query) worktrees with
  | Some wt => [wt]
  | None =>
      match List.filter (spec.startsWithQuery query) worktrees with
      | [] => List.filter (spec.containsQuery query) worktrees
      | found => found
      end
  end.
Proof.
  unfold cmd.matchWorktrees. rewrite exactMatch_find.
  destruct (List.find _ worktrees); [reflexivity|].
  rewrite !collect_filter. cbn [app].
  fold (spec.startsWithQuery query). fold (spec.containsQuery query).
  destruct (List.filter (spec.startsWithQuery query) worktrees); reflexivity.
Qed.

(** C1: the branch resolver matches in strict tier order.  When some
    candidate's short name equals the query under case folding, the result
    is exactly one candidate, the first such in list order, whatever the
    lower tiers would match; otherwise, when some candidate's lowered short
    name starts with the lowered query, the result is all such candidates
    in list order; otherwise it is all candidates whose lowered short name
    contains the lowered query, which is the empty list when there is
    none. *)
Theorem C1_matchWorktrees_tier_order
  (worktrees : list git.Worktree) (query : string) :
  ((exists wt, In wt worktrees /\ spec.equalsQuery query wt = true) ->
   exists wt, cmd.matchWorktrees worktrees query = [wt] /\
              In wt worktrees /\ spec.equalsQuery query wt = true /\
              List.find (spec.equalsQuery query) worktrees = Some wt) /\
  ((forall wt, In wt worktrees -> spec.equalsQuery query wt = false) ->
   (exists wt, In wt worktrees /\ spec.startsWithQuery query wt = true) ->
   cmd.matchWorktrees worktrees query
   = List.filter (spec.startsWithQuery query) worktrees) /\
  ((forall wt, In wt worktrees -> spec.equalsQuery query wt = false) ->
   (forall wt, In wt worktrees -> spec.startsWithQuery query wt = false) ->
   cmd.matchWorktrees worktrees query
   = List.filter (spec.containsQuery query) worktrees) /\
  ((forall wt, In wt worktrees -> spec.equalsQuery query wt = false) ->
   (forall wt, In wt worktrees -> spec.startsWithQuery query wt = false) ->
   (forall wt, In wt worktrees -> spec.containsQuery query wt = false) ->
   cmd.matchWorktrees worktrees query = []).
Proof.
  rewrite matchWorktrees_tiers.
  assert (Hempty : forall p : git.Worktree -> bool,
             (forall wt, In wt worktrees -> p wt = false) ->
             List.filter p worktrees = []).
  { intros p Hp. destruct (List.filter p worktrees) as [|x l] eqn:E;
      [reflexivity|].
    assert (Hx : In x (List.filter p worktrees)) by (rewrite E; now left).
    apply filter_In in Hx. destruct Hx as [Hin Hpx].
    rewrite (Hp x Hin) in Hpx. discriminate. }
  repeat split.
  - intros (wt & Hin & Heq).
    destruct (List.find (spec.equalsQuery query) worktrees) as [w|] eqn:E.
    + exists w. destruct (find_some _ _ E). auto.
    + rewrite (find_none _ _ E wt Hin) in Heq. discriminate.
  - intros Hno (wt & Hin & Hpre).
    rewrite (proj2 (find_none_iff _ _) Hno).
    destruct (List.filter (spec.startsWithQuery query) worktrees) eqn:E;
      [|reflexivity].
    assert (Hx : In wt (List.filter (spec.startsWithQuery query) worktrees))
      by (apply filter_In; auto).
    rewrite E in Hx. destruct Hx.
  - intros Hno Hnopre.
    rewrite (proj2 (find_none_iff _ _) Hno), (Hempty _ Hnopre). reflexivity.
  - intros Hno Hnopre Hnosub.
    rewrite (proj2 (find_none_iff _ _) Hno), (Hempty _ Hnopre).
    apply Hempty, Hnosub.
Qed.

End Resolver.

Example matchWorktrees_examples :
  let resolve q :=
    map git.BranchShort
      (cmd.matchWorktrees (H := sample.runtime) sample.candidates q) in
  resolve "feature" = ["feature-auth"; "feature-api"] /\
  resolve "main" = ["main"] /\
  resolve "auth" = ["feature-auth"] /\
  resolve "MAIN" = ["main"] /\
  resolve "zzz" = [].
Proof. vm_compute. repeat split. Qed.

Lemma C1_matchWorktrees_tier_order_witness :
  (forall wt, In wt sample.candidates ->
              spec.equalsQuery (H := sample.runtime) "feature" wt = false) /\
  (exists wt, In wt sample.candidates /\
              spec.startsWithQuery (H := sample.runtime) "feature" wt = true)
  /\
  cmd.matchWorktrees (H := sample.runtime) sample.candidates "feature"
  = [ sample.wt "/repo-feature-auth" "refs/heads/feature-auth" false false;
      sample.wt "/repo-feature-api" "refs/heads/feature-api" false false ].
Proof.
  assert (Hno : forall wt, In wt sample.candidates ->
            spec.equalsQuery (H := sample.runtime) "feature" wt = false).
  { intros wt Hin. cbn in Hin.
    destruct Hin as [<-|[<-|[<-|[<-|[]]]]]; reflexivity. }
  assert (Hpre : exists wt, In wt sample.candidates /\
            spec.startsWithQuery (H := sample.runtime) "feature" wt = true).
  { exists (sample.wt "/repo-feature-auth" "refs/heads/feature-auth"
              false false).
    split; [cbn; tauto | reflexivity]. }
  split; [exact Hno | split; [exact Hpre|]].
  rewrite (proj1 (proj2 (C1_matchWorktrees_tier_order
                           (H := sample.runtime) sample.candidates "feature"))
             Hno Hpre).
  reflexivity.
Defined.

(** ** Staleness *)


Example InactiveDays_examples :
  let age d := git.InactiveDays (sample.epoch + d)
                 (sample.committedAt sample.epoch) in
  age (time.Hour) = 0 /\
  age (10 * time.Day + 5) = 10 /\
  age (31 * time.Day - 1) = 30 /\
  age (100 * time.Day) = 100 /\
  age (- time.Hour) = 0.
Proof. vm_compute. repeat split. Qed.

(** The day count goes through [float64]: one nanosecond short of 171
    days already counts as 171 days. *)
Example InactiveDays_rounds_up :
  git.InactiveDays (sample.epoch + 171 * time.Day - 1)
    (sample.committedAt sample.epoch) = 171.
Proof. vm_compute. reflexivity. Qed.

Lemma BuildTags_shape `{tui.Terminal} (now : time.Time) (wt : git.Worktree) :
  tui.BuildTags now wt =
  spec.showTags
    (app (spec.baseTags wt)
         (if spec.isStale now wt 30
          then [spec.staleTag (git.InactiveDays now wt)] else [])).
Proof.
  unfold tui.BuildTags, spec.baseTags, spec.isStale, spec.staleTag,
    spec.showTags, append, len.
  destruct (git.IsCurrent wt), (negb (git.IsClean wt)), (git.IsMerged wt),
    (negb (String.eqb (git.SyncText wt) "-")),
    (30 <? git.InactiveDays now wt); reflexivity.
Qed.






(** ** Repeatability of the classification *)

Lemma StatusText_sameFacts (w1 w2 : git.Worktree) :
  spec.sameFacts w1 w2 -> git.StatusText w1 = git.StatusText w2.
Proof.
  intros (Hb & _ & Hm & Hu & _). unfold git.StatusText, git.IsClean.
  now rewrite Hb, Hm, Hu.
Qed.

Lemma SyncText_sameFacts (w1 w2 : git.Worktree) :
  spec.sameFacts w1 w2 -> git.SyncText w1 = git.SyncText w2.
Proof.
  intros (_ & _ & _ & _ & Ha & Hh & _). unfold git.SyncText.
  now rewrite Ha, Hh.
Qed.

Lemma baseTags_sameFacts `{tui.Terminal} (w1 w2 : git.Worktree) :
  spec.sameFacts w1 w2 -> spec.baseTags w1 = spec.baseTags w2.
Proof.
  intros Hs. pose proof (StatusText_sameFacts _ _ Hs) as Est.
  pose proof (SyncText_sameFacts _ _ Hs) as Esy.
  destruct Hs as (_ & Hc & Hm & Hu & _ & _ & Hg).
  unfold spec.baseTags, git.IsClean. now rewrite Est, Esy, Hc, Hm, Hu, Hg.
Qed.

(** C7, as stated, fails for the assembled tags: the staleness tag is
    computed from the clock, so the same record is tagged differently by
    two evaluations made one day apart. *)
Lemma C7_counterexample :
  let w := sample.committedAt sample.epoch in
  tui.BuildTags (H := sample.terminal) (sample.epoch + 30 * time.Day) w
  <> tui.BuildTags (H := sample.terminal) (sample.epoch + 31 * time.Day) w.
Proof. vm_compute. discriminate. Qed.

(** C7 (amended): [StatusText] and [SyncText] are determined by the
    classification facts of the record alone.  The assembled tag string is
    determined by those facts together with the inactive days read off the
    clock: two evaluations agree whenever the records carry the same facts
    and either the inactive days are the same (as they are for equal
    records at one clock reading) or neither exceeds 30. *)
Theorem C7_classification_repeatable `{tui.Terminal}
  (now1 now2 : time.Time) (w1 w2 : git.Worktree) :
  spec.sameFacts w1 w2 ->
  (git.StatusText w1 = git.StatusText w2) /\
  (git.SyncText w1 = git.SyncText w2) /\
  (git.InactiveDays now1 w1 = git.InactiveDays now2 w2 \/
   (git.InactiveDays now1 w1 <= 30 /\ git.InactiveDays now2 w2 <= 30) ->
   tui.BuildTags now1 w1 = tui.BuildTags now2 w2) /\
  (git.LastCommit w1 = git.LastCommit w2 ->
   tui.BuildTags now1 w1 = tui.BuildTags now1 w2).
Proof.
  intros Hs.
  assert (Hdays : git.InactiveDays now1 w1 = git.InactiveDays now2 w2 \/
            (git.InactiveDays now1 w1 <= 30 /\
             git.InactiveDays now2 w2 <= 30) ->
            tui.BuildTags now1 w1 = tui.BuildTags now2 w2).
  { intros Hd. rewrite !BuildTags_shape, (baseTags_sameFacts _ _ Hs).
    unfold spec.isStale. destruct Hd as [E|[L1 L2]].
    - now rewrite E.
    - rewrite (proj2 (Z.ltb_ge _ _) L1), (proj2 (Z.ltb_ge _ _) L2).
      reflexivity. }
  split; [now apply StatusText_sameFacts|].
  split; [now apply SyncText_sameFacts|].
  split; [exact Hdays|].
  intros Hl. rewrite !BuildTags_shape, (baseTags_sameFacts _ _ Hs).
  unfold spec.isStale, git.InactiveDays. now rewrite Hl.
Qed.

Lemma C7_classification_repeatable_witness :
  let w1 := sample.committedAt sample.epoch in
  let w2 := git.set_Path (sample.committedAt (sample.epoch + time.Hour))
              "/elsewhere" in
  spec.sameFacts w1 w2 /\
  tui.BuildTags (H := sample.terminal) (sample.epoch + 40 * time.Day) w1
  = tui.BuildTags (H := sample.terminal)
      (sample.epoch + 40 * time.Day + time.Hour) w2.
Proof.
  cbv zeta.
  assert (Hs : spec.sameFacts (sample.committedAt sample.epoch)
                 (git.set_Path
                    (sample.committedAt (sample.epoch + time.Hour))
                    "/elsewhere"))
    by (repeat split).
  split; [exact Hs|].
  apply (C7_classification_repeatable (H := sample.terminal) _ _ _ _ Hs).
  left. vm_compute. reflexivity.
Defined.

(** ** The selection session: loops over the items *)

Lemma index_lookup {A} (s : list A) (i : nat) (a : A) :
  s !! i = Some a -> index s (Z.of_nat i) = Returns a.
Proof.
  intros Hl. unfold index.
  destruct (Z.ltb_spec (Z.of_nat i) 0); [lia|].
  now rewrite Nat2Z.id, Hl.
Qed.

Lemma store_lookup {A} (s : list A) (i : nat) (a b : A) :
  s !! i = Some a ->
  store s (Z.of_nat i) b = Returns (<[i := b]> s).
Proof.
  intros Hl. apply lookup_lt_Some in Hl. unfold store, len.
  destruct (Z.leb_spec 0 (Z.of_nat i)); [|lia].
  destruct (Z.ltb_spec (Z.of_nat i) (Z.of_nat (length s))); [|lia].
  now rewrite Nat2Z.id.
Qed.

Lemma index_Returns {A} (s : list A) (i : Z) (a : A) :
  index s i = Returns a <-> 0 <= i /\ s !! Z.to_nat i = Some a.
Proof.
  unfold index. destruct (Z.ltb_spec i 0).
  - split; [discriminate|lia].
  - destruct (s !! Z.to_nat i) as [b|]; split;
      try discriminate; try (intros [_ ?]; discriminate).
    + intros [= ->]. auto.
    + intros [_ [= ->]]. reflexivity.
Qed.

Section Loops.
Context {A : Type} (g : A -> A) (body : Z -> list A -> outcome (list A)).
Hypothesis body_at : forall (i : nat) (l : list A) (a : A),
  l !! i = Some a -> body (Z.of_nat i) l = Returns (<[i := g a]> l).

Lemma fold_range_from (l : list A) (n k : nat) :
  (k + n)%nat = length l ->
  fold_left (fun acc i => let! s := acc in body (Z.of_nat i) s) (seq k n)
    (Returns (map g (take k l) ++ drop k l)%list)
  = Returns (map g l).
Proof.
  revert k. induction n as [|n IH]; intros k Hlen; cbn [seq fold_left].
  - rewrite Nat.add_0_r in Hlen. subst k.
    now rewrite firstn_all, drop_all, app_nil_r.
  - assert (Hk : (k < length l)%nat) by lia.
    destruct (lookup_lt_is_Some_2 l k Hk) as [a Ha].
    cbn [obind].
    rewrite (body_at k _ a).
    2:{ rewrite lookup_app_r; rewrite length_map, length_take;
          [|lia].
        replace (k - k `min` length l)%nat with 0%nat by lia.
        now rewrite lookup_drop, Nat.add_0_r. }
    rewrite insert_app_r_alt by (rewrite length_map, length_take; lia).
    rewrite length_map, length_take.
    replace (k - k `min` length l)%nat with 0%nat by lia.
    rewrite (drop_S l a k Ha). cbn [list_insert insert].
    replace (map g (take k l) ++ g a :: drop (S k) l)%list
      with (map g (take (S k) l) ++ drop (S k) l)%list.
    + apply IH. lia.
    + rewrite (take_S_r l k a Ha), map_app. cbn [map].
      now rewrite <- app_assoc.
Qed.

Lemma for_range_map (l : list A) :
  for_range (length l) body l = Returns (map g l).
Proof.
  unfold for_range.
  exact (fold_range_from l (length l) 0 eq_refl).
Qed.

End Loops.

Lemma selectMerged_loop (its : list tui.item) :
  for_range (length its) tui.selectMergedAt its
  = Returns (map spec.selectMerged its).
Proof.
  apply for_range_map. intros i l it Hl.
  unfold tui.selectMergedAt, spec.selectMerged.
  rewrite (index_lookup _ _ _ Hl). cbn [obind].
  destruct (negb (git.IsCurrent (tui.worktree it)) &&
            git.IsMerged (tui.worktree it)).
  - exact (store_lookup _ _ _ _ Hl).
  - now rewrite list_insert_id.
Qed.

Lemma deselect_loop (its : list tui.item) :
  for_range (length its) tui.deselectAt its
  = Returns (map spec.deselect its).
Proof.
  apply for_range_map. intros i l it Hl. unfold tui.deselectAt.
  rewrite (index_lookup _ _ _ Hl). cbn [obind].
  exact (store_lookup _ _ _ _ Hl).
Qed.

Lemma updateList_a (m : tui.model) :
  tui.updateList m "a"
  = Returns (tui.set_items m (map spec.selectMerged (tui.items m)),
             tui.NoCmd).
Proof.
  unfold tui.updateList. cbn [tui.is_key existsb String.eqb Ascii.eqb
    Bool.eqb orb andb].
  now rewrite selectMerged_loop.
Qed.

Lemma updateList_n (m : tui.model) :
  tui.updateList m "n"
  = Returns (tui.set_items m (map spec.deselect (tui.items m)), tui.NoCmd).
Proof.
  unfold tui.updateList. cbn [tui.is_key existsb String.eqb Ascii.eqb
    Bool.eqb orb andb].
  now rewrite deselect_loop.
Qed.

(** ** Running [git] *)

Section Running.
Context {RT : GoRuntime} {HO : Host}.

Lemma run_ok (dir : string) (args : list string) (log : host.Log) :
  let inv := {| host.inv_dir := dir; host.inv_args := args |} in
  host.run_err (exec log inv) = None ->
  git.run dir args log
  = ((TrimSpace (host.stdout (exec log inv)), None),
     (log ++ [(inv, exec log inv)])%list).
Proof. cbv zeta. unfold git.run, append. now intros ->. Qed.

Lemma run_failed (dir : string) (args : list string) (log : host.Log)
  (e : string) :
  let inv := {| host.inv_dir := dir; host.inv_args := args |} in
  host.run_err (exec log inv) = Some e ->
  exists msg,
    git.run dir args log
    = (("", Some msg), (log ++ [(inv, exec log inv)])%list).
Proof. cbv zeta. unfold git.run, append. intros ->. eauto. Qed.

End Running.

(** Splits the first call of [git.run] in the goal into its two
    outcomes. *)
Ltac run_cases_at d a l c E :=
  let Hok := fresh "Hok" in
  let Hko := fresh "Hko" in
  pose proof (run_ok d a l) as Hok;
  pose proof (run_failed d a l) as Hko;
  cbv zeta in Hok, Hko;
  set (c := exec l {| host.inv_dir := d; host.inv_args := a |}) in *;
  destruct (host.run_err c) as [?|] eqn:E;
  [ destruct (Hko _ eq_refl) as [? ->]; clear Hok Hko
  | rewrite (Hok eq_refl); clear Hok Hko ].

Ltac run_cases c E :=
  match goal with
  | |- context [git.run ?d ?a ?l] => run_cases_at d a l c E
  end.

(** ** The removal of one worktree *)

Section Removal.
Context {RT : GoRuntime} {HO : Host}.

Lemma run_log (dir : string) (args : list string) (log : host.Log) :
  let inv := {| host.inv_dir := dir; host.inv_args := args |} in
  snd (git.run dir args log) = (log ++ [(inv, exec log inv)])%list /\
  (snd (fst (git.run dir args log)) = None <->
   host.run_err (exec log inv) = None).
Proof.
  cbv zeta. unfold git.run, append.
  destruct (host.run_err (exec log _)); cbn; split; try reflexivity;
    split; congruence.
Qed.

Lemma ListWorktrees_log (repoDir : string) (log : host.Log) :
  snd (git.ListWorktrees repoDir log)
  = (log ++ [(spec.listInvocation repoDir,
              exec log (spec.listInvocation repoDir))])%list.
Proof.
  unfold git.ListWorktrees, bind.
  pose proof (run_log repoDir ["worktree"; "list"; "--porcelain"] log)
    as [Hlog _]. cbv zeta in Hlog.
  destruct (git.run repoDir ["worktree"; "list"; "--porcelain"] log)
    as [[out err] log1]. cbn [snd] in Hlog. subst log1.
  destruct err; [reflexivity|].
  destruct (fold_left git.scanLine (ScanLines out) ([], None)).
  reflexivity.
Qed.

(** What one call of [RemoveWorktree] invokes, and what it returns. *)
Lemma RemoveWorktree_trace (repoDir wtPath : string) (deleteBranch : bool)
  (log : host.Log) :
  let log1 :=
    if deleteBranch
    then (log ++ [(spec.listInvocation repoDir,
                   exec log (spec.listInvocation repoDir))])%list
    else log in
  let c1 := exec log1 (spec.removeInvocation repoDir wtPath) in
  let log2 := (log1 ++ [(spec.removeInvocation repoDir wtPath, c1)])%list in
  let c2 := exec log2 (spec.forceInvocation repoDir wtPath) in
  let log3 := (log2 ++ [(spec.forceInvocation repoDir wtPath, c2)])%list in
  let r := git.RemoveWorktree repoDir wtPath deleteBranch log in
  match host.run_err c1 with
  | None => spec.settled repoDir deleteBranch log2 r
  | Some _ =>
      match host.run_err c2 with
      | None => spec.settled repoDir deleteBranch log3 r
      | Some _ => fst r <> None /\ snd r = log3
      end
  end.
Proof.
  cbv zeta. unfold git.RemoveWorktree, bind.
  set (log1 := if deleteBranch then (_ ++ _)%list else log).
  set (first := (if deleteBranch then _ else ret "") log).
  assert (Hfirst : snd first = log1).
  { subst first log1. destruct deleteBranch; [|reflexivity].
    pose proof (ListWorktrees_log repoDir log) as Hl.
    destruct (git.ListWorktrees repoDir log) as [[wts e] l].
    cbn [snd] in Hl. subst l. destruct e; reflexivity. }
  clearbody log1.
  destruct first as [branchName log1']. cbn [snd] in Hfirst. subst log1'.
  pose proof (run_log repoDir ["worktree"; "remove"; wtPath] log1)
    as [Hl1 He1]. cbv zeta in Hl1, He1.
  fold (spec.removeInvocation repoDir wtPath) in Hl1, He1.
  destruct (git.run repoDir ["worktree"; "remove"; wtPath] log1)
    as [[o1 e1] log2]. cbn [fst snd] in Hl1, He1. subst log2.
  assert (Hdone : forall before : host.Log,
    spec.settled repoDir deleteBranch before
      ((if deleteBranch && negb (String.eqb branchName "")
        then let* _ := git.run repoDir ["branch"; "-d"; branchName] in
             ret None
        else ret None) before)).
  { intros before. unfold spec.settled, bind.
    destruct (deleteBranch && negb (String.eqb branchName "")) eqn:Eb.
    - pose proof (run_log repoDir ["branch"; "-d"; branchName] before)
        as [Hlb _]. cbv zeta in Hlb.
      destruct (git.run repoDir ["branch"; "-d"; branchName] before)
        as [rb lb]. cbn [snd] in Hlb. subst lb. cbn. split; [reflexivity|].
      right. apply andb_true_iff in Eb. split; [tauto|].
      exists branchName. reflexivity.
    - cbn. auto. }
  destruct e1 as [msg1|].
  - destruct (host.run_err
                (exec log1 (spec.removeInvocation repoDir wtPath))) eqn:E1.
    2:{ destruct He1 as [_ He1]. specialize (He1 eq_refl). discriminate. }
    pose proof (run_log repoDir ["worktree"; "remove"; "--force"; wtPath]
                  (log1 ++ [(spec.removeInvocation repoDir wtPath,
                             exec log1 (spec.removeInvocation repoDir wtPath))
                           ])%list) as [Hl2 He2].
    cbv zeta in Hl2, He2.
    fold (spec.forceInvocation repoDir wtPath) in Hl2, He2.
    destruct (git.run repoDir ["worktree"; "remove"; "--force"; wtPath] _)
      as [[o2 e2] log3]. cbn [fst snd] in Hl2, He2. subst log3.
    destruct e2 as [msg2|].
    + destruct (host.run_err (exec _ (spec.forceInvocation repoDir wtPath)))
        eqn:E2.
      * cbn. split; [discriminate|reflexivity].
      * destruct He2 as [_ He2]. specialize (He2 eq_refl). discriminate.
    + rewrite (proj1 He2 eq_refl). cbn [ret]. apply Hdone.
  - rewrite (proj1 He1 eq_refl). cbn [ret]. apply Hdone.
Qed.

Lemma listInvocation_not_removal (repoDir path : string)
  (c : host.Completed) :
  ~ spec.removed_ok repoDir path (spec.listInvocation repoDir, c).
Proof. intros [[E|E] _]; discriminate E. Qed.

Lemma branchInvocation_not_removal (repoDir path name : string)
  (c : host.Completed) :
  ~ spec.removed_ok repoDir path (spec.branchInvocation repoDir name, c).
Proof. intros [[E|E] _]; discriminate E. Qed.

Lemma failed_not_removal (repoDir path : string) (inv : host.Invocation)
  (c : host.Completed) (msg : string) :
  host.run_err c = Some msg -> ~ spec.removed_ok repoDir path (inv, c).
Proof. intros E [_ E']. cbn in E'. congruence. Qed.

Ltac removal_entries :=
  repeat match goal with
  | H : Exists _ (_ ++ _)%list |- _ =>
      apply Exists_app in H; destruct H as [H|H]
  | H : Exists _ (_ :: _) |- _ => apply Exists_cons in H; destruct H as [H|H]
  | H : Exists _ (if ?b then _ else _) |- _ => destruct b
  | H : Exists _ [] |- _ => apply Exists_nil in H; destruct H
  | H : spec.removed_ok _ _ (spec.listInvocation _, _) |- _ =>
      destruct (listInvocation_not_removal _ _ _ H)
  | H : spec.removed_ok _ _ (spec.branchInvocation _ _, _) |- _ =>
      destruct (branchInvocation_not_removal _ _ _ _ H)
  | E : host.run_err ?c = Some _, H : spec.removed_ok _ _ (_, ?c) |- _ =>
      destruct (failed_not_removal _ _ _ _ _ E H)
  end.

(** C9: [RemoveWorktree] fails iff the removal of the worktree itself
    fails, that is iff none of its removal attempts on the path succeeds;
    a failure means that both the plain attempt and the forced second
    attempt were made and failed.  A branch deletion is only invoked when
    asked for and after the removal succeeded, and whatever it answers
    (the branch being gone included) the call reports no failure. *)
Theorem C9_RemoveWorktree_failure_iff
  (repoDir wtPath : string) (deleteBranch : bool) (log : host.Log) :
  let r := git.RemoveWorktree repoDir wtPath deleteBranch log in
  exists new : host.Log,
    snd r = (log ++ new)%list /\
    (fst r = None <-> Exists (spec.removed_ok repoDir wtPath) new) /\
    (fst r <> None ->
     exists c1 c2 msg1 msg2,
       In (spec.removeInvocation repoDir wtPath, c1) new /\
       host.run_err c1 = Some msg1 /\
       In (spec.forceInvocation repoDir wtPath, c2) new /\
       host.run_err c2 = Some msg2) /\
    (forall e, In e new -> spec.isBranchDelete e ->
               deleteBranch = true /\ fst r = None).
Proof.
  cbv zeta. pose proof (RemoveWorktree_trace repoDir wtPath deleteBranch log)
    as T. cbv zeta in T.
  set (listing := if deleteBranch
                  then [(spec.listInvocation repoDir,
                         exec log (spec.listInvocation repoDir))]
                  else []).
  assert (Elog : (if deleteBranch
                  then (log ++ [(spec.listInvocation repoDir,
                                 exec log (spec.listInvocation repoDir))])%list
                  else log) = (log ++ listing)%list).
  { subst listing. destruct deleteBranch; [reflexivity|].
    now rewrite app_nil_r. }
  rewrite Elog in T. clear Elog.
  set (log1 := (log ++ listing)%list) in *.
  set (c1 := exec log1 (spec.removeInvocation repoDir wtPath)) in *.
  set (e1 := (spec.removeInvocation repoDir wtPath, c1)) in *.
  set (c2 := exec (log1 ++ [e1])%list (spec.forceInvocation repoDir wtPath))
    in *.
  set (e2 := (spec.forceInvocation repoDir wtPath, c2)) in *.
  assert (Hlist : forall e, In e listing -> ~ spec.isBranchDelete e).
  { subst listing. intros e Hin [name E].
    destruct deleteBranch; cbn in Hin; [|tauto].
    destruct Hin as [<-|[]]. discriminate E. }
  assert (Hok1 : host.run_err c1 = None ->
                 spec.removed_ok repoDir wtPath e1)
    by (intros E; split; [now left|exact E]).
  assert (Hok2 : host.run_err c2 = None ->
                 spec.removed_ok repoDir wtPath e2)
    by (intros E; split; [now right|exact E]).
  assert (Hb1 : ~ spec.isBranchDelete e1) by (intros [name E]; discriminate E).
  assert (Hb2 : ~ spec.isBranchDelete e2) by (intros [name E]; discriminate E).
  destruct (host.run_err c1) as [msg1|] eqn:E1.
  - destruct (host.run_err c2) as [msg2|] eqn:E2.
    + destruct T as [Tf Tl]. exists (listing ++ [e1; e2])%list.
      split; [rewrite Tl; subst log1; now rewrite <- !app_assoc|].
      split; [|split].
      * split; [intros E; now rewrite E in Tf|].
        intros Hex. exfalso. subst listing e1 e2. removal_entries.
      * intros _. exists c1, c2, msg1, msg2.
        rewrite !in_app_iff. cbn. tauto.
      * intros e Hin Hbr. exfalso. apply in_app_iff in Hin.
        destruct Hin as [Hin|[<-|[<-|[]]]]; [exact (Hlist e Hin Hbr)|tauto..].
    + destruct T as [Tf [Tl|(Hdel & name & Tl)]].
      * exists (listing ++ [e1; e2])%list.
        split; [rewrite Tl; subst log1; now rewrite <- !app_assoc|].
        split; [|split].
        -- split; [intros _|intros _; exact Tf].
           apply Exists_app. right. apply Exists_cons. right.
           apply Exists_cons. left. now apply Hok2.
        -- intros Hne. now rewrite Tf in Hne.
        -- intros e Hin Hbr. exfalso. apply in_app_iff in Hin.
           destruct Hin as [Hin|[<-|[<-|[]]]];
             [exact (Hlist e Hin Hbr)|tauto..].
      * set (e3 := (spec.branchInvocation repoDir name,
                    exec ((log1 ++ [e1]) ++ [e2])%list
                      (spec.branchInvocation repoDir name))) in *.
        exists (listing ++ [e1; e2; e3])%list.
        split; [rewrite Tl; subst log1; now rewrite <- !app_assoc|].
        split; [|split].
        -- split; [intros _|intros _; exact Tf].
           apply Exists_app. right. apply Exists_cons. right.
           apply Exists_cons. left. now apply Hok2.
        -- intros Hne. now rewrite Tf in Hne.
        -- intros e _ _. split; assumption.
  - destruct T as [Tf [Tl|(Hdel & name & Tl)]].
    + exists (listing ++ [e1])%list.
      split; [rewrite Tl; subst log1; now rewrite <- !app_assoc|].
      split; [|split].
      * split; [intros _|intros _; exact Tf].
        apply Exists_app. right. apply Exists_cons. left. now apply Hok1.
      * intros Hne. now rewrite Tf in Hne.
      * intros e Hin Hbr. exfalso. apply in_app_iff in Hin.
        destruct Hin as [Hin|[<-|[]]]; [exact (Hlist e Hin Hbr)|tauto].
    + set (e3 := (spec.branchInvocation repoDir name,
                  exec (log1 ++ [e1])%list
                    (spec.branchInvocation repoDir name))) in *.
      exists (listing ++ [e1; e3])%list.
      split; [rewrite Tl; subst log1; now rewrite <- !app_assoc|].
      split; [|split].
      * split; [intros _|intros _; exact Tf].
        apply Exists_app. right. apply Exists_cons. left. now apply Hok1.
      * intros Hne. now rewrite Tf in Hne.
      * intros e _ _. split; assumption.
Qed.

(** ** The removal orchestrator *)

Lemma RemoveWorktree_entries
  (repoDir wtPath : string) (deleteBranch : bool) (log : host.Log) :
  exists new : host.Log,
    snd (git.RemoveWorktree repoDir wtPath deleteBranch log)
    = (log ++ new)%list /\
    map fst (List.filter spec.isRemove new)
    = [spec.removeInvocation repoDir wtPath] /\
    List.filter spec.isPrune new = [] /\
    (forall e, In e new -> spec.isBranchDelete e -> deleteBranch = true).
Proof.
  pose proof (RemoveWorktree_trace repoDir wtPath deleteBranch log) as T.
  cbv zeta in T.
  set (listing := if deleteBranch
                  then [(spec.listInvocation repoDir,
                         exec log (spec.listInvocation repoDir))]
                  else []).
  assert (Elog : (if deleteBranch
                  then (log ++ [(spec.listInvocation repoDir,
                                 exec log (spec.listInvocation repoDir))])%list
                  else log) = (log ++ listing)%list).
  { subst listing. destruct deleteBranch; [reflexivity|].
    now rewrite app_nil_r. }
  rewrite Elog in T. clear Elog.
  assert (Hl : List.filter spec.isRemove listing = [] /\
               List.filter spec.isPrune listing = []).
  { subst listing. destruct deleteBranch; split; reflexivity. }
  destruct Hl as [Hlr Hlp].
  set (log1 := (log ++ listing)%list) in *.
  set (c1 := exec log1 (spec.removeInvocation repoDir wtPath)) in *.
  set (e1 := (spec.removeInvocation repoDir wtPath, c1)) in *.
  set (c2 := exec (log1 ++ [e1])%list (spec.forceInvocation repoDir wtPath))
    in *.
  set (e2 := (spec.forceInvocation repoDir wtPath, c2)) in *.
  assert (Hshape : exists rest : host.Log,
            snd (git.RemoveWorktree repoDir wtPath deleteBranch log)
            = ((log1 ++ [e1]) ++ rest)%list /\
            List.filter spec.isRemove rest = [] /\
            List.filter spec.isPrune rest = [] /\
            (forall e, In e rest -> spec.isBranchDelete e ->
                       deleteBranch = true)).
  { assert (Hb2 : forall e, In e [e2] -> spec.isBranchDelete e ->
                            deleteBranch = true).
    { intros e [<-|[]] [name E]. discriminate E. }
    destruct (host.run_err c1); [destruct (host.run_err c2)|].
    - destruct T as [_ ->]. exists [e2]. repeat split. exact Hb2.
    - destruct T as [_ [->|(Hdel & name & ->)]].
      + exists [e2]. repeat split. exact Hb2.
      + eexists [e2; _]. rewrite <- app_assoc. repeat split. auto.
    - destruct T as [_ [->|(Hdel & name & ->)]].
      + exists []. rewrite app_nil_r. repeat split. intros e [].
      + eexists [_]. repeat split. auto. }
  destruct Hshape as (rest & -> & Hrr & Hrp & Hrb).
  exists (listing ++ e1 :: rest)%list. subst log1.
  split; [now rewrite <- !app_assoc|].
  rewrite !List.filter_app, Hlr, Hlp. cbn [app]. cbn [List.filter].
  change (spec.isRemove e1) with true. change (spec.isPrune e1) with false.
  rewrite Hrr, Hrp. split; [reflexivity|]. split; [reflexivity|].
  intros e Hin Hbr. apply in_app_iff in Hin. destruct Hin as [Hin|[<-|Hin]].
  - subst listing. destruct deleteBranch; [reflexivity|destruct Hin].
  - destruct Hbr as [name E]. discriminate E.
  - exact (Hrb e Hin Hbr).
Qed.

Lemma attempt_RemoveWorktree (repoDir : string) (it : tui.item)
  (log : host.Log) :
  let r := git.RemoveWorktree repoDir (git.Path (tui.worktree it))
             (git.IsMerged (tui.worktree it)) log in
  spec.attempt repoDir it log
  = ((git.BranchShort (tui.worktree it), fst r), snd r).
Proof.
  cbv zeta. unfold spec.attempt, bind.
  now destruct (git.RemoveWorktree repoDir _ _ log).
Qed.

Lemma attemptAll_entries (repoDir : string) (its : list tui.item)
  (log : host.Log) :
  exists new : host.Log,
    snd (spec.attemptAll repoDir its log) = (log ++ new)%list /\
    map fst (List.filter spec.isRemove new)
    = map (fun it => spec.removeInvocation repoDir
                       (git.Path (tui.worktree it))) its /\
    List.filter spec.isPrune new = [] /\
    map fst (fst (spec.attemptAll repoDir its log))
    = map (fun it => git.BranchShort (tui.worktree it)) its /\
    (forall e, In e new -> spec.isBranchDelete e ->
               Exists (fun it => git.IsMerged (tui.worktree it) = true) its).
Proof.
  revert log. induction its as [|it rest IH]; intros log.
  - exists []. cbn. rewrite app_nil_r. repeat split. intros e [].
  - cbn [spec.attemptAll]. unfold bind.
    rewrite attempt_RemoveWorktree. cbv zeta.
    destruct (RemoveWorktree_entries repoDir (git.Path (tui.worktree it))
                (git.IsMerged (tui.worktree it)) log)
      as (new1 & Hlog1 & Hrm1 & Hpr1 & Hbr1).
    rewrite Hlog1.
    destruct (IH (log ++ new1)%list)
      as (new2 & Hlog2 & Hrm2 & Hpr2 & Hnames & Hbr2).
    destruct (spec.attemptAll repoDir rest (log ++ new1)%list)
      as [results log2].
    cbn [fst snd ret map] in *. subst log2.
    exists (new1 ++ new2)%list.
    rewrite !List.filter_app, map_app, Hrm1, Hrm2, Hpr1, Hpr2, Hnames.
    rewrite <- app_assoc. repeat split.
    intros e Hin Hbr. apply in_app_iff in Hin. destruct Hin as [Hin|Hin].
    + apply Exists_cons_hd. exact (Hbr1 e Hin Hbr).
    + apply Exists_cons_tl. exact (Hbr2 e Hin Hbr).
Qed.

Lemma accumulated_step (m : tui.model) (r : string * error)
  (results : list (string * error)) :
  spec.accumulated
    (match snd r with
     | Some e => tui.set_errors m (append (tui.errors m) (fst r ++ ": " ++ e))
     | None => tui.set_removed m (append (tui.removed m) (fst r))
     end) results
  = spec.accumulated m (r :: results).
Proof.
  destruct r as [name [e|]]; destruct m;
    unfold spec.accumulated, tui.set_errors, tui.set_removed, append;
    cbn; now rewrite <- !app_assoc.
Qed.

Lemma removeItems_attempts (its : list tui.item) (m : tui.model)
  (log : host.Log) :
  tui.removeItems m its log =
  let (results, log1) :=
    spec.attemptAll (tui.repoDir m) (List.filter tui.checked its) log in
  (spec.accumulated m results, log1).
Proof.
  revert m log. induction its as [|it rest IH]; intros m log.
  - cbn. unfold spec.accumulated. destruct m; cbn.
    now rewrite !app_nil_r.
  - cbn [tui.removeItems List.filter]. unfold bind, tui.removeItem.
    destruct (tui.checked it); cbn [negb].
    + cbn [spec.attemptAll]. unfold bind.
      rewrite attempt_RemoveWorktree. cbv zeta.
      destruct (git.RemoveWorktree _ _ _ log) as [err log1].
      cbn [fst snd].
      destruct err as [e|]; cbn [ret]; rewrite IH;
        cbn [tui.repoDir tui.set_errors tui.set_removed];
        destruct (spec.attemptAll (tui.repoDir m) _ log1) as [results log2];
        f_equal.
      * exact (accumulated_step m
                 (git.BranchShort (tui.worktree it), Some e) results).
      * exact (accumulated_step m
                 (git.BranchShort (tui.worktree it), None) results).
    + cbn [ret]. apply IH.
Qed.

Lemma executeRemoval_attempts (m : tui.model) (log : host.Log) :
  tui.executeRemoval m log =
  let (results, log1) :=
    spec.attemptAll (tui.repoDir m) (spec.checkedItems m) log in
  ((spec.reported m results, tui.NoCmd),
   (log1 ++ [(spec.pruneInvocation (tui.repoDir m),
              exec log1 (spec.pruneInvocation (tui.repoDir m)))])%list).
Proof.
  unfold tui.executeRemoval, bind. rewrite removeItems_attempts.
  fold (spec.checkedItems m).
  destruct (spec.attemptAll (tui.repoDir m) (spec.checkedItems m) log)
    as [results log1].
  unfold git.PruneWorktrees, bind.
  pose proof (run_log (tui.repoDir (spec.accumulated m results))
                ["worktree"; "prune"] log1) as [Hl _]. cbv zeta in Hl.
  destruct (git.run _ ["worktree"; "prune"] log1) as [[out err] log2].
  cbn [snd] in Hl. subst log2. cbn [ret]. reflexivity.
Qed.

Lemma branchAt_listed (worktrees : list git.Worktree) (wtPath : string) :
  git.branchAt worktrees wtPath = spec.listedBranch (worktrees, None) wtPath.
Proof.
  unfold spec.listedBranch.
  induction worktrees as [|wt rest IH]; cbn; [reflexivity|].
  destruct (String.eqb (Abs (git.Path wt)) (Abs wtPath)); [reflexivity|].
  exact IH.
Qed.

Lemma attempt_shape (repoDir : string) (it : tui.item) (log : host.Log) :
  exists (seg : host.Log) (r : string * error),
    spec.attempt repoDir it log = (r, (log ++ seg)%list) /\
    spec.attemptOf repoDir log it seg r.
Proof.
  rewrite attempt_RemoveWorktree. cbv zeta.
  unfold spec.attemptOf. cbv zeta.
  set (wt := tui.worktree it).
  unfold git.RemoveWorktree, bind.
  destruct (git.IsMerged wt) eqn:Hm.
  - pose proof (ListWorktrees_log repoDir log) as Ll.
    destruct (git.ListWorktrees repoDir log) as [[wts lerr] l1] eqn:EL.
    cbn [fst snd] in *. subst l1.
    set (name := spec.listedBranch (wts, lerr) (git.Path wt)).
    assert (En : (match lerr with
                  | Some _ => ret ""
                  | None => ret (git.branchAt wts (git.Path wt))
                  end) = ret name).
    { subst name. destruct lerr; [reflexivity|].
      now rewrite branchAt_listed. }
    rewrite En. cbn [ret]. clear En.
    set (e0 := (spec.listInvocation repoDir,
                exec log (spec.listInvocation repoDir))).
    run_cases c1 E1.
    + run_cases c2 E2; cbn [ret fst snd].
      * eexists [e0; (_, c1); (_, c2)], (_, Some _).
        split; [now rewrite <- !app_assoc|].
        split; [reflexivity|]. split; [repeat split|].
        exists [e0], [(spec.removeInvocation repoDir (git.Path wt), c1);
                      (spec.forceInvocation repoDir (git.Path wt), c2)], [].
        split; [reflexivity|]. split; [reflexivity|]. split.
        -- right. exists c1, c2. split; [reflexivity|].
           split; [congruence|]. split; [discriminate|congruence].
        -- cbn [snd map]. now destruct (true && _).
      * destruct (String.eqb_spec name "") as [Hn|Hn]; cbn [andb negb ret].
        -- eexists [e0; (_, c1); (_, c2)], (_, None).
           split; [now rewrite <- !app_assoc|].
           split; [reflexivity|]. split; [repeat split|].
           exists [e0], [(spec.removeInvocation repoDir (git.Path wt), c1);
                         (spec.forceInvocation repoDir (git.Path wt), c2)], [].
           split; [reflexivity|]. split; [reflexivity|]. split.
           ++ right. exists c1, c2. split; [reflexivity|].
              split; [congruence|]. split; auto.
           ++ reflexivity.
        -- destruct (run_log repoDir ["branch"; "-d"; name]
                       (((log ++ [e0]) ++
                         [({| host.inv_dir := repoDir;
                              host.inv_args :=
                                ["worktree"; "remove"; git.Path wt] |}, c1)])
                        ++ [({| host.inv_dir := repoDir;
                                host.inv_args :=
                                  ["worktree"; "remove"; "--force";
                                   git.Path wt] |}, c2)])%list) as [L3 _].
           cbv zeta in L3.
           destruct (git.run repoDir ["branch"; "-d"; name] _) as [o3 l3].
           cbn [snd] in L3. subst l3. cbn [fst snd].
           match goal with
           | |- context [exec ?l {| host.inv_dir := repoDir;
                                    host.inv_args := ["branch"; "-d"; name] |}]
             => set (c3 := exec l {| host.inv_dir := repoDir;
                                     host.inv_args := ["branch"; "-d"; name] |})
           end.
           eexists [e0; (_, c1); (_, c2); (_, c3)], (_, None).
           split; [now rewrite <- !app_assoc|].
           split; [reflexivity|]. split; [repeat split|].
           exists [e0],
             [(spec.removeInvocation repoDir (git.Path wt), c1);
              (spec.forceInvocation repoDir (git.Path wt), c2)],
             [(spec.branchInvocation repoDir name, c3)].
           split; [reflexivity|]. split; [reflexivity|]. split.
           ++ right. exists c1, c2. split; [reflexivity|].
              split; [congruence|]. split; auto.
           ++ reflexivity.
    + cbn [ret fst snd].
      destruct (String.eqb_spec name "") as [Hn|Hn]; cbn [andb negb ret].
      * eexists [e0; (_, c1)], (_, None).
        split; [now rewrite <- !app_assoc|].
        split; [reflexivity|]. split; [repeat split|].
        exists [e0], [(spec.removeInvocation repoDir (git.Path wt), c1)], [].
        split; [reflexivity|]. split; [reflexivity|]. split.
        -- left. exists c1. auto.
        -- reflexivity.
      * destruct (run_log repoDir ["branch"; "-d"; name]
                    ((log ++ [e0]) ++
                     [({| host.inv_dir := repoDir;
                          host.inv_args :=
                            ["worktree"; "remove"; git.Path wt] |}, c1)])%list)
          as [L3 _].
        cbv zeta in L3.
        destruct (git.run repoDir ["branch"; "-d"; name] _) as [o3 l3].
        cbn [snd] in L3. subst l3. cbn [fst snd].
           match goal with
           | |- context [exec ?l {| host.inv_dir := repoDir;
                                    host.inv_args := ["branch"; "-d"; name] |}]
             => set (c3 := exec l {| host.inv_dir := repoDir;
                                     host.inv_args := ["branch"; "-d"; name] |})
           end.
        eexists [e0; (_, c1); (_, c3)], (_, None).
        split; [now rewrite <- !app_assoc|].
        split; [reflexivity|]. split; [repeat split|].
        exists [e0],
          [(spec.removeInvocation repoDir (git.Path wt), c1)],
          [(spec.branchInvocation repoDir name, c3)].
        split; [reflexivity|]. split; [reflexivity|]. split.
        -- left. exists c1. auto.
        -- reflexivity.
  - cbn [ret andb].
    run_cases c1 E1.
    + run_cases c2 E2; cbn [ret fst snd].
      * eexists [(_, c1); (_, c2)], (_, Some _).
        split; [now rewrite <- !app_assoc|].
        split; [reflexivity|]. split; [repeat split|].
        exists [], [(spec.removeInvocation repoDir (git.Path wt), c1);
                    (spec.forceInvocation repoDir (git.Path wt), c2)], [].
        split; [reflexivity|]. split; [reflexivity|]. split.
        -- right. exists c1, c2. split; [reflexivity|].
           split; [congruence|]. split; [discriminate|congruence].
        -- reflexivity.
      * eexists [(_, c1); (_, c2)], (_, None).
        split; [now rewrite <- !app_assoc|].
        split; [reflexivity|]. split; [repeat split|].
        exists [], [(spec.removeInvocation repoDir (git.Path wt), c1);
                    (spec.forceInvocation repoDir (git.Path wt), c2)], [].
        split; [reflexivity|]. split; [reflexivity|]. split.
        -- right. exists c1, c2. split; [reflexivity|].
           split; [congruence|]. split; auto.
        -- reflexivity.
    + cbn [ret fst snd].
      eexists [(_, c1)], (_, None).
      split; [reflexivity|].
      split; [reflexivity|]. split; [repeat split|].
      exists [], [(spec.removeInvocation repoDir (git.Path wt), c1)], [].
      split; [reflexivity|]. split; [reflexivity|]. split.
      * left. exists c1. auto.
      * reflexivity.
Qed.

Lemma attemptAll_attempts (repoDir : string) (its : list tui.item)
  (log : host.Log) :
  exists (attempts : host.Log) (results : list (string * error)),
    spec.attemptAll repoDir its log = (results, (log ++ attempts)%list) /\
    spec.attemptsOf repoDir log its attempts results.
Proof.
  revert log. induction its as [|it rest IH]; intros log.
  - exists [], []. cbn. rewrite app_nil_r. split; [reflexivity|constructor].
  - cbn [spec.attemptAll]. unfold bind.
    destruct (attempt_shape repoDir it log) as (seg & r & E & Hshape).
    rewrite E.
    destruct (IH (log ++ seg)%list) as (attempts & results & E' & Hrest).
    rewrite E'. cbn [ret].
    exists (seg ++ attempts)%list, (r :: results).
    split; [now rewrite app_assoc|]. now constructor.
Qed.

(** C3: the removal orchestrator attempts every checked item, in list
    order, whatever the earlier attempts returned.  What it invokes is,
    item after item, what [spec.attemptOf] describes: for an item whose
    record does not say merged, the plain removal and, when that fails,
    the forced one, and never a branch deletion; for an item whose record
    says merged, first the listing, then the removals in the same way,
    and, exactly when the removal succeeded and the listing names a branch
    for the path, the deletion of that branch, last.  The log shows one
    first removal attempt per checked item, in that order.  The names of
    the successes are appended to [removed] and a "<name>: <cause>" line
    per failure to [errors], both in that order.  Then exactly one prune is
    invoked, last; its answer appears nowhere in the resulting session,
    whose mode is Done. *)
Theorem C3_executeRemoval_attempts_all (m : tui.model) (log : host.Log) :
  exists (results : list (string * error)) (attempts : host.Log)
         (prune : host.Invocation * host.Completed),
    spec.attemptAll (tui.repoDir m) (spec.checkedItems m) log
    = (results, (log ++ attempts)%list) /\
    tui.executeRemoval m log
    = ((spec.reported m results, tui.NoCmd),
       (log ++ attempts ++ [prune])%list) /\
    spec.attemptsOf (tui.repoDir m) log (spec.checkedItems m) attempts
      results /\
    map fst results
    = map (fun it => git.BranchShort (tui.worktree it))
        (spec.checkedItems m) /\
    map fst (List.filter spec.isRemove attempts)
    = map (fun it => spec.removeInvocation (tui.repoDir m)
                       (git.Path (tui.worktree it)))
        (spec.checkedItems m) /\
    (forall e, In e attempts -> spec.isBranchDelete e ->
               Exists (fun it => git.IsMerged (tui.worktree it) = true)
                 (spec.checkedItems m)) /\
    List.filter spec.isPrune (attempts ++ [prune]) = [prune] /\
    fst prune = spec.pruneInvocation (tui.repoDir m) /\
    tui.removed (spec.reported m results)
    = (tui.removed m ++ spec.removedNames results)%list /\
    tui.errors (spec.reported m results)
    = (tui.errors m ++ spec.errorLines results)%list /\
    tui.mode_ (spec.reported m results) = tui.modeDone.
Proof.
  destruct (attemptAll_entries (tui.repoDir m) (spec.checkedItems m) log)
    as (attempts & Hlog & Hrm & Hpr & Hnames & Hbr).
  destruct (attemptAll_attempts (tui.repoDir m) (spec.checkedItems m) log)
    as (attempts' & results' & Hall & Hshape).
  pose proof (executeRemoval_attempts m log) as Hex.
  destruct (spec.attemptAll (tui.repoDir m) (spec.checkedItems m) log)
    as [results log1].
  cbn [fst snd] in *. subst log1.
  injection Hall as <- Hatt. apply app_inv_head in Hatt. subst attempts'.
  exists results, attempts,
    (spec.pruneInvocation (tui.repoDir m),
     exec (log ++ attempts)%list (spec.pruneInvocation (tui.repoDir m))).
  split; [reflexivity|].
  split; [now rewrite Hex, <- app_assoc|].
  split; [exact Hshape|].
  split; [exact Hnames|]. split; [exact Hrm|]. split; [exact Hbr|].
  split; [now rewrite List.filter_app, Hpr|].
  repeat split.
Qed.

End Removal.

Lemma C9_RemoveWorktree_failure_iff_witness :
  let r := git.RemoveWorktree
             (H := sample.runtime)
             (H0 := sample.scripted sample.porcelain ["/repo-feature-a"] [])
             "/repo" "/repo-feature-a" true [] in
  fst r = None /\
  Exists (fun e => spec.isBranchDelete e /\ host.run_err (snd e) <> None)
    (snd r).
Proof.
  cbv zeta. split.
  - destruct (C9_RemoveWorktree_failure_iff
                (RT := sample.runtime)
                (HO := sample.scripted sample.porcelain
                         ["/repo-feature-a"] [])
                "/repo" "/repo-feature-a" true [])
      as (new & Hlog & Hiff & _).
    cbn [app] in Hlog. apply Hiff. rewrite <- Hlog.
    apply Exists_exists.
    exists (spec.forceInvocation "/repo" "/repo-feature-a",
            sample.succeeded "").
    split; [vm_compute; repeat (first [left; reflexivity | right])|].
    split; [right; reflexivity | reflexivity].
  - apply Exists_exists.
    exists (spec.branchInvocation "/repo" "feature-a",
            sample.failed "error: branch not found.").
    split; [vm_compute; repeat (first [left; reflexivity | right])|].
    split; [exists "feature-a"; reflexivity | discriminate].
Defined.


(** ** The selection session *)

Lemma New_items (worktrees : list git.Worktree) (repoDir : string) :
  spec.noneChecked (tui.items (tui.New worktrees repoDir)).
Proof.
  unfold spec.noneChecked, tui.New. cbn [tui.items].
  induction worktrees; cbn; constructor; auto.
Qed.

Lemma noneChecked_currentUnchecked (its : list tui.item) :
  spec.noneChecked its -> spec.currentUnchecked its.
Proof. intros Hn. eapply Forall_impl; [exact Hn|]. cbn. auto. Qed.

Lemma selectMerged_currentUnchecked (its : list tui.item) :
  spec.currentUnchecked its ->
  spec.currentUnchecked (map spec.selectMerged its).
Proof.
  unfold spec.currentUnchecked. induction 1 as [|it its Hit _ IH]; cbn;
    constructor; [|exact IH].
  unfold spec.selectMerged.
  destruct (git.IsCurrent (tui.worktree it)) eqn:E; cbn.
  - rewrite E. exact Hit.
  - destruct (git.IsMerged (tui.worktree it)); cbn; congruence.
Qed.

Lemma deselect_noneChecked (its : list tui.item) :
  spec.noneChecked (map spec.deselect its).
Proof. unfold spec.noneChecked. induction its; cbn; constructor; auto. Qed.

Lemma selectedCount_filter (m : tui.model) :
  tui.selectedCount m = len (spec.checkedItems m).
Proof.
  unfold tui.selectedCount, spec.checkedItems, len.
  assert (G : forall its acc,
            fold_left (fun count it => if tui.checked it then count + 1
                                       else count) its acc
            = acc + Z.of_nat (length (List.filter tui.checked its))).
  { induction its as [|it its IH]; intros acc; cbn [fold_left List.filter].
    - cbn. lia.
    - rewrite IH. destruct (tui.checked it); cbn [length]; lia. }
  rewrite G. lia.
Qed.

Lemma noneChecked_selectedCount (m : tui.model) :
  spec.noneChecked (tui.items m) <-> tui.selectedCount m = 0.
Proof.
  rewrite selectedCount_filter. unfold spec.checkedItems, spec.noneChecked, len.
  induction (tui.items m) as [|it its IH]; cbn [List.filter].
  - split; [reflexivity|constructor].
  - rewrite Forall_cons_iff.
    destruct (tui.checked it); cbn [length]; split.
    + intros [E _]. discriminate E.
    + lia.
    + tauto.
    + intros E. split; [reflexivity|now apply IH].
Qed.

(** The ways in which a key in List mode can change the items. *)
Lemma updateList_items (m m' : tui.model) (key : string) (c : tui.Cmd) :
  tui.updateList m key = Returns (m', c) ->
  tui.items m' = tui.items m \/
  (exists it, index (tui.items m) (tui.cursor m) = Returns it /\
              git.IsCurrent (tui.worktree it) = false /\
              tui.items m'
              = <[Z.to_nat (tui.cursor m)
                  := tui.set_checked it (negb (tui.checked it))]>
                  (tui.items m)) \/
  tui.items m' = map spec.selectMerged (tui.items m) \/
  tui.items m' = map spec.deselect (tui.items m).
Proof.
  unfold tui.updateList.
  destruct (tui.is_key key ["q"; "ctrl+c"; "esc"]);
    [intros [= <- _]; now left|].
  destruct (tui.is_key key ["up"; "k"]).
  { intros [= <- _]. left. now destruct (0 <? tui.cursor m). }
  destruct (tui.is_key key ["down"; "j"]).
  { intros [= <- _]. left.
    now destruct (tui.cursor m <? len (tui.items m) - 1). }
  destruct (tui.is_key key [" "; "x"]).
  { destruct (index (tui.items m) (tui.cursor m)) as [it|] eqn:Ei;
      cbn [obind]; [|discriminate].
    destruct (git.IsCurrent (tui.worktree it)) eqn:Ec; cbn [negb].
    - intros [= <- _]. now left.
    - unfold store.
      destruct ((0 <=? tui.cursor m) && (tui.cursor m <? len (tui.items m)));
        cbn [obind]; [|discriminate].
      intros [= <- _]. right. left. exists it. auto. }
  destruct (tui.is_key key ["a"]).
  { rewrite selectMerged_loop. cbn [obind]. intros [= <- _]. auto. }
  destruct (tui.is_key key ["n"]).
  { rewrite deselect_loop. cbn [obind]. intros [= <- _]. auto. }
  destruct (tui.is_key key ["d"; "enter"]).
  { intros [= <- _]. left. now destruct (0 <? tui.selectedCount m). }
  intros [= <- _]. now left.
Qed.

Lemma updateList_currentUnchecked (m m' : tui.model) (key : string)
  (c : tui.Cmd) :
  tui.updateList m key = Returns (m', c) ->
  spec.currentUnchecked (tui.items m) ->
  spec.currentUnchecked (tui.items m').
Proof.
  intros Hu Hinv.
  destruct (updateList_items _ _ _ _ Hu)
    as [->|[(it & _ & Hc & ->)|[->| ->]]].
  - exact Hinv.
  - apply Forall_insert; [exact Hinv|]. cbn. congruence.
  - now apply selectMerged_currentUnchecked.
  - apply noneChecked_currentUnchecked, deselect_noneChecked.
Qed.

Section Session.
Context {RT : GoRuntime} {HO : Host}.

Lemma executeRemoval_reported (m : tui.model) (log : host.Log) :
  exists results log',
    tui.executeRemoval m log = ((spec.reported m results, tui.NoCmd), log') /\
    length (List.filter spec.isPrune log')
    = S (length (List.filter spec.isPrune log)).
Proof.
  destruct (attemptAll_entries (tui.repoDir m) (spec.checkedItems m) log)
    as (attempts & Hlog & _ & Hpr & _ & _).
  pose proof (executeRemoval_attempts m log) as Hex.
  destruct (spec.attemptAll (tui.repoDir m) (spec.checkedItems m) log)
    as [results log1].
  cbn [snd] in Hlog. subst log1.
  eexists results, _. split; [exact Hex|].
  rewrite !List.filter_app, Hpr, !length_app. cbn. lia.
Qed.

Lemma updateConfirm_items (m : tui.model) (key : string) (log : host.Log) :
  tui.items (fst (fst (tui.updateConfirm m key log))) = tui.items m.
Proof.
  unfold tui.updateConfirm.
  destruct (tui.is_key key ["q"; "ctrl+c"; "esc"]); [reflexivity|].
  destruct (tui.is_key key ["left"; "h"; "right"; "l"; "tab"]);
    [reflexivity|].
  destruct (tui.is_key key ["y"]).
  { destruct (executeRemoval_reported (tui.set_confirmCursor m 1) log)
      as (results & log' & -> & _). reflexivity. }
  destruct (tui.is_key key ["n"]); [reflexivity|].
  destruct (tui.is_key key ["enter"]); [|reflexivity].
  destruct (tui.confirmCursor m =? 1); [|reflexivity].
  destruct (executeRemoval_reported m log) as (results & log' & -> & _).
  reflexivity.
Qed.

Lemma Update_currentUnchecked (m m' : tui.model) (msg : tui.Msg)
  (c : tui.Cmd) (log log' : host.Log) :
  tui.Update m msg log = (Returns (m', c), log') ->
  spec.currentUnchecked (tui.items m) ->
  spec.currentUnchecked (tui.items m').
Proof.
  unfold tui.Update. destruct msg as [w h|key|].
  - intros [= <- _ _]. auto.
  - destruct (tui.mode_ m).
    + cbn [ret]. intros [= Hu _]. eapply updateList_currentUnchecked; eauto.
    + unfold bind. pose proof (updateConfirm_items m key log) as Hi.
      destruct (tui.updateConfirm m key log) as [[m1 c1] log1].
      cbn [fst] in Hi. cbn [ret]. intros [= <- _ _]. now rewrite Hi.
    + intros [= <- _ _]. auto.
  - intros [= <- _ _]. auto.
Qed.

End Session.

Section SessionProperties.
Context {RT : GoRuntime} {HO : Host}.

(** C2: in every session state reachable from the initial one, no item of
    the current worktree is checked; toggling the selection with the
    cursor on such an item leaves the session as it is, and "select
    merged" leaves every such item as it is. *)
Theorem C2_current_never_checked
  (worktrees : list git.Worktree) (repoDir : string) (m : tui.model) :
  spec.reachable worktrees repoDir m ->
  spec.currentUnchecked (tui.items m) /\
  (tui.mode_ m = tui.modeList ->
   forall it key log,
     index (tui.items m) (tui.cursor m) = Returns it ->
     git.IsCurrent (tui.worktree it) = true ->
     In key [" "; "x"] ->
     tui.Update m (tui.KeyMsg key) log = (Returns (m, tui.NoCmd), log)) /\
  (tui.mode_ m = tui.modeList ->
   forall log, exists its',
     tui.Update m (tui.KeyMsg "a") log
     = (Returns (tui.set_items m its', tui.NoCmd), log) /\
     forall (i : nat) (it : tui.item),
       tui.items m !! i = Some it ->
       git.IsCurrent (tui.worktree it) = true ->
       its' !! i = Some it).
Proof.
  intros Hreach. split; [|split].
  - induction Hreach as [|m m' msg c log log' _ IH Hstep].
    + apply noneChecked_currentUnchecked, New_items.
    + eapply Update_currentUnchecked; eauto.
  - intros Hmode it key log Hit Hcur Hkey.
    unfold tui.Update. rewrite Hmode. cbn [ret]. f_equal.
    unfold tui.updateList.
    destruct Hkey as [<-|[<-|[]]]; cbn [tui.is_key existsb String.eqb
      Ascii.eqb Bool.eqb orb andb]; rewrite Hit; cbn [obind];
      now rewrite Hcur.
  - intros Hmode log. exists (map spec.selectMerged (tui.items m)).
    split.
    + unfold tui.Update. rewrite Hmode. cbn [ret]. now rewrite updateList_a.
    + intros i it Hi Hcur.
      change (map spec.selectMerged (tui.items m))
        with (spec.selectMerged <$> tui.items m).
      rewrite list_lookup_fmap, Hi. cbn. unfold spec.selectMerged.
      now rewrite Hcur.
Qed.

(** C10: from any session in List mode, "select merged" followed by
    "deselect all" leaves no item checked. *)
Theorem C10_select_merged_then_deselect_all
  (m : tui.model) (log : host.Log) :
  tui.mode_ m = tui.modeList ->
  exists m1 m2,
    tui.Update m (tui.KeyMsg "a") log = (Returns (m1, tui.NoCmd), log) /\
    tui.mode_ m1 = tui.modeList /\
    tui.Update m1 (tui.KeyMsg "n") log = (Returns (m2, tui.NoCmd), log) /\
    spec.noneChecked (tui.items m2).
Proof.
  intros Hmode.
  exists (tui.set_items m (map spec.selectMerged (tui.items m))).
  eexists. split; [|split; [exact Hmode|split]].
  - unfold tui.Update. rewrite Hmode. cbn [ret]. now rewrite updateList_a.
  - unfold tui.Update. cbn [tui.mode_ tui.set_items]. rewrite Hmode.
    cbn [ret]. now rewrite updateList_n.
  - cbn [tui.items tui.set_items]. apply deselect_noneChecked.
Qed.

(** C4: in List mode, "request deletion" changes nothing when no item is
    checked, and otherwise enters Confirm with the choice reset to "No".
    In Confirm mode, enter on "No" returns to List and invokes nothing;
    the "yes" key sets the choice to "Yes" and runs the removal
    orchestrator once, whose result, in mode Done, is the new session
    whatever the invocations answered. *)
Theorem C4_request_and_confirm (m : tui.model) (log : host.Log) :
  (tui.mode_ m = tui.modeList ->
   forall key, In key ["d"; "enter"] ->
     (spec.noneChecked (tui.items m) ->
      tui.Update m (tui.KeyMsg key) log = (Returns (m, tui.NoCmd), log)) /\
     (Exists (fun it => tui.checked it = true) (tui.items m) ->
      tui.Update m (tui.KeyMsg key) log
      = (Returns (tui.set_confirmCursor (tui.set_mode m tui.modeConfirm) 0,
                  tui.NoCmd), log))) /\
  (tui.mode_ m = tui.modeConfirm ->
   (tui.confirmCursor m = 0 ->
    tui.Update m (tui.KeyMsg "enter") log
    = (Returns (tui.set_mode m tui.modeList, tui.NoCmd), log)) /\
   (exists results log',
      tui.executeRemoval (tui.set_confirmCursor m 1) log
      = ((spec.reported (tui.set_confirmCursor m 1) results, tui.NoCmd),
         log') /\
      tui.Update m (tui.KeyMsg "y") log
      = (Returns (spec.reported (tui.set_confirmCursor m 1) results,
                  tui.NoCmd), log') /\
      tui.mode_ (spec.reported (tui.set_confirmCursor m 1) results)
      = tui.modeDone /\
      tui.confirmCursor (spec.reported (tui.set_confirmCursor m 1) results)
      = 1 /\
      length (List.filter spec.isPrune log')
      = S (length (List.filter spec.isPrune log)))).
Proof.
  split.
  - intros Hmode key Hkey.
    assert (Hu : tui.updateList m key =
              Returns (if 0 <? tui.selectedCount m
                       then tui.set_confirmCursor
                              (tui.set_mode m tui.modeConfirm) 0
                       else m, tui.NoCmd)).
    { unfold tui.updateList.
      destruct Hkey as [<-|[<-|[]]]; reflexivity. }
    unfold tui.Update. rewrite Hmode, Hu. cbn [ret]. split.
    + intros Hnone. apply noneChecked_selectedCount in Hnone.
      now rewrite Hnone.
    + intros Hsome.
      destruct (Z.ltb_spec 0 (tui.selectedCount m)) as [|Hle]; [reflexivity|].
      exfalso.
      assert (Hz : tui.selectedCount m = 0).
      { rewrite selectedCount_filter in *. unfold len in *. lia. }
      apply noneChecked_selectedCount in Hz.
      apply Exists_exists in Hsome. destruct Hsome as (it & Hin & Hc).
      unfold spec.noneChecked in Hz. rewrite Forall_forall in Hz.
      rewrite (Hz it Hin) in Hc. discriminate.
  - intros Hmode. split.
    + intros Hno. unfold tui.Update. rewrite Hmode. unfold bind.
      unfold tui.updateConfirm.
      cbn [tui.is_key existsb String.eqb Ascii.eqb Bool.eqb orb andb].
      rewrite Hno. reflexivity.
    + destruct (executeRemoval_reported (tui.set_confirmCursor m 1) log)
        as (results & log' & Hex & Hpr).
      exists results, log'. split; [exact Hex|].
      split; [|split; [reflexivity|split; [reflexivity|exact Hpr]]].
      unfold tui.Update. rewrite Hmode. unfold bind, tui.updateConfirm.
      cbn [tui.is_key existsb String.eqb Ascii.eqb Bool.eqb orb andb].
      now rewrite Hex.
Qed.

(** Supporting facts for C8: with at least one worktree the cursor stays
    a valid index, and then no key in List mode panics. *)
Lemma updateList_cursorInRange (m m' : tui.model) (key : string)
  (c : tui.Cmd) :
  tui.updateList m key = Returns (m', c) ->
  spec.cursorInRange m -> spec.cursorInRange m'.
Proof.
  unfold spec.cursorInRange, tui.updateList, len.
  destruct (tui.is_key key ["q"; "ctrl+c"; "esc"]);
    [intros [= <- _]; auto|].
  destruct (tui.is_key key ["up"; "k"]).
  { intros [= <- _]. destruct (Z.ltb_spec 0 (tui.cursor m)); cbn; lia. }
  destruct (tui.is_key key ["down"; "j"]).
  { intros [= <- _].
    destruct (Z.ltb_spec (tui.cursor m)
                (Z.of_nat (length (tui.items m)) - 1)); cbn; lia. }
  destruct (tui.is_key key [" "; "x"]).
  { destruct (index (tui.items m) (tui.cursor m)) as [it|]; cbn [obind];
      [|discriminate].
    destruct (git.IsCurrent (tui.worktree it)); cbn [negb];
      [intros [= <- _]; auto|].
    unfold store.
    destruct ((0 <=? tui.cursor m) && _); cbn [obind]; [|discriminate].
    intros [= <- _]. cbn. now rewrite length_insert. }
  destruct (tui.is_key key ["a"]).
  { rewrite selectMerged_loop. cbn [obind]. intros [= <- _]. cbn.
    now rewrite length_map. }
  destruct (tui.is_key key ["n"]).
  { rewrite deselect_loop. cbn [obind]. intros [= <- _]. cbn.
    now rewrite length_map. }
  destruct (tui.is_key key ["d"; "enter"]).
  { intros [= <- _]. now destruct (0 <? tui.selectedCount m). }
  intros [= <- _]. auto.
Qed.

Lemma updateList_returns (m : tui.model) (key : string) :
  spec.cursorInRange m -> exists r, tui.updateList m key = Returns r.
Proof.
  intros [Hlo Hhi]. unfold tui.updateList.
  destruct (tui.is_key key ["q"; "ctrl+c"; "esc"]); [eauto|].
  destruct (tui.is_key key ["up"; "k"]); [eauto|].
  destruct (tui.is_key key ["down"; "j"]); [eauto|].
  destruct (tui.is_key key [" "; "x"]).
  { unfold len in Hhi.
    destruct (lookup_lt_is_Some_2 (tui.items m) (Z.to_nat (tui.cursor m)))
      as [it Hit]; [lia|].
    rewrite (proj2 (index_Returns _ _ it) (conj Hlo Hit)). cbn [obind].
    destruct (git.IsCurrent (tui.worktree it)); cbn [negb]; [eauto|].
    unfold store, len.
    destruct (Z.leb_spec 0 (tui.cursor m)); [|lia].
    destruct (Z.ltb_spec (tui.cursor m) (Z.of_nat (length (tui.items m))));
      [|lia].
    cbn. eauto. }
  destruct (tui.is_key key ["a"]);
    [rewrite selectMerged_loop; cbn; eauto|].
  destruct (tui.is_key key ["n"]); [rewrite deselect_loop; cbn; eauto|].
  destruct (tui.is_key key ["d"; "enter"]); eauto.
Qed.

Lemma Update_cursorInRange (m m' : tui.model) (msg : tui.Msg) (c : tui.Cmd)
  (log log' : host.Log) :
  tui.Update m msg log = (Returns (m', c), log') ->
  spec.cursorInRange m -> spec.cursorInRange m'.
Proof.
  unfold tui.Update. destruct msg as [w h|key|].
  - intros [= <- _ _]. auto.
  - destruct (tui.mode_ m).
    + cbn [ret]. intros [= Hu _]. eapply updateList_cursorInRange; eauto.
    + unfold bind. intros Hu Hin. unfold spec.cursorInRange in *.
      pose proof (updateConfirm_items m key log) as Hi.
      assert (Hc : tui.cursor (fst (fst (tui.updateConfirm m key log)))
                   = tui.cursor m).
      { unfold tui.updateConfirm.
        destruct (tui.is_key key ["q"; "ctrl+c"; "esc"]); [reflexivity|].
        destruct (tui.is_key key ["left"; "h"; "right"; "l"; "tab"]);
          [reflexivity|].
        destruct (tui.is_key key ["y"]).
        { destruct (executeRemoval_reported (tui.set_confirmCursor m 1) log)
            as (results & l' & -> & _). reflexivity. }
        destruct (tui.is_key key ["n"]); [reflexivity|].
        destruct (tui.is_key key ["enter"]); [|reflexivity].
        destruct (tui.confirmCursor m =? 1); [|reflexivity].
        destruct (executeRemoval_reported m log) as (results & l' & -> & _).
        reflexivity. }
      destruct (tui.updateConfirm m key log) as [[m1 c1] log1].
      cbn [fst ret] in *. injection Hu as <- _ _. now rewrite Hi, Hc.
    + intros [= <- _ _]. auto.
  - intros [= <- _ _]. auto.
Qed.

Lemma reachable_cursorInRange
  (worktrees : list git.Worktree) (repoDir : string) (m : tui.model) :
  worktrees <> [] -> spec.reachable worktrees repoDir m ->
  spec.cursorInRange m.
Proof.
  intros Hne Hreach. induction Hreach as [|m m' msg c log log' _ IH Hstep].
  - unfold spec.cursorInRange, tui.New, len. cbn. rewrite length_map.
    destruct worktrees; [congruence|]. cbn. lia.
  - eapply Update_cursorInRange; eauto.
Qed.

(** C8 fails on the empty list: the cursor 0 of the initial session is
    not below the length 0, and a toggle key makes [updateList] index the
    empty slice, which panics. *)
Theorem C8_toggle_on_empty_list_panics (repoDir : string) (log : host.Log) :
  ~ spec.cursorInRange (tui.New [] repoDir) /\
  tui.Update (tui.New [] repoDir) (tui.KeyMsg " ") log = (Panics, log) /\
  tui.Update (tui.New [] repoDir) (tui.KeyMsg "x") log = (Panics, log).
Proof.
  split; [|split]; try reflexivity.
  unfold spec.cursorInRange, len. cbn. intros [_ Hlt]. lia.
Qed.

End SessionProperties.

Lemma C2_current_never_checked_witness :
  let m := tui.set_items (tui.New sample.testWorktrees "/repo")
             (map spec.selectMerged
                (tui.items (tui.New sample.testWorktrees "/repo"))) in
  spec.reachable (H := sample.runtime)
    (H0 := sample.scripted sample.porcelain [] [])
    sample.testWorktrees "/repo" m /\
  spec.currentUnchecked (tui.items m) /\
  tui.Update (H := sample.runtime)
    (H0 := sample.scripted sample.porcelain [] [])
    m (tui.KeyMsg " ") [] = (Returns (m, tui.NoCmd), []).
Proof.
  cbv zeta.
  assert (Hreach : spec.reachable (H := sample.runtime)
            (H0 := sample.scripted sample.porcelain [] [])
            sample.testWorktrees "/repo"
            (tui.set_items (tui.New sample.testWorktrees "/repo")
               (map spec.selectMerged
                  (tui.items (tui.New sample.testWorktrees "/repo"))))).
  { eapply (spec.reach_Update _ _ _ _ (tui.KeyMsg "a") tui.NoCmd [] []);
      [apply spec.reach_New | reflexivity]. }
  destruct (C2_current_never_checked
              (RT := sample.runtime)
              (HO := sample.scripted sample.porcelain [] [])
              _ _ _ Hreach) as (Hinv & Htoggle & _).
  split; [exact Hreach|]. split; [exact Hinv|].
  eapply (Htoggle eq_refl); [reflexivity | reflexivity | now left].
Defined.

Lemma C10_select_merged_then_deselect_all_witness :
  exists m2,
    tui.Update (H := sample.runtime)
      (H0 := sample.scripted sample.porcelain [] [])
      (tui.set_items (tui.New sample.testWorktrees "/repo")
         (map spec.selectMerged
            (tui.items (tui.New sample.testWorktrees "/repo"))))
      (tui.KeyMsg "n") [] = (Returns (m2, tui.NoCmd), []) /\
    spec.noneChecked (tui.items m2).
Proof.
  destruct (C10_select_merged_then_deselect_all
              (RT := sample.runtime)
              (HO := sample.scripted sample.porcelain [] [])
              (tui.New sample.testWorktrees "/repo") [] eq_refl)
    as (m1 & m2 & H1 & _ & H2 & Hnone).
  injection H1 as <-. exists m2. split; [exact H2 | exact Hnone].
Defined.

Lemma C4_request_and_confirm_witness :
  let host := sample.scripted sample.porcelain [] [] in
  let m := tui.set_items (tui.New sample.testWorktrees "/repo")
             (map spec.selectMerged
                (tui.items (tui.New sample.testWorktrees "/repo"))) in
  let mc := tui.set_confirmCursor (tui.set_mode m tui.modeConfirm) 0 in
  tui.Update (H := sample.runtime) (H0 := host) m (tui.KeyMsg "d") []
  = (Returns (mc, tui.NoCmd), []) /\
  tui.Update (H := sample.runtime) (H0 := host) mc (tui.KeyMsg "enter") []
  = (Returns (tui.set_mode mc tui.modeList, tui.NoCmd), []).
Proof.
  cbv zeta. split.
  - apply (C4_request_and_confirm
             (RT := sample.runtime)
             (HO := sample.scripted sample.porcelain [] [])
             (tui.set_items (tui.New sample.testWorktrees "/repo")
                (map spec.selectMerged
                   (tui.items (tui.New sample.testWorktrees "/repo"))))
             []); [reflexivity | now left |].
    apply Exists_cons_tl, Exists_cons_hd. reflexivity.
  - apply (C4_request_and_confirm
             (RT := sample.runtime)
             (HO := sample.scripted sample.porcelain [] [])
             (tui.set_confirmCursor
                (tui.set_mode
                   (tui.set_items (tui.New sample.testWorktrees "/repo")
                      (map spec.selectMerged
                         (tui.items (tui.New sample.testWorktrees "/repo"))))
                   tui.modeConfirm) 0)
             []); reflexivity.
Defined.

(** Two checked items, the removal of the second fails: the first is
    reported as removed, the second as an error, and the session is
    Done. *)
Example executeRemoval_second_fails :
  let host := sample.scripted sample.porcelain
                ["/repo-feature-b"] ["/repo-feature-b"] in
  let m := tui.set_items (tui.New sample.testWorktrees "/repo")
             (map (fun it =>
                     tui.set_checked it
                       (negb (git.IsCurrent (tui.worktree it)) &&
                        (git.Modified (tui.worktree it) =? 0)))
                (tui.items (tui.New sample.testWorktrees "/repo"))) in
  let m' := fst (fst (tui.executeRemoval (H := sample.runtime) (H0 := host)
                        m [])) in
  tui.removed m' = ["feature-a"] /\
  tui.errors m'
  = ["feature-b: git worktree remove --force /repo-feature-b: " ++
     "fatal: cannot remove a locked working tree"] /\
  tui.mode_ m' = tui.modeDone.
Proof. vm_compute. repeat split. Qed.

(** The single-select model guards the same access: enter on an empty list
    selects nothing and does not panic. *)
Example selector_enter_on_empty_list :
  tui.selector_Update (tui.NewSelector []) (tui.KeyMsg "enter")
  = Returns ({| tui.sel_items := []; tui.sel_cursor := 0;
                tui.selected := None; tui.done := true;
                tui.sel_width := 0; tui.sel_height := 0 |}, tui.Quit).
Proof. reflexivity. Qed.

(** ** Further evaluations *)

Example SyncText_examples :
  let sync a b :=
    git.SyncText
      {| git.Path := ""; git.Head := ""; git.Branch := "";
         git.IsBare := false; git.IsDetached := false;
         git.IsCurrent := false; git.Modified := 0; git.Untracked := 0;
         git.Ahead := a; git.Behind := b; git.IsMerged := false;
         git.LastCommit := 0 |} in
  sync 0 0 = "-" /\
  sync 3 0 = git.arrowUp ++ "3" /\
  sync 0 5 = git.arrowDown ++ "5" /\
  sync 2 4 = git.arrowDown ++ "4 " ++ git.arrowUp ++ "2".
Proof. vm_compute. repeat split. Qed.

Example ListWorktrees_sample :
  let r := git.ListWorktrees (H := sample.runtime)
             (H0 := sample.scripted sample.porcelain [] []) "/repo" [] in
  map (fun w => (git.Path w, git.BranchShort w, git.IsCurrent w))
      (fst (fst r))
  = [ ("/repo", "main", true);
      ("/repo-feature-a", "feature-a", false);
      ("/repo-feature-b", "feature-b", false);
      ("/repo-feature-c", "feature-c", false) ] /\
  snd (fst r) = None.
Proof. vm_compute. split; reflexivity. Qed.

Example BuildTags_examples :
  tui.BuildTags (H := sample.terminal) sample.epoch
    (nth 3 sample.testWorktrees sample.bareWorktree)
  = "[3 modified, 1 untracked]" /\
  tui.BuildTags (H := sample.terminal) sample.epoch
    (nth 0 sample.testWorktrees sample.bareWorktree)
  = "[current]" /\
  tui.BuildTags (H := sample.terminal) (sample.epoch + 45 * time.Day)
    (sample.committedAt sample.epoch)
  = "[45d stale]" /\
  tui.BuildTags (H := sample.terminal) sample.epoch
    (nth 2 sample.testWorktrees sample.bareWorktree)
  = "".
Proof. vm_compute. repeat split. Qed.


(** * Properties beyond the claims *)

(** ** Short heads *)

Lemma substring_prefix (n : nat) (s : string) :
  strings.HasPrefix s (String.substring 0 n s) = true /\
  String.length (String.substring 0 n s) = Nat.min n (String.length s).
Proof.
  revert n. induction s as [|c s IH]; intros [|n]; cbn; auto.
  destruct (IH n) as [Hp Hl]. rewrite Ascii.eqb_refl, Hp, Hl. auto.
Qed.

Lemma HasPrefix_refl (s : string) : strings.HasPrefix s s = true.
Proof. induction s; cbn; [reflexivity|]. now rewrite Ascii.eqb_refl. Qed.

(** X1: [ShortHead] is a prefix of the head, of 8 bytes or, when the head
    is shorter, of the whole head: it never slices past the end. *)
Theorem X1_ShortHead_prefix (w : git.Worktree) :
  strings.HasPrefix (git.Head w) (git.ShortHead w) = true /\
  strings.Len (git.ShortHead w) = Z.min 8 (strings.Len (git.Head w)).
Proof.
  unfold git.ShortHead, strings.Len.
  destruct (Z.leb_spec 8 (Z.of_nat (String.length (git.Head w)))).
  - destruct (substring_prefix 8 (git.Head w)) as [Hp Hl].
    rewrite Hp, Hl. split; [reflexivity|]. lia.
  - rewrite HasPrefix_refl. split; [reflexivity|]. lia.
Qed.

(** ** The default branch, and adding a worktree *)

Section Branches.
Context {RT : GoRuntime} {HO : Host}.

(** X2: [DefaultBranch] never fails.  It asks for [origin/HEAD] first
    and, when that resolves, answers with it and asks nothing else;
    otherwise it answers "main" or "master", and "master" exactly when it
    verified that [main] is missing and [master] exists. *)
Theorem X2_DefaultBranch_never_fails (dir : string) (log : host.Log) :
  let r := git.DefaultBranch dir log in
  snd (fst r) = None /\
  exists (c0 : host.Completed) (rest : host.Log),
    snd r = (log ++ (spec.symbolicRefInvocation dir, c0) :: rest)%list /\
    (host.run_err c0 = None ->
     rest = [] /\
     fst (fst r)
     = strings.TrimPrefix (TrimSpace (host.stdout c0))
         "refs/remotes/origin/") /\
    (host.run_err c0 <> None ->
     (fst (fst r) = "main" \/ fst (fst r) = "master") /\
     (fst (fst r) = "master" <->
      exists c1 c2,
        rest = [(spec.verifyInvocation dir "main", c1);
                (spec.verifyInvocation dir "master", c2)] /\
        host.run_err c1 <> None /\ host.run_err c2 = None)).
Proof.
  cbv zeta. unfold git.DefaultBranch, bind.
  run_cases c0 E0.
  - cbn [git.firstVerified]. unfold bind.
    run_cases c1 E1.
    + run_cases c2 E2.
      * cbn. split; [reflexivity|]. eexists c0, [_; _].
        split; [now rewrite <- !app_assoc|]. split; [congruence|].
        intros _. split; [now left|]. split; [discriminate|].
        intros (c1' & c2' & [= <- <-] & _ & E). congruence.
      * cbn. split; [reflexivity|]. eexists c0, [_; _].
        split; [now rewrite <- !app_assoc|]. split; [congruence|].
        intros _. split; [now right|]. split; [|reflexivity].
        intros _. exists c1, c2. repeat split; congruence.
    + cbn. split; [reflexivity|]. eexists c0, [_].
      split; [now rewrite <- !app_assoc|]. split; [congruence|].
      intros _. split; [now left|]. split; [discriminate|].
      intros (c1' & c2' & [=] & _).
  - cbn. split; [reflexivity|]. exists c0, [].
    split; [reflexivity|]. split; [auto|]. intros Hne. congruence.
Qed.

(** X3: [AddWorktree] checks whether the branch exists and then makes
    exactly one [worktree add]: a plain checkout of the branch when it
    exists, and otherwise a creation with [-b], from the base branch iff
    one is given.  It fails iff that invocation fails. *)
Theorem X3_AddWorktree_checks_then_adds
  (repoDir targetPath branch baseBranch : string) (log : host.Log) :
  let r := git.AddWorktree repoDir targetPath branch baseBranch log in
  exists (c0 c1 : host.Completed) (add : host.Invocation),
    snd r = (log ++ [(spec.verifyInvocation repoDir branch, c0); (add, c1)]
            )%list /\
    (host.run_err c0 = None ->
     add = spec.checkoutInvocation repoDir targetPath branch) /\
    (host.run_err c0 <> None ->
     add = spec.createInvocation repoDir targetPath branch baseBranch) /\
    (fst r = None <-> host.run_err c1 = None).
Proof.
  cbv zeta. unfold git.AddWorktree, git.BranchExists, bind.
  run_cases c0 E0; cbn [ret].
  - set (args := if negb (String.eqb baseBranch "") then _ else _).
    assert (Hargs : {| host.inv_dir := repoDir; host.inv_args := args |}
                    = spec.createInvocation repoDir targetPath branch
                        baseBranch).
    { subst args. unfold spec.createInvocation, append.
      now destruct (String.eqb baseBranch ""). }
    run_cases c1 E1; cbn; eexists c0, c1, _;
      (split; [now rewrite <- app_assoc|]);
      (split; [congruence|]); (split; [intros _; exact Hargs|]);
      split; congruence.
  - run_cases c1 E1; cbn; eexists c0, c1, _;
      (split; [now rewrite <- app_assoc|]);
      (split; [reflexivity|]); (split; [congruence|]);
      split; congruence.
Qed.

End Branches.

(** ** Enrichment *)

Lemma statusLine_fold_same (lines : list string) (w : git.Worktree) :
  let w' := fold_left git.statusLine lines w in
  spec.sameWorktree w w' /\ git.Ahead w' = git.Ahead w /\
  git.Behind w' = git.Behind w /\ git.IsMerged w' = git.IsMerged w /\
  git.LastCommit w' = git.LastCommit w.
Proof.
  cbv zeta. revert w. induction lines as [|line lines IH]; intros w.
  - cbn. repeat split.
  - cbn [fold_left]. destruct (IH (git.statusLine w line))
      as ((H1 & H2 & H3 & H4 & H5 & H6) & H7 & H8 & H9 & H10).
    unfold spec.sameWorktree.
    rewrite H1, H2, H3, H4, H5, H6, H7, H8, H9, H10.
    unfold git.statusLine.
    destruct (strings.Len line <? 2); [repeat split|].
    destruct (String.eqb _ "??"); repeat split.
Qed.

Lemma wrap64_int (n : Z) : spec.isInt n -> time.wrap64 n = n.
Proof.
  unfold spec.isInt, time.wrap64. intros Hn.
  rewrite Z.mod_small; lia.
Qed.

Lemma wrap64_incr (n k : Z) :
  time.wrap64 (time.wrap64 (n + k) + 1) = time.wrap64 (n + (k + 1)).
Proof.
  unfold time.wrap64. f_equal.
  replace (((n + k + 2 ^ 63) mod 2 ^ 64 - 2 ^ 63 + 1 + 2 ^ 63))
    with ((n + k + 2 ^ 63) mod 2 ^ 64 + 1) by lia.
  rewrite Z.add_mod_idemp_l by lia. f_equal. lia.
Qed.

Lemma statusLine_fold_counts (lines : list string) (w : git.Worktree) :
  spec.isInt (git.Modified w) -> spec.isInt (git.Untracked w) ->
  let w' := fold_left git.statusLine lines w in
  git.Modified w'
  = time.wrap64 (git.Modified w
                 + len (List.filter spec.modifiedLine lines)) /\
  git.Untracked w'
  = time.wrap64 (git.Untracked w
                 + len (List.filter spec.untrackedLine lines)).
Proof.
  cbv zeta. intros Hm Hu.
  assert (G : forall (lines : list string) (w0 : git.Worktree) (km ku : Z),
    git.Modified w0 = time.wrap64 (git.Modified w + km) ->
    git.Untracked w0 = time.wrap64 (git.Untracked w + ku) ->
    git.Modified (fold_left git.statusLine lines w0)
    = time.wrap64 (git.Modified w + (km
         + len (List.filter spec.modifiedLine lines))) /\
    git.Untracked (fold_left git.statusLine lines w0)
    = time.wrap64 (git.Untracked w + (ku
         + len (List.filter spec.untrackedLine lines)))).
  { clear lines. induction lines as [|line lines IH]; intros w0 km ku Em Eu.
    - cbn. unfold len. cbn. rewrite !Z.add_0_r. auto.
    - cbn [fold_left List.filter].
      unfold spec.modifiedLine at 1, spec.untrackedLine at 1.
      unfold git.statusLine at 2 4.
      destruct (Z.ltb_spec (strings.Len line) 2) as [Hlt|Hge].
      + destruct (Z.leb_spec 2 (strings.Len line)); [lia|]. cbn [andb].
        apply IH; assumption.
      + destruct (Z.leb_spec 2 (strings.Len line)); [|lia]. cbn [andb].
        destruct (String.eqb (String.substring 0 2 line) "??"); cbn [negb].
        * destruct (IH (git.set_Untracked w0 (git.incr (git.Untracked w0)))
                      km (ku + 1)) as [Im Iu].
          -- exact Em.
          -- cbn. unfold git.incr. rewrite Eu. apply wrap64_incr.
          -- rewrite Im, Iu. unfold len. cbn [length].
             split; f_equal; lia.
        * destruct (IH (git.set_Modified w0 (git.incr (git.Modified w0)))
                      (km + 1) ku) as [Im Iu].
          -- cbn. unfold git.incr. rewrite Em. apply wrap64_incr.
          -- exact Eu.
          -- rewrite Im, Iu. unfold len. cbn [length].
             split; f_equal; lia. }
  destruct (G lines w 0 0) as [Gm Gu].
  - now rewrite Z.add_0_r, wrap64_int.
  - now rewrite Z.add_0_r, wrap64_int.
  - rewrite Gm, Gu. split; f_equal; lia.
Qed.

Section Enrichment.
Context {RT : GoRuntime} {HO : Host} {PF : git.Platform}.

Lemma countStatus_step (w : git.Worktree) (log : host.Log) :
  let r := git.countStatus w log in
  let c := exec log (spec.statusInvocation (git.Path w)) in
  snd r = (log ++ [(spec.statusInvocation (git.Path w), c)])%list /\
  fst r = match host.run_err c with
          | None =>
              if String.eqb (TrimSpace (host.stdout c)) "" then w
              else fold_left git.statusLine
                     (strings.Split (TrimSpace (host.stdout c)) strings.LF) w
          | Some _ => w
          end.
Proof.
  cbv zeta. unfold git.countStatus, bind, spec.statusInvocation.
  run_cases c E.
  - cbn. split; reflexivity.
  - destruct (String.eqb (TrimSpace _) ""); cbn; split; reflexivity.
Qed.

Lemma countAheadBehind_step (w : git.Worktree) (log : host.Log) :
  let r := git.countAheadBehind w log in
  (exists e, snd r = (log ++ [e])%list /\
             host.inv_dir (fst e) = git.Path w /\
             spec.isQuery (host.inv_args (fst e)) = true) /\
  (fst r = w \/ exists a b, fst r = git.set_AheadBehind w a b).
Proof.
  cbv zeta. unfold git.countAheadBehind, bind. run_cases c E.
  - cbn. split; [eexists; repeat split|now left].
  - destruct (git.Fields _) as [|a [|b [|x rest]]]; cbn;
      (split; [eexists; repeat split|]); eauto.
Qed.

Lemma checkMerged_step (w : git.Worktree) (defaultBranch : string)
  (log : host.Log) :
  let r := git.checkMerged w defaultBranch log in
  (snd r = log \/
   exists e, snd r = (log ++ [e])%list /\
             host.inv_dir (fst e) = git.Path w /\
             spec.isQuery (host.inv_args (fst e)) = true) /\
  (fst r = w \/
   (fst r = git.set_IsMerged w true /\
    git.BranchShort w <> "" /\ git.BranchShort w <> defaultBranch)).
Proof.
  cbv zeta. unfold git.checkMerged, bind.
  destruct (String.eqb_spec (git.BranchShort w) "") as [|Hne];
    [cbn; auto|].
  destruct (String.eqb_spec (git.BranchShort w) defaultBranch) as [|Hnd];
    [cbn; auto|].
  cbn [negb andb]. run_cases c E.
  - cbn. split; [right; eexists; repeat split|now left].
  - destruct (git.listedMerged _ _); cbn;
      (split; [right; eexists; repeat split|]); auto.
Qed.

Lemma readLastCommit_step (w : git.Worktree) (log : host.Log) :
  let r := git.readLastCommit w log in
  (exists e, snd r = (log ++ [e])%list /\
             host.inv_dir (fst e) = git.Path w /\
             spec.isQuery (host.inv_args (fst e)) = true) /\
  (fst r = w \/ exists t, fst r = git.set_LastCommit w t).
Proof.
  cbv zeta. unfold git.readLastCommit, bind. run_cases c E.
  - cbn. split; [eexists; repeat split|now left].
  - destruct (negb (String.eqb _ "")); [|cbn; split;
      [eexists; repeat split|now left]].
    destruct (git.ParseInt _) as [ts [e|]]; cbn;
      (split; [eexists; repeat split|]); eauto.
Qed.

Lemma EnrichWorktree_blocks (w : git.Worktree) (defaultBranch : string)
  (log : host.Log) :
  git.IsBare w = false -> git.NotExist log (git.Path w) = false ->
  let r1 := git.countStatus w log in
  let r2 := git.countAheadBehind (fst r1) (snd r1) in
  let r3 := git.checkMerged (fst r2) defaultBranch (snd r2) in
  git.EnrichWorktree w defaultBranch log
  = git.readLastCommit (fst r3) (snd r3).
Proof.
  intros Hb Hn. cbv zeta. unfold git.EnrichWorktree, bind, git.statNotExist.
  rewrite Hb. cbv beta. rewrite Hn.
  destruct (git.countStatus w log) as [w1 l1]. cbn [fst snd].
  destruct (git.countAheadBehind w1 l1) as [w2 l2]. cbn [fst snd].
  now destruct (git.checkMerged w2 defaultBranch l2) as [w3 l3].
Qed.

Lemma EnrichWorktree_skips (w : git.Worktree) (defaultBranch : string)
  (log : host.Log) :
  git.IsBare w = true \/ git.NotExist log (git.Path w) = true ->
  git.EnrichWorktree w defaultBranch log = (w, log).
Proof.
  unfold git.EnrichWorktree, bind, git.statNotExist.
  intros [Hb|Hn]; [now rewrite Hb|].
  destruct (git.IsBare w); [reflexivity|]. cbv beta. now rewrite Hn.
Qed.

(** X4: [EnrichWorktree] only reads: it invokes [git] at most four times,
    every time in the worktree's own directory and every time for a query
    ([status], [rev-list], [branch --merged], [log]).  For a bare worktree
    or one whose directory does not exist it invokes nothing and leaves
    the record as it is. *)
Theorem X4_EnrichWorktree_only_queries
  (w : git.Worktree) (defaultBranch : string) (log : host.Log) :
  let r := git.EnrichWorktree w defaultBranch log in
  exists new : host.Log,
    snd r = (log ++ new)%list /\
    (length new <= 4)%nat /\
    spec.queriesIn (git.Path w) new /\
    (git.IsBare w = true \/ git.NotExist log (git.Path w) = true ->
     new = [] /\ fst r = w).
Proof.
  cbv zeta.
  destruct (git.IsBare w) eqn:Hb;
    [|destruct (git.NotExist log (git.Path w)) eqn:Hn].
  - rewrite EnrichWorktree_skips by (rewrite Hb; auto).
    exists []. rewrite app_nil_r. repeat split; auto.
    constructor.
  - rewrite EnrichWorktree_skips by auto.
    exists []. rewrite app_nil_r. repeat split; auto.
    constructor.
  - rewrite (EnrichWorktree_blocks w defaultBranch log Hb Hn). cbv zeta.
    destruct (countStatus_step w log) as [L1 F1]. cbv zeta in L1, F1.
    assert (P1 : git.Path (fst (git.countStatus w log)) = git.Path w).
    { rewrite F1. destruct (host.run_err _); [reflexivity|].
      destruct (String.eqb _ ""); [reflexivity|].
      apply statusLine_fold_same. }
    clear F1.
    destruct (git.countStatus w log) as [w1 l1]. cbn [fst snd] in *.
    destruct (countAheadBehind_step w1 l1) as [(e2 & L2 & D2 & Q2) F2].
    cbv zeta in L2, F2.
    assert (P2 : git.Path (fst (git.countAheadBehind w1 l1)) = git.Path w).
    { destruct F2 as [->|(a & b & ->)]; exact P1. }
    clear F2.
    destruct (git.countAheadBehind w1 l1) as [w2 l2]. cbn [fst snd] in *.
    destruct (checkMerged_step w2 defaultBranch l2) as [L3 F3].
    cbv zeta in L3, F3.
    assert (P3 : git.Path (fst (git.checkMerged w2 defaultBranch l2))
                 = git.Path w).
    { destruct F3 as [->|(-> & _)]; exact P2. }
    clear F3.
    destruct (git.checkMerged w2 defaultBranch l2) as [w3 l3].
    cbn [fst snd] in *.
    destruct (readLastCommit_step w3 l3) as [(e4 & L4 & D4 & Q4) _].
    cbv zeta in L4.
    rewrite L4. subst l1 l2.
    destruct L3 as [->|(e3 & -> & D3 & Q3)].
    + eexists [_; e2; e4]. rewrite <- !app_assoc.
      split; [reflexivity|]. split; [cbn; lia|].
      split; [|intros [?|?]; congruence].
      repeat constructor; cbn; congruence.
    + eexists [_; e2; e3; e4]. rewrite <- !app_assoc.
      split; [reflexivity|]. split; [cbn; lia|].
      split; [|intros [?|?]; congruence].
      repeat constructor; cbn; congruence.
Qed.

(** X5: [EnrichWorktree] keeps the identity of the record (path, head,
    branch, bare, detached, current).  It can set the merged flag but
    never clears it, and it never sets it for a record without a branch
    or for the default branch itself. *)
Theorem X5_EnrichWorktree_keeps_identity
  (w : git.Worktree) (defaultBranch : string) (log : host.Log) :
  let w' := fst (git.EnrichWorktree w defaultBranch log) in
  spec.sameWorktree w w' /\
  (git.IsMerged w = true -> git.IsMerged w' = true) /\
  (git.BranchShort w = "" \/ git.BranchShort w = defaultBranch ->
   git.IsMerged w' = git.IsMerged w).
Proof.
  cbv zeta.
  destruct (git.IsBare w) eqn:Hb;
    [|destruct (git.NotExist log (git.Path w)) eqn:Hn].
  - rewrite EnrichWorktree_skips by (rewrite Hb; auto).
    repeat split; auto.
  - rewrite EnrichWorktree_skips by auto. repeat split; auto.
  - rewrite (EnrichWorktree_blocks w defaultBranch log Hb Hn). cbv zeta.
    destruct (countStatus_step w log) as [_ F1]. cbv zeta in F1.
    assert (S1 : spec.sameWorktree w (fst (git.countStatus w log)) /\
                 git.IsMerged (fst (git.countStatus w log))
                 = git.IsMerged w).
    { rewrite F1. destruct (host.run_err _); [repeat split|].
      destruct (String.eqb _ ""); [repeat split|].
      split; apply statusLine_fold_same. }
    clear F1. destruct (git.countStatus w log) as [w1 l1].
    cbn [fst snd] in *.
    destruct (countAheadBehind_step w1 l1) as [_ F2]. cbv zeta in F2.
    destruct (git.countAheadBehind w1 l1) as [w2 l2]. cbn [fst snd] in *.
    destruct (checkMerged_step w2 defaultBranch l2) as [_ F3].
    cbv zeta in F3.
    destruct (git.checkMerged w2 defaultBranch l2) as [w3 l3].
    cbn [fst snd] in *.
    destruct (readLastCommit_step w3 l3) as [_ F4]. cbv zeta in F4.
    destruct (git.readLastCommit w3 l3) as [w4 l4]. cbn [fst snd] in *.
    destruct S1 as [(H1 & H2 & H3 & H4 & H5 & H6) H7].
    assert (Hbr : git.BranchShort w2 = git.BranchShort w).
    { unfold git.BranchShort.
      destruct F2 as [->|(a & b & ->)]; cbn; now rewrite H3. }
    unfold spec.sameWorktree.
    destruct F4 as [->|(t & ->)]; destruct F3 as [->|(-> & Hn1 & Hn2)];
      destruct F2 as [->|(a & b & ->)]; cbn;
      rewrite ?H1, ?H2, ?H3, ?H4, ?H5, ?H6, ?H7;
      repeat split; auto;
      intros [E|E]; rewrite <- Hbr in E; contradiction.
Qed.

(** X6: the status block counts the lines of [git status --porcelain]:
    each line of at least two bytes counts once, as untracked when it
    starts with "??" and as modified otherwise; shorter lines are skipped.
    When the status query fails, both counts stay as they were. *)
Theorem X6_EnrichWorktree_counts_status_lines
  (w : git.Worktree) (defaultBranch : string) (log : host.Log) :
  git.IsBare w = false -> git.NotExist log (git.Path w) = false ->
  spec.isInt (git.Modified w) -> spec.isInt (git.Untracked w) ->
  let w' := fst (git.EnrichWorktree w defaultBranch log) in
  let c := exec log (spec.statusInvocation (git.Path w)) in
  let lines := strings.Split (TrimSpace (host.stdout c)) strings.LF in
  (host.run_err c = None ->
   git.Modified w'
   = time.wrap64 (git.Modified w
                  + len (List.filter spec.modifiedLine lines)) /\
   git.Untracked w'
   = time.wrap64 (git.Untracked w
                  + len (List.filter spec.untrackedLine lines))) /\
  (host.run_err c <> None ->
   git.Modified w' = git.Modified w /\
   git.Untracked w' = git.Untracked w).
Proof.
  intros Hb Hn Hm Hu. cbv zeta.
  rewrite (EnrichWorktree_blocks w defaultBranch log Hb Hn). cbv zeta.
  destruct (countStatus_step w log) as [_ F1]. cbv zeta in F1.
  destruct (git.countStatus w log) as [w1 l1]. cbn [fst snd] in *.
  destruct (countAheadBehind_step w1 l1) as [_ F2]. cbv zeta in F2.
  destruct (git.countAheadBehind w1 l1) as [w2 l2]. cbn [fst snd] in *.
  destruct (checkMerged_step w2 defaultBranch l2) as [_ F3].
  cbv zeta in F3.
  destruct (git.checkMerged w2 defaultBranch l2) as [w3 l3].
  cbn [fst snd] in *.
  destruct (readLastCommit_step w3 l3) as [_ F4]. cbv zeta in F4.
  destruct (git.readLastCommit w3 l3) as [w4 l4]. cbn [fst snd] in *.
  assert (Hlater : git.Modified w4 = git.Modified w1 /\
                   git.Untracked w4 = git.Untracked w1).
  { destruct F4 as [->|(t & ->)]; destruct F3 as [->|(-> & _)];
      destruct F2 as [->|(a & b & ->)]; split; reflexivity. }
  destruct Hlater as [-> ->]. subst w1.
  destruct (host.run_err _) as [e|]; split; try congruence; intros _.
  - auto.
  - destruct (String.eqb_spec (TrimSpace (host.stdout
        (exec log (spec.statusInvocation (git.Path w))))) "") as [E|_].
    + rewrite E. cbn. unfold len. cbn. rewrite !Z.add_0_r.
      now rewrite !wrap64_int.
    + now apply statusLine_fold_counts.
Qed.

End Enrichment.

(** ** The listing *)

Lemma scanLine_paths (lines : list string)
  (st : list git.Worktree * option git.Worktree) :
  map git.Path (spec.finished (fold_left git.scanLine lines st))
  = (map git.Path (spec.finished st) ++
     map (fun line => strings.TrimPrefix line "worktree ")
       (List.filter (fun line => strings.HasPrefix line "worktree ") lines)
    )%list.
Proof.
  revert st. induction lines as [|line lines IH]; intros [wts cur].
  - cbn. now rewrite app_nil_r.
  - cbn [fold_left List.filter]. rewrite IH. unfold git.scanLine.
    destruct (strings.HasPrefix line "worktree ") eqn:Ew.
    + cbn [map]. unfold spec.finished. cbn [fst snd].
      destruct cur; unfold append; rewrite ?map_app; cbn;
        now rewrite <- ?app_assoc.
    + f_equal. unfold spec.finished.
      destruct (strings.HasPrefix line "HEAD ");
        [|destruct (strings.HasPrefix line "branch ");
          [|destruct (String.eqb line "bare");
            [|destruct (String.eqb line "detached")]]];
        cbn [fst snd]; destruct cur; cbn; unfold append;
        rewrite ?map_app; reflexivity.
Qed.

Lemma scanLine_preserves (P : git.Worktree -> Prop) :
  (forall p, P (git.set_Path git.emptyWorktree p)) ->
  (forall c v, P c -> P (git.set_Head c v)) ->
  (forall c v, P c -> P (git.set_Branch c v)) ->
  (forall c v, P c -> P (git.set_IsBare c v)) ->
  (forall c v, P c -> P (git.set_IsDetached c v)) ->
  forall (lines : list string)
         (st : list git.Worktree * option git.Worktree),
    Forall P (spec.finished st) ->
    Forall P (spec.finished (fold_left git.scanLine lines st)).
Proof.
  intros Hp Hh Hb Hbare Hdet.
  induction lines as [|line lines IH]; intros [wts cur] Hst; [exact Hst|].
  cbn [fold_left]. apply IH. unfold git.scanLine.
  unfold spec.finished in *. cbn [fst snd] in Hst.
  destruct (strings.HasPrefix line "worktree ").
  { cbn [fst snd]. unfold append. apply Forall_app. split; [exact Hst|].
    constructor; [apply Hp|constructor]. }
  assert (Hset : forall f : git.Worktree -> git.Worktree,
            (forall c, P c -> P (f c)) ->
            Forall P (match option_map f cur with
                      | Some c => append wts c
                      | None => wts
                      end)).
  { intros f Hf. destruct cur as [c|]; cbn; [|exact Hst].
    unfold append in *. apply Forall_app in Hst. destruct Hst as [Hw Hc].
    apply Forall_app. split; [exact Hw|].
    inversion Hc; subst. constructor; [now apply Hf|constructor]. }
  destruct (strings.HasPrefix line "HEAD "); [apply Hset; auto|].
  destruct (strings.HasPrefix line "branch "); [apply Hset; auto|].
  destruct (String.eqb line "bare"); [apply Hset; auto|].
  destruct (String.eqb line "detached"); [apply Hset; auto|].
  exact Hst.
Qed.

Lemma scanLine_unenriched (lines : list string) :
  Forall spec.unenriched
    (spec.finished (fold_left git.scanLine lines ([], None))).
Proof.
  apply scanLine_preserves; try (intros; assumption);
    try (intros; repeat split); constructor.
Qed.

Lemma scanLine_not_current (lines : list string) :
  Forall (fun w => git.IsCurrent w = false)
    (spec.finished (fold_left git.scanLine lines ([], None))).
Proof.
  apply scanLine_preserves; try (intros; assumption);
    try reflexivity; constructor.
Qed.

Lemma HasPrefix_empty (s : string) : strings.HasPrefix s "" = true.
Proof. now destruct s. Qed.

Lemma HasPrefix_app (pre s : string) :
  strings.HasPrefix (pre ++ s) pre = true.
Proof.
  induction pre as [|c pre IH]; cbn; [apply HasPrefix_empty|].
  now rewrite Ascii.eqb_refl.
Qed.

Lemma TrimPrefix_app (pre s : string) :
  strings.TrimPrefix (pre ++ s) pre = s.
Proof.
  unfold strings.TrimPrefix.
  assert (E : strings.dropPrefix (pre ++ s) pre = Some s).
  { induction pre as [|c pre IH]; cbn; [now destruct s|].
    now rewrite Ascii.eqb_refl. }
  now rewrite E.
Qed.

Lemma scanLine_worktree (st : list git.Worktree * option git.Worktree)
  (p : string) :
  git.scanLine st ("worktree " ++ p)
  = (spec.finished st, Some (git.set_Path git.emptyWorktree p)).
Proof.
  unfold git.scanLine. destruct st as [wts cur].
  now rewrite HasPrefix_app, TrimPrefix_app.
Qed.

Lemma scanLine_head (wts : list git.Worktree) (c : git.Worktree)
  (h : string) :
  git.scanLine (wts, Some c) ("HEAD " ++ h) = (wts, Some (git.set_Head c h)).
Proof.
  unfold git.scanLine.
  change (strings.HasPrefix ("HEAD " ++ h) "worktree ") with false.
  now rewrite HasPrefix_app, TrimPrefix_app.
Qed.

Lemma scanLine_branch (wts : list git.Worktree) (c : git.Worktree)
  (b : string) :
  git.scanLine (wts, Some c) ("branch " ++ b)
  = (wts, Some (git.set_Branch c b)).
Proof.
  unfold git.scanLine.
  change (strings.HasPrefix ("branch " ++ b) "worktree ") with false.
  change (strings.HasPrefix ("branch " ++ b) "HEAD ") with false.
  now rewrite HasPrefix_app, TrimPrefix_app.
Qed.

Lemma scanLine_stanza (w : git.Worktree) (rest : list string)
  (st : list git.Worktree * option git.Worktree) :
  fold_left git.scanLine (spec.stanza w ++ rest)%list st
  = fold_left git.scanLine rest (spec.finished st, Some (spec.listed w)).
Proof.
  destruct w as [p h b bare det cur' m u a bh mg lc].
  unfold spec.stanza, spec.listed. cbn [git.Path git.Head
    git.Branch git.IsBare git.IsDetached].
  rewrite <- !app_assoc. cbn [app fold_left].
  rewrite scanLine_worktree.
  destruct (String.eqb_spec h "") as [->|Hh];
    destruct (String.eqb_spec b "") as [->|Hb];
    cbn [app fold_left]; rewrite ?scanLine_head, ?scanLine_branch;
    destruct bare, det; cbn [app fold_left]; reflexivity.
Qed.

Lemma scanLine_stanzas (wts : list git.Worktree)
  (st : list git.Worktree * option git.Worktree) :
  spec.finished (fold_left git.scanLine (spec.porcelainLines wts) st)
  = (spec.finished st ++ map spec.listed wts)%list.
Proof.
  revert st. induction wts as [|w wts IH]; intros st.
  - cbn. now rewrite app_nil_r.
  - destruct wts as [|w' wts].
    + cbn [spec.porcelainLines map].
      rewrite <- (app_nil_r (spec.stanza w)), scanLine_stanza. reflexivity.
    + change (spec.porcelainLines (w :: w' :: wts))
        with (spec.stanza w ++ "" :: spec.porcelainLines (w' :: wts))%list.
      rewrite scanLine_stanza. cbn [fold_left].
      change (git.scanLine (spec.finished st, Some (spec.listed w)) "")
        with (spec.finished st, Some (spec.listed w)).
      rewrite IH. unfold spec.finished at 1. cbn [fst snd map].
      unfold append. now rewrite <- app_assoc.
Qed.

Section Listing.
Context {RT : GoRuntime} {HO : Host}.

Lemma ListWorktrees_listed (repoDir : string) (log : host.Log) :
  let c := exec log (spec.listInvocation repoDir) in
  host.run_err c = None ->
  fst (git.ListWorktrees repoDir log)
  = (spec.marked
       (spec.finished
          (fold_left git.scanLine (ScanLines (TrimSpace (host.stdout c)))
             ([], None))), None).
Proof.
  cbv zeta. unfold git.ListWorktrees, bind, spec.listInvocation.
  intros Hok. rewrite (run_ok _ _ _ Hok).
  destruct (fold_left git.scanLine _ ([], None)) as [wts cur].
  unfold spec.marked, spec.finished. cbn [fst snd].
  destruct Getwd as [cwd [e|]]; reflexivity.
Qed.

Lemma marked_paths (wts : list git.Worktree) :
  map git.Path (spec.marked wts) = map git.Path wts.
Proof.
  unfold spec.marked. destruct Getwd as [cwd [e|]]; [reflexivity|].
  rewrite map_map. apply map_ext. intros w. unfold git.markCurrent.
  now destruct (_ || _).
Qed.

Lemma marked_unenriched (wts : list git.Worktree) :
  Forall spec.unenriched wts -> Forall spec.unenriched (spec.marked wts).
Proof.
  unfold spec.marked. destruct Getwd as [cwd [e|]]; [auto|].
  intros Hw. induction Hw; cbn; constructor; auto.
  unfold git.markCurrent. now destruct (_ || _).
Qed.

(** X7: [ListWorktrees] returns one record per line that starts with
    "worktree ", in order, whose path is the rest of that line, and no
    record carries any enrichment; lines before the first such line are
    dropped.  When the listing invocation fails it returns no record and
    an error. *)
Theorem X7_ListWorktrees_one_record_per_worktree_line
  (repoDir : string) (log : host.Log) :
  let r := fst (git.ListWorktrees repoDir log) in
  let c := exec log (spec.listInvocation repoDir) in
  (host.run_err c = None ->
   snd r = None /\
   map git.Path (fst r)
   = map (fun line => strings.TrimPrefix line "worktree ")
       (List.filter (fun line => strings.HasPrefix line "worktree ")
          (ScanLines (TrimSpace (host.stdout c)))) /\
   Forall spec.unenriched (fst r)) /\
  (host.run_err c <> None -> fst r = [] /\ snd r <> None).
Proof.
  cbv zeta. split.
  - intros Hok. rewrite (ListWorktrees_listed repoDir log Hok).
    cbn [fst snd]. split; [reflexivity|]. split.
    + now rewrite marked_paths, scanLine_paths.
    + apply marked_unenriched, scanLine_unenriched.
  - intros Hko. unfold git.ListWorktrees, bind, spec.listInvocation in *.
    destruct (host.run_err _) as [e|] eqn:E; [|congruence].
    destruct (run_failed _ _ _ _ E) as [msg ->]. cbn.
    split; [reflexivity|discriminate].
Qed.

(** X8: the scan of [ListWorktrees] inverts the porcelain format: when
    the listing prints the stanzas of a list of records, the result is
    that list of records, each as the listing knows it (nothing enriched)
    and marked current or not. *)
Theorem X8_ListWorktrees_reads_back_stanzas
  (repoDir : string) (log : host.Log) (wts : list git.Worktree) :
  let c := exec log (spec.listInvocation repoDir) in
  host.run_err c = None ->
  ScanLines (TrimSpace (host.stdout c)) = spec.porcelainLines wts ->
  fst (git.ListWorktrees repoDir log)
  = (spec.marked (map spec.listed wts), None).
Proof.
  cbv zeta. intros Hok Hlines.
  rewrite (ListWorktrees_listed repoDir log Hok), Hlines.
  now rewrite scanLine_stanzas.
Qed.

(** X9: a listed worktree is marked current exactly when the working
    directory is known and is the worktree's directory (both made
    absolute) or lies below it; when the working directory cannot be
    determined, no worktree is marked. *)
Theorem X9_ListWorktrees_marks_current
  (repoDir : string) (log : host.Log) (w : git.Worktree) :
  In w (fst (fst (git.ListWorktrees repoDir log))) ->
  (git.IsCurrent w = true <->
   snd Getwd = None /\
   spec.within (Abs (fst Getwd)) (Abs (git.Path w)) = true).
Proof.
  destruct (host.run_err (exec log (spec.listInvocation repoDir)))
    as [e|] eqn:E.
  - unfold git.ListWorktrees, bind, spec.listInvocation in *.
    destruct (run_failed _ _ _ _ E) as [msg ->]. cbn. tauto.
  - rewrite (ListWorktrees_listed repoDir log E). cbn [fst].
    pose proof (scanLine_not_current
                  (ScanLines (TrimSpace (host.stdout
                     (exec log (spec.listInvocation repoDir)))))) as Hnc.
    rewrite Forall_forall in Hnc.
    unfold spec.marked. destruct Getwd as [cwd [err|]]; cbn [fst snd].
    + intros Hin. apply list_elem_of_In in Hin. rewrite (Hnc w Hin).
      split; [discriminate|]. intros [H _]. discriminate H.
    + intros Hin. apply in_map_iff in Hin. destruct Hin as (w0 & <- & Hin).
      apply list_elem_of_In in Hin. specialize (Hnc w0 Hin).
      unfold git.markCurrent, spec.within.
      destruct (String.eqb (Abs cwd) (Abs (git.Path w0)) ||
                strings.HasPrefix (Abs cwd)
                  (Abs (git.Path w0) ++ PathSeparator)) eqn:Ew; cbn.
      * tauto.
      * rewrite Hnc, Ew. split; [discriminate|]. intros [_ H].
        discriminate H.
Qed.

End Listing.

Lemma X6_EnrichWorktree_counts_status_lines_witness :
  let w' := fst (git.EnrichWorktree (H := sample.runtime)
                   (H0 := sample.answering) (H1 := sample.platform)
                   (sample.wt "/repo-feature-a" "refs/heads/feature-a"
                      false false) "main" []) in
  git.Modified w' = 2 /\ git.Untracked w' = 1.
Proof.
  cbv zeta.
  assert (Hint : spec.isInt 0) by (unfold spec.isInt; lia).
  destruct (X6_EnrichWorktree_counts_status_lines
              (RT := sample.runtime) (HO := sample.answering)
              (PF := sample.platform)
              (sample.wt "/repo-feature-a" "refs/heads/feature-a"
                 false false) "main" [] eq_refl eq_refl Hint Hint)
    as [Hok _].
  destruct (Hok eq_refl) as [Em Eu]. rewrite Em, Eu.
  split; reflexivity.
Defined.

Lemma X8_ListWorktrees_reads_back_stanzas_witness :
  fst (git.ListWorktrees (H := sample.runtime)
         (H0 := sample.scripted sample.porcelain [] []) "/repo" [])
  = (spec.marked (H := sample.scripted sample.porcelain [] [])
       (map spec.listed sample.porcelainWorktrees), None).
Proof.
  apply (X8_ListWorktrees_reads_back_stanzas
           (RT := sample.runtime)
           (HO := sample.scripted sample.porcelain [] [])
           "/repo" [] sample.porcelainWorktrees); reflexivity.
Defined.

Lemma X9_ListWorktrees_marks_current_witness :
  let w := git.set_IsCurrent
             (sample.described "/repo" "aaaa1111" "refs/heads/main") true in
  git.IsCurrent w = true <->
  snd (Getwd (Host := sample.scripted sample.porcelain [] [])) = None /\
  spec.within (H := sample.scripted sample.porcelain [] [])
    "/repo" (git.Path w) = true.
Proof.
  cbv zeta.
  apply (X9_ListWorktrees_marks_current
           (RT := sample.runtime)
           (HO := sample.scripted sample.porcelain [] []) "/repo" []).
  vm_compute. left. reflexivity.
Defined.


(** ** The selection session, continued *)

Lemma is_key_one (key k : string) : tui.is_key key [k] = true -> key = k.
Proof.
  unfold tui.is_key. cbn. rewrite orb_false_r. apply String.eqb_eq.
Qed.

Section SessionSafety.
Context {RT : GoRuntime} {HO : Host}.

Lemma updateConfirm_quiet (m : tui.model) (key : string) (log : host.Log) :
  snd (tui.updateConfirm m key log) = log \/
  key = "y" \/ (key = "enter" /\ tui.confirmCursor m = 1).
Proof.
  unfold tui.updateConfirm.
  destruct (tui.is_key key ["q"; "ctrl+c"; "esc"]); [now left|].
  destruct (tui.is_key key ["left"; "h"; "right"; "l"; "tab"]); [now left|].
  destruct (tui.is_key key ["y"]) eqn:Ey.
  { right. left. now apply is_key_one. }
  destruct (tui.is_key key ["n"]); [now left|].
  destruct (tui.is_key key ["enter"]) eqn:Ee; [|now left].
  destruct (Z.eqb_spec (tui.confirmCursor m) 1); [|now left].
  right. right. split; [now apply is_key_one|assumption].
Qed.

(** X10: the session invokes [git] only for a confirmed removal: an
    [Update] leaves the log of invocations as it is unless the mode is
    Confirm and the key is "y", or "enter" with the choice on "Yes".
    Outside List mode no [Update] changes the items. *)
Theorem X10_Update_invokes_git_only_when_confirmed
  (m : tui.model) (msg : tui.Msg) (log : host.Log) :
  (snd (tui.Update m msg log) = log \/
   (tui.mode_ m = tui.modeConfirm /\
    (msg = tui.KeyMsg "y" \/
     (msg = tui.KeyMsg "enter" /\ tui.confirmCursor m = 1)))) /\
  (tui.mode_ m <> tui.modeList ->
   forall m' c, fst (tui.Update m msg log) = Returns (m', c) ->
                tui.items m' = tui.items m).
Proof.
  split.
  - unfold tui.Update. destruct msg as [w h|key|]; try (now left).
    destruct (tui.mode_ m); try (now left).
    unfold bind. destruct (updateConfirm_quiet m key log) as [Hq|Hk].
    + left. destruct (tui.updateConfirm m key log). exact Hq.
    + right. split; [reflexivity|].
      destruct Hk as [->|[-> Hc]]; auto.
  - intros Hmode m' c. unfold tui.Update.
    destruct msg as [w h|key|]; try (intros [= <- _]; reflexivity).
    destruct (tui.mode_ m); [congruence| |intros [= <- _]; reflexivity].
    unfold bind. pose proof (updateConfirm_items m key log) as Hi.
    destruct (tui.updateConfirm m key log) as [[m1 c1] l1].
    cbn. intros [= <- _]. exact Hi.
Qed.

Lemma selectedCount_Exists (m : tui.model) :
  0 < tui.selectedCount m ->
  Exists (fun it => tui.checked it = true) (tui.items m).
Proof.
  rewrite selectedCount_filter. unfold spec.checkedItems, len.
  induction (tui.items m) as [|it its IH]; cbn [List.filter length];
    [lia|].
  destruct (tui.checked it) eqn:E; [intros _; now left|].
  intros H. right. now apply IH.
Qed.

Lemma updateList_wellFormed (wts : list git.Worktree) (repoDir : string)
  (m m' : tui.model) (key : string) (c : tui.Cmd) :
  tui.mode_ m = tui.modeList ->
  tui.updateList m key = Returns (m', c) ->
  spec.wellFormed wts repoDir m -> spec.wellFormed wts repoDir m'.
Proof.
  intros Hmode Hu (Hw & Hr & Hc & Hx & Hcur).
  pose proof (updateList_currentUnchecked _ _ _ _ Hu Hcur) as Hcur'.
  unfold spec.wellFormed. revert Hu. unfold tui.updateList.
  destruct (tui.is_key key ["q"; "ctrl+c"; "esc"]).
  { intros [= <- _]. repeat split; auto. }
  destruct (tui.is_key key ["up"; "k"]).
  { intros [= <- _]. destruct (0 <? tui.cursor m); repeat split; auto. }
  destruct (tui.is_key key ["down"; "j"]).
  { intros [= <- _]. destruct (tui.cursor m <? len (tui.items m) - 1);
      repeat split; auto. }
  destruct (tui.is_key key [" "; "x"]).
  { destruct (index (tui.items m) (tui.cursor m)) as [it|] eqn:Ei;
      cbn [obind]; [|discriminate].
    destruct (git.IsCurrent (tui.worktree it)); cbn [negb].
    - intros [= <- _]. repeat split; auto.
    - unfold store. destruct (_ && _); cbn [obind]; [|discriminate].
      intros [= <- _]. cbn. apply index_Returns in Ei. destruct Ei as [_ Ei].
      repeat split; auto; [|congruence].
      rewrite <- Hw.
      change (map tui.worktree ?l) with (tui.worktree <$> l).
      rewrite list_fmap_insert. apply list_insert_id.
      now rewrite list_lookup_fmap, Ei. }
  destruct (tui.is_key key ["a"]).
  { rewrite selectMerged_loop. cbn [obind]. intros [= <- _]. cbn.
    repeat split; auto; [|congruence].
    rewrite <- Hw, map_map. apply map_ext. intros it.
    unfold spec.selectMerged. now destruct (_ && _). }
  destruct (tui.is_key key ["n"]).
  { rewrite deselect_loop. cbn [obind]. intros [= <- _]. cbn.
    repeat split; auto; [|congruence].
    rewrite <- Hw, map_map. now apply map_ext. }
  destruct (tui.is_key key ["d"; "enter"]).
  { intros [= <- _].
    destruct (Z.ltb_spec 0 (tui.selectedCount m)); [|repeat split; auto].
    cbn. repeat split; auto. intros _. now apply selectedCount_Exists. }
  intros [= <- _]. repeat split; auto.
Qed.

Lemma updateConfirm_wellFormed (wts : list git.Worktree) (repoDir : string)
  (m : tui.model) (key : string) (log : host.Log) :
  tui.mode_ m = tui.modeConfirm ->
  spec.wellFormed wts repoDir m ->
  spec.wellFormed wts repoDir (fst (fst (tui.updateConfirm m key log))).
Proof.
  intros Hmode (Hw & Hr & Hc & Hx & Hcur).
  unfold spec.wellFormed, tui.updateConfirm.
  destruct (tui.is_key key ["q"; "ctrl+c"; "esc"]).
  { cbn. repeat split; auto; try discriminate. }
  destruct (tui.is_key key ["left"; "h"; "right"; "l"; "tab"]).
  { cbn. repeat split; auto; try lia. }
  destruct (tui.is_key key ["y"]).
  { destruct (executeRemoval_reported (tui.set_confirmCursor m 1) log)
      as (results & log' & -> & _). cbn. repeat split; auto; try discriminate. }
  destruct (tui.is_key key ["n"]).
  { cbn. repeat split; auto; try discriminate. }
  destruct (tui.is_key key ["enter"]); [|cbn; repeat split; auto].
  destruct (tui.confirmCursor m =? 1).
  - destruct (executeRemoval_reported m log) as (results & log' & -> & _).
    cbn. repeat split; auto; try discriminate.
  - cbn. repeat split; auto; try discriminate.
Qed.

Lemma Update_wellFormed (wts : list git.Worktree) (repoDir : string)
  (m m' : tui.model) (msg : tui.Msg) (c : tui.Cmd) (log log' : host.Log) :
  tui.Update m msg log = (Returns (m', c), log') ->
  spec.wellFormed wts repoDir m -> spec.wellFormed wts repoDir m'.
Proof.
  unfold tui.Update. destruct msg as [w h|key|].
  - intros [= <- _ _]. auto.
  - destruct (tui.mode_ m) eqn:Hmode.
    + cbn [ret]. intros [= Hu _]. eapply updateList_wellFormed; eauto.
    + unfold bind. intros Hu Hwf.
      pose proof (updateConfirm_wellFormed wts repoDir m key log Hmode Hwf)
        as Hwf'.
      destruct (tui.updateConfirm m key log) as [[m1 c1] log1].
      cbn in Hu. injection Hu as <- _ _. exact Hwf'.
    + intros [= <- _ _]. auto.
  - intros [= <- _ _]. auto.
Qed.

Lemma reachable_wellFormed (wts : list git.Worktree) (repoDir : string)
  (m : tui.model) :
  spec.reachable wts repoDir m -> spec.wellFormed wts repoDir m.
Proof.
  induction 1 as [|m m' msg c log log' _ IH Hstep].
  - unfold spec.wellFormed.
    split; [unfold tui.New; cbn; rewrite map_map; cbn; apply map_id|].
    split; [reflexivity|]. split; [now left|].
    split; [discriminate|].
    apply noneChecked_currentUnchecked, New_items.
  - eapply Update_wellFormed; eauto.
Qed.

(** X11: in every reachable state the items are the worktrees the session
    was started on, in order; the confirmation choice is "No" or "Yes";
    and the mode is Confirm only while some item is checked, so a removal
    can only be confirmed for a non-empty selection. *)
Theorem X11_confirm_only_with_a_selection
  (worktrees : list git.Worktree) (repoDir : string) (m : tui.model) :
  spec.reachable worktrees repoDir m ->
  map tui.worktree (tui.items m) = worktrees /\
  tui.repoDir m = repoDir /\
  (tui.confirmCursor m = 0 \/ tui.confirmCursor m = 1) /\
  (tui.mode_ m = tui.modeConfirm ->
   Exists (fun it => tui.checked it = true) (tui.items m)).
Proof.
  intros Hreach.
  destruct (reachable_wellFormed _ _ _ Hreach) as (H1 & H2 & H3 & H4 & _).
  auto.
Qed.

Ltac removes_entry :=
  match goal with
  | H : spec.removes _ _ |- _ =>
      unfold spec.removes in H; cbn in H;
      destruct H as [H|H]; try discriminate H;
      injection H; intros; subst; try reflexivity
  end.

Lemma RemoveWorktree_removes
  (repoDir wtPath : string) (deleteBranch : bool) (log : host.Log) :
  exists new : host.Log,
    snd (git.RemoveWorktree repoDir wtPath deleteBranch log)
    = (log ++ new)%list /\
    forall e p, In e new -> spec.removes p e -> p = wtPath.
Proof.
  pose proof (RemoveWorktree_trace repoDir wtPath deleteBranch log) as T.
  cbv zeta in T.
  set (listing := if deleteBranch
                  then [(spec.listInvocation repoDir,
                         exec log (spec.listInvocation repoDir))]
                  else []).
  assert (Elog : (if deleteBranch
                  then (log ++ [(spec.listInvocation repoDir,
                                 exec log (spec.listInvocation repoDir))])%list
                  else log) = (log ++ listing)%list).
  { subst listing. destruct deleteBranch; [reflexivity|].
    now rewrite app_nil_r. }
  rewrite Elog in T. clear Elog.
  assert (Hl : forall e p, In e listing -> spec.removes p e -> p = wtPath).
  { subst listing. intros e p Hin Hr.
    destruct deleteBranch; cbn in Hin; [|tauto].
    destruct Hin as [<-|[]]. removes_entry. }
  set (log1 := (log ++ listing)%list) in *.
  set (c1 := exec log1 (spec.removeInvocation repoDir wtPath)) in *.
  set (e1 := (spec.removeInvocation repoDir wtPath, c1)) in *.
  set (c2 := exec (log1 ++ [e1])%list (spec.forceInvocation repoDir wtPath))
    in *.
  set (e2 := (spec.forceInvocation repoDir wtPath, c2)) in *.
  assert (Hshape : exists rest : host.Log,
            snd (git.RemoveWorktree repoDir wtPath deleteBranch log)
            = ((log1 ++ [e1]) ++ rest)%list /\
            forall e p, In e rest -> spec.removes p e -> p = wtPath).
  { assert (H2 : forall e p, In e [e2] -> spec.removes p e -> p = wtPath).
    { intros e p [<-|[]] Hr. removes_entry. }
    destruct (host.run_err c1); [destruct (host.run_err c2)|].
    - destruct T as [_ ->]. exists [e2]. auto.
    - destruct T as [_ [->|(_ & name & ->)]].
      + exists [e2]. auto.
      + eexists [e2; _]. rewrite <- app_assoc. split; [reflexivity|].
        intros e p [<-|[<-|[]]] Hr; removes_entry.
    - destruct T as [_ [->|(_ & name & ->)]].
      + exists []. rewrite app_nil_r. split; [reflexivity|]. intros e p [].
      + eexists [_]. split; [reflexivity|].
        intros e p [<-|[]] Hr; removes_entry. }
  destruct Hshape as (rest & -> & Hrest).
  exists (listing ++ e1 :: rest)%list. subst log1.
  split; [now rewrite <- !app_assoc|].
  intros e p Hin Hr. apply in_app_iff in Hin.
  destruct Hin as [Hin|[<-|Hin]]; eauto. removes_entry.
Qed.

Lemma attemptAll_removes (repoDir : string) (its : list tui.item)
  (log : host.Log) :
  exists new : host.Log,
    snd (spec.attemptAll repoDir its log) = (log ++ new)%list /\
    forall e p, In e new -> spec.removes p e ->
                exists it, In it its /\ git.Path (tui.worktree it) = p.
Proof.
  revert log. induction its as [|it rest IH]; intros log.
  - exists []. cbn. rewrite app_nil_r. split; [reflexivity|]. intros e p [].
  - cbn [spec.attemptAll]. unfold bind.
    rewrite attempt_RemoveWorktree. cbv zeta.
    destruct (RemoveWorktree_removes repoDir (git.Path (tui.worktree it))
                (git.IsMerged (tui.worktree it)) log)
      as (new1 & Hlog1 & Hrm1).
    rewrite Hlog1.
    destruct (IH (log ++ new1)%list) as (new2 & Hlog2 & Hrm2).
    destruct (spec.attemptAll repoDir rest (log ++ new1)%list)
      as [results log2].
    cbn [fst snd ret] in *. subst log2.
    exists (new1 ++ new2)%list. rewrite <- app_assoc.
    split; [reflexivity|].
    intros e p Hin Hr. apply in_app_iff in Hin. destruct Hin as [Hin|Hin].
    + exists it. split; [now left|]. symmetry. eauto.
    + destruct (Hrm2 e p Hin Hr) as (it' & Hin' & Hp). exists it'.
      split; [now right|exact Hp].
Qed.

Lemma executeRemoval_removes (m : tui.model) (log : host.Log) :
  exists new : host.Log,
    snd (tui.executeRemoval m log) = (log ++ new)%list /\
    forall e p, In e new -> spec.removes p e ->
                exists it, In it (spec.checkedItems m) /\
                           git.Path (tui.worktree it) = p.
Proof.
  rewrite executeRemoval_attempts.
  destruct (attemptAll_removes (tui.repoDir m) (spec.checkedItems m) log)
    as (new & Hlog & Hrm).
  destruct (spec.attemptAll (tui.repoDir m) (spec.checkedItems m) log)
    as [results log1].
  cbn [snd] in *. subst log1.
  eexists (new ++ [_])%list. rewrite <- app_assoc. split; [reflexivity|].
  intros e p Hin Hr. apply in_app_iff in Hin.
  destruct Hin as [Hin|[<-|[]]]; [eauto|]. removes_entry.
Qed.

Lemma Update_removes (m : tui.model) (msg : tui.Msg) (log : host.Log) :
  exists new : host.Log,
    snd (tui.Update m msg log) = (log ++ new)%list /\
    forall e p, In e new -> spec.removes p e ->
                exists it, In it (spec.checkedItems m) /\
                           git.Path (tui.worktree it) = p.
Proof.
  assert (Hquiet : snd (tui.Update m msg log) = log ->
            exists new : host.Log,
              snd (tui.Update m msg log) = (log ++ new)%list /\
              forall e p, In e new -> spec.removes p e ->
                exists it, In it (spec.checkedItems m) /\
                           git.Path (tui.worktree it) = p).
  { intros ->. exists []. rewrite app_nil_r. split; [reflexivity|].
    intros e p []. }
  unfold tui.Update in *. destruct msg as [w h|key|]; try (now apply Hquiet).
  destruct (tui.mode_ m); try (now apply Hquiet).
  unfold bind, tui.updateConfirm in *.
  destruct (tui.is_key key ["q"; "ctrl+c"; "esc"]); [now apply Hquiet|].
  destruct (tui.is_key key ["left"; "h"; "right"; "l"; "tab"]);
    [now apply Hquiet|].
  destruct (tui.is_key key ["y"]).
  { destruct (executeRemoval_removes (tui.set_confirmCursor m 1) log)
      as (new & Hlog & Hrm).
    destruct (tui.executeRemoval (tui.set_confirmCursor m 1) log)
      as [r l]. cbn [snd] in *. exists new. split; [exact Hlog|exact Hrm]. }
  destruct (tui.is_key key ["n"]); [now apply Hquiet|].
  destruct (tui.is_key key ["enter"]); [|now apply Hquiet].
  destruct (tui.confirmCursor m =? 1); [|now apply Hquiet].
  destruct (executeRemoval_removes m log) as (new & Hlog & Hrm).
  destruct (tui.executeRemoval m log) as [r l]. cbn [snd] in *.
  exists new. split; [exact Hlog|exact Hrm].
Qed.

(** X12: the session never removes the current worktree.  In every
    reachable state, whatever the message, each removal that [Update]
    invokes, forced or not, is for the path of one of the session's
    worktrees that is not current. *)
Theorem X12_session_never_removes_current
  (worktrees : list git.Worktree) (repoDir : string) (m : tui.model)
  (msg : tui.Msg) (log : host.Log) :
  spec.reachable worktrees repoDir m ->
  exists new : host.Log,
    snd (tui.Update m msg log) = (log ++ new)%list /\
    forall e p, In e new -> spec.removes p e ->
      exists wt, In wt worktrees /\ git.Path wt = p /\
                 git.IsCurrent wt = false.
Proof.
  intros Hreach.
  destruct (reachable_wellFormed _ _ _ Hreach) as (Hw & _ & _ & _ & Hcur).
  destruct (Update_removes m msg log) as (new & Hlog & Hrm).
  exists new. split; [exact Hlog|].
  intros e p Hin Hr. destruct (Hrm e p Hin Hr) as (it & Hit & Hp).
  unfold spec.checkedItems in Hit. apply filter_In in Hit.
  destruct Hit as [Hit Hchecked].
  exists (tui.worktree it). split; [|split; [exact Hp|]].
  - rewrite <- Hw. now apply in_map.
  - unfold spec.currentUnchecked in Hcur. rewrite Forall_forall in Hcur.
    apply list_elem_of_In in Hit. specialize (Hcur it Hit).
    destruct (git.IsCurrent (tui.worktree it)); [|reflexivity].
    rewrite Hcur in Hchecked by reflexivity. discriminate.
Qed.

(** X13: on a non-empty list of worktrees the session never panics: in
    every reachable state the cursor is a valid index, and every message
    is handled. *)
Theorem X13_session_never_panics_on_nonempty_list
  (worktrees : list git.Worktree) (repoDir : string) (m : tui.model) :
  worktrees <> [] -> spec.reachable worktrees repoDir m ->
  spec.cursorInRange m /\
  forall msg log, exists r, fst (tui.Update m msg log) = Returns r.
Proof.
  intros Hne Hreach.
  pose proof (reachable_cursorInRange _ _ _ Hne Hreach) as Hc.
  split; [exact Hc|]. intros msg log. unfold tui.Update.
  destruct msg as [w h|key|]; [cbn; eauto| |cbn; eauto].
  destruct (tui.mode_ m).
  - cbn. apply updateList_returns, Hc.
  - unfold bind. destruct (tui.updateConfirm m key log) as [r l].
    cbn. eauto.
  - cbn. eauto.
Qed.

Lemma Update_quiet_or_removal (m : tui.model) (msg : tui.Msg)
  (log : host.Log) :
  snd (tui.Update m msg log) = log \/
  exists m0 results log1,
    tui.Update m msg log
    = (Returns (spec.reported m0 results, tui.NoCmd), log1) /\
    spec.prunes log1 = S (spec.prunes log).
Proof.
  unfold tui.Update. destruct msg as [w h|key|]; try (now left).
  destruct (tui.mode_ m); try (now left).
  unfold bind, tui.updateConfirm.
  destruct (tui.is_key key ["q"; "ctrl+c"; "esc"]); [now left|].
  destruct (tui.is_key key ["left"; "h"; "right"; "l"; "tab"]); [now left|].
  destruct (tui.is_key key ["y"]).
  { right.
    destruct (executeRemoval_reported (tui.set_confirmCursor m 1) log)
      as (results & log' & -> & Hp). cbn. eauto. }
  destruct (tui.is_key key ["n"]); [now left|].
  destruct (tui.is_key key ["enter"]); [|now left].
  destruct (tui.confirmCursor m =? 1); [|now left].
  right. destruct (executeRemoval_reported m log)
    as (results & log' & -> & Hp). cbn. eauto.
Qed.

Lemma feed_Done (msgs : list tui.Msg) (m : tui.model) (log : host.Log) :
  tui.mode_ m = tui.modeDone ->
  exists m',
    spec.feed m msgs log = (Returns m', log) /\
    tui.mode_ m' = tui.modeDone /\ tui.items m' = tui.items m /\
    tui.removed m' = tui.removed m /\ tui.errors m' = tui.errors m.
Proof.
  revert m. induction msgs as [|msg msgs IH]; intros m Hmode.
  - exists m. cbn. auto.
  - cbn [spec.feed]. unfold bind, tui.Update.
    destruct msg as [w h|key|]; [|rewrite Hmode|]; cbn;
      [destruct (IH (tui.set_size m w h) Hmode) as (m' & ? & ? & ? & ? & ?)
      |destruct (IH m Hmode) as (m' & ? & ? & ? & ? & ?)
      |destruct (IH m Hmode) as (m' & ? & ? & ? & ? & ?)];
      exists m'; auto.
Qed.

(** X14: a session runs the removal at most once.  Whatever messages it
    is fed from whatever state, at most one prune is invoked; if anything
    was invoked at all the session ends in mode Done; and once in Done,
    no message invokes anything or changes the items or the report. *)
Theorem X14_removal_runs_at_most_once
  (msgs : list tui.Msg) (m : tui.model) (log : host.Log) :
  let r := spec.feed m msgs log in
  (spec.prunes (snd r) <= S (spec.prunes log))%nat /\
  (forall m', fst r = Returns m' -> snd r <> log ->
              tui.mode_ m' = tui.modeDone) /\
  (tui.mode_ m = tui.modeDone ->
   exists m', r = (Returns m', log) /\ tui.mode_ m' = tui.modeDone /\
              tui.items m' = tui.items m /\
              tui.removed m' = tui.removed m /\
              tui.errors m' = tui.errors m).
Proof.
  cbv zeta. split; [|split].
  - revert m log. induction msgs as [|msg msgs IH]; intros m log;
      [cbn [spec.feed ret snd]; lia|].
    cbn [spec.feed]. unfold bind.
    destruct (Update_quiet_or_removal m msg log)
      as [Hq|(m0 & results & log1 & -> & Hp)].
    + destruct (tui.Update m msg log) as [[[m1 c1]|] l]; cbn [snd] in Hq;
        subst l; [apply IH|cbn [ret snd]; lia].
    + destruct (feed_Done msgs (spec.reported m0 results) log1 eq_refl)
        as (m' & -> & _). cbn [snd]. lia.
  - revert m log. induction msgs as [|msg msgs IH]; intros m log m';
      [cbn [spec.feed ret fst snd]; congruence|].
    cbn [spec.feed]. unfold bind.
    destruct (Update_quiet_or_removal m msg log)
      as [Hq|(m0 & results & log1 & -> & Hp)].
    + destruct (tui.Update m msg log) as [[[m1 c1]|] l]; cbn [snd] in Hq;
        subst l; [apply IH|cbn [ret fst snd]; congruence].
    + destruct (feed_Done msgs (spec.reported m0 results) log1 eq_refl)
        as (m'' & -> & Hd & _). cbn. intros [= <-] _. exact Hd.
  - intros Hmode. apply feed_Done, Hmode.
Qed.

(** X15: toggling twice is the identity: in List mode with the cursor on
    an item that is not current, two presses of a toggle key give back
    the session as it was. *)
Theorem X15_toggle_twice_is_identity
  (m : tui.model) (it : tui.item) (key1 key2 : string) (log : host.Log) :
  tui.mode_ m = tui.modeList ->
  index (tui.items m) (tui.cursor m) = Returns it ->
  git.IsCurrent (tui.worktree it) = false ->
  In key1 [" "; "x"] -> In key2 [" "; "x"] ->
  exists m1,
    tui.Update m (tui.KeyMsg key1) log = (Returns (m1, tui.NoCmd), log) /\
    tui.checked
      (nth (Z.to_nat (tui.cursor m)) (tui.items m1) it)
    = negb (tui.checked it) /\
    tui.Update m1 (tui.KeyMsg key2) log = (Returns (m, tui.NoCmd), log).
Proof.
  intros Hmode Hit Hcur Hk1 Hk2.
  pose proof Hit as Hidx. apply index_Returns in Hidx.
  destruct Hidx as [Hlo Hl]. pose proof (lookup_lt_Some _ _ _ Hl) as Hlt.
  set (it' := tui.set_checked it (negb (tui.checked it))).
  set (its' := <[Z.to_nat (tui.cursor m) := it']> (tui.items m)).
  assert (Hstore : forall (its : list tui.item) (x : tui.item),
            length its = length (tui.items m) ->
            store its (tui.cursor m) x
            = Returns (<[Z.to_nat (tui.cursor m) := x]> its)).
  { intros its x Hlen. unfold store, len. rewrite Hlen.
    destruct (Z.leb_spec 0 (tui.cursor m)); [|lia].
    destruct (Z.ltb_spec (tui.cursor m)
                (Z.of_nat (length (tui.items m)))); [reflexivity|lia]. }
  assert (Htoggle : forall (m0 : tui.model) (x : tui.item) (key : string),
            tui.mode_ m0 = tui.modeList -> tui.cursor m0 = tui.cursor m ->
            length (tui.items m0) = length (tui.items m) ->
            tui.items m0 !! Z.to_nat (tui.cursor m) = Some x ->
            git.IsCurrent (tui.worktree x) = false ->
            In key [" "; "x"] ->
            tui.Update m0 (tui.KeyMsg key) log
            = (Returns (tui.set_items m0
                          (<[Z.to_nat (tui.cursor m)
                             := tui.set_checked x (negb (tui.checked x))]>
                             (tui.items m0)), tui.NoCmd), log)).
  { intros m0 x key Hm0 Hc0 Hlen Hx Hxc Hkey.
    unfold tui.Update. rewrite Hm0. cbn [ret]. f_equal.
    unfold tui.updateList.
    assert (Hi : index (tui.items m0) (tui.cursor m0) = Returns x)
      by (rewrite Hc0; apply index_Returns; auto).
    destruct Hkey as [<-|[<-|[]]]; cbn [tui.is_key existsb String.eqb
      Ascii.eqb Bool.eqb orb andb]; rewrite Hi; cbn [obind];
      rewrite Hxc; cbn [negb]; rewrite Hc0, (Hstore _ _ Hlen);
      reflexivity. }
  exists (tui.set_items m its'). split; [|split].
  - exact (Htoggle m it key1 Hmode eq_refl eq_refl Hl Hcur Hk1).
  - cbn [tui.items tui.set_items]. subst its'.
    rewrite (nth_lookup_Some _ _ it it');
      [reflexivity|now apply list_lookup_insert_eq].
  - rewrite (Htoggle (tui.set_items m its') it' key2); try assumption;
      try reflexivity.
    + assert (E : tui.set_checked it' (negb (tui.checked it')) = it).
      { subst it'. destruct it as [w0 c0]. unfold tui.set_checked. cbn.
        now rewrite negb_involutive. }
      rewrite E. f_equal. f_equal. cbn [tui.items tui.set_items].
      subst its'. rewrite list_insert_insert_eq.
      rewrite (list_insert_id (tui.items m) _ it Hl). now destruct m.
    + cbn. subst its'. now rewrite length_insert.
    + cbn. subst its'. now apply list_lookup_insert_eq.
Qed.

End SessionSafety.

(** A session on the sample worktrees that selected the merged ones and
    asked for the removal: it is in Confirm mode. *)
Lemma sample_confirming_reachable :
  let m0 := tui.New sample.testWorktrees "/repo" in
  let m1 := tui.set_items m0 (map spec.selectMerged (tui.items m0)) in
  spec.reachable (H := sample.runtime)
    (H0 := sample.scripted sample.porcelain [] [])
    sample.testWorktrees "/repo"
    (tui.set_confirmCursor (tui.set_mode m1 tui.modeConfirm) 0).
Proof.
  cbv zeta.
  eapply (spec.reach_Update _ _
            (tui.set_items (tui.New sample.testWorktrees "/repo")
               (map spec.selectMerged
                  (tui.items (tui.New sample.testWorktrees "/repo"))))
            _ (tui.KeyMsg "d") tui.NoCmd [] []);
    [|reflexivity].
  eapply (spec.reach_Update _ _ _ _ (tui.KeyMsg "a") tui.NoCmd [] []);
    [apply spec.reach_New | reflexivity].
Qed.

Lemma X11_confirm_only_with_a_selection_witness :
  let m0 := tui.New sample.testWorktrees "/repo" in
  let m1 := tui.set_items m0 (map spec.selectMerged (tui.items m0)) in
  let m := tui.set_confirmCursor (tui.set_mode m1 tui.modeConfirm) 0 in
  tui.mode_ m = tui.modeConfirm /\
  Exists (fun it => tui.checked it = true) (tui.items m).
Proof.
  cbv zeta.
  destruct (X11_confirm_only_with_a_selection
              (RT := sample.runtime)
              (HO := sample.scripted sample.porcelain [] [])
              _ _ _ sample_confirming_reachable) as (_ & _ & _ & Hsel).
  split; [reflexivity | exact (Hsel eq_refl)].
Defined.

Lemma X12_session_never_removes_current_witness :
  let m0 := tui.New sample.testWorktrees "/repo" in
  let m1 := tui.set_items m0 (map spec.selectMerged (tui.items m0)) in
  let m := tui.set_confirmCursor (tui.set_mode m1 tui.modeConfirm) 0 in
  exists new : host.Log,
    snd (tui.Update (H := sample.runtime)
           (H0 := sample.scripted sample.porcelain [] [])
           m (tui.KeyMsg "y") []) = ([] ++ new)%list /\
    forall e p, In e new -> spec.removes p e ->
      exists wt, In wt sample.testWorktrees /\ git.Path wt = p /\
                 git.IsCurrent wt = false.
Proof.
  cbv zeta.
  exact (X12_session_never_removes_current
           (RT := sample.runtime)
           (HO := sample.scripted sample.porcelain [] [])
           _ _ _ (tui.KeyMsg "y") [] sample_confirming_reachable).
Defined.

Lemma X13_session_never_panics_on_nonempty_list_witness :
  let m0 := tui.New sample.testWorktrees "/repo" in
  let m1 := tui.set_items m0 (map spec.selectMerged (tui.items m0)) in
  let m := tui.set_confirmCursor (tui.set_mode m1 tui.modeConfirm) 0 in
  sample.testWorktrees <> [] /\
  spec.cursorInRange m /\
  forall msg log, exists r,
    fst (tui.Update (H := sample.runtime)
           (H0 := sample.scripted sample.porcelain [] [])
           m msg log) = Returns r.
Proof.
  cbv zeta.
  assert (Hne : sample.testWorktrees <> []) by discriminate.
  split; [exact Hne|].
  exact (X13_session_never_panics_on_nonempty_list
           (RT := sample.runtime)
           (HO := sample.scripted sample.porcelain [] [])
           _ _ _ Hne sample_confirming_reachable).
Defined.

Lemma X15_toggle_twice_is_identity_witness :
  let m := tui.set_cursor (tui.New sample.testWorktrees "/repo") 1 in
  exists m1,
    tui.Update (H := sample.runtime)
      (H0 := sample.scripted sample.porcelain [] [])
      m (tui.KeyMsg " ") [] = (Returns (m1, tui.NoCmd), []) /\
    tui.checked
      (nth 1 (tui.items m1)
         (nth 1 (tui.items m) (tui.Build_item sample.bareWorktree false)))
    = true /\
    tui.Update (H := sample.runtime)
      (H0 := sample.scripted sample.porcelain [] [])
      m1 (tui.KeyMsg "x") [] = (Returns (m, tui.NoCmd), []).
Proof.
  cbv zeta.
  refine (X15_toggle_twice_is_identity
           (RT := sample.runtime)
           (HO := sample.scripted sample.porcelain [] [])
           (tui.set_cursor (tui.New sample.testWorktrees "/repo") 1)
           _ " " "x" [] eq_refl eq_refl eq_refl _ _).
  - left; reflexivity.
  - right; left; reflexivity.
Defined.


(** ** The single-select session of [switch] *)

Lemma selector_Update_invariant (worktrees : list git.Worktree)
  (m m' : tui.selectorModel) (msg : tui.Msg) (c : tui.Cmd) :
  tui.selector_Update m msg = Returns (m', c) ->
  tui.sel_items m = worktrees /\
  0 <= tui.sel_cursor m < Z.max 1 (len worktrees) /\
  (forall wt, tui.selected m = Some wt ->
              In wt worktrees /\ tui.done m = true) ->
  tui.sel_items m' = worktrees /\
  0 <= tui.sel_cursor m' < Z.max 1 (len worktrees) /\
  (forall wt, tui.selected m' = Some wt ->
              In wt worktrees /\ tui.done m' = true).
Proof.
  intros Hu (Hi & Hc & Hs). revert Hu. unfold tui.selector_Update.
  destruct msg as [w h|key|].
  - intros [= <- _]. cbn. auto.
  - destruct (tui.is_key key ["q"; "ctrl+c"; "esc"]).
    { intros [= <- _]. cbn. split; [first [assumption|reflexivity]|]. split; [lia|].
      intros wt Hwt. split; [apply (Hs _ Hwt)|reflexivity]. }
    destruct (tui.is_key key ["up"; "k"]).
    { intros [= <- _]. cbn. split; [first [assumption|reflexivity]|]. split; [|exact Hs].
      destruct (Z.ltb_spec 0 (tui.sel_cursor m)); lia. }
    destruct (tui.is_key key ["down"; "j"]).
    { intros [= <- _]. cbn. split; [first [assumption|reflexivity]|]. split; [|exact Hs].
      rewrite Hi.
      destruct (Z.ltb_spec (tui.sel_cursor m) (len worktrees - 1)); lia. }
    destruct (tui.is_key key ["enter"]).
    { rewrite Hi. destruct (Z.ltb_spec 0 (len worktrees)) as [Hpos|Hpos].
      - destruct (index worktrees (tui.sel_cursor m)) as [wt|] eqn:Hidx;
          cbn [obind]; [|discriminate].
        intros [= <- _]. cbn. split; [first [assumption|reflexivity]|]. split; [lia|].
        intros wt' [= <-]. split; [|reflexivity].
        apply index_Returns in Hidx.
        destruct Hidx as [_ Hl]. apply list_elem_of_In.
        now apply list_elem_of_lookup_2 in Hl.
      - cbn [obind]. intros [= <- _]. cbn. split; [first [assumption|reflexivity]|].
        split; [lia|].
        intros wt Hwt. split; [apply (Hs _ Hwt)|reflexivity]. }
    intros [= <- _]. auto.
  - intros [= <- _]. auto.
Qed.

Lemma sel_reachable_invariant (worktrees : list git.Worktree)
  (m : tui.selectorModel) :
  spec.sel_reachable worktrees m ->
  tui.sel_items m = worktrees /\
  0 <= tui.sel_cursor m < Z.max 1 (len worktrees) /\
  (forall wt, tui.selected m = Some wt ->
              In wt worktrees /\ tui.done m = true).
Proof.
  induction 1 as [|m m' msg c _ IH Hu].
  - cbn. repeat split; try lia; discriminate.
  - eapply selector_Update_invariant; eauto.
Qed.

(** X16: the single-select session never panics, not even on an empty
    list.  In every state reachable from [NewSelector worktrees] the items
    are the worktrees given, the cursor is a valid index (0 on the empty
    list), a selection, once made, is one of the worktrees and comes with
    [done] set, and [Update] returns for every message. *)
Theorem X16_selector_selects_a_listed_worktree
  (worktrees : list git.Worktree) (m : tui.selectorModel) :
  spec.sel_reachable worktrees m ->
  tui.sel_items m = worktrees /\
  0 <= tui.sel_cursor m < Z.max 1 (len worktrees) /\
  (forall wt, tui.selected m = Some wt ->
              In wt worktrees /\ tui.done m = true) /\
  (forall msg, exists r, tui.selector_Update m msg = Returns r).
Proof.
  intros Hreach.
  destruct (sel_reachable_invariant _ _ Hreach) as (Hi & Hc & Hs).
  split; [exact Hi|]. split; [exact Hc|]. split; [exact Hs|].
  intros msg. unfold tui.selector_Update.
  destruct msg as [w h|key|]; try (eexists; reflexivity).
  destruct (tui.is_key key ["q"; "ctrl+c"; "esc"]); [eexists; reflexivity|].
  destruct (tui.is_key key ["up"; "k"]); [eexists; reflexivity|].
  destruct (tui.is_key key ["down"; "j"]); [eexists; reflexivity|].
  destruct (tui.is_key key ["enter"]); [|eexists; reflexivity].
  rewrite Hi. destruct (Z.ltb_spec 0 (len worktrees)) as [Hpos|Hpos];
    [|eexists; reflexivity].
  destruct (lookup_lt_is_Some_2 worktrees (Z.to_nat (tui.sel_cursor m)))
    as [wt Hwt]; [unfold len in *; lia|].
  rewrite (proj2 (index_Returns _ _ _) (conj (proj1 Hc) Hwt)).
  eexists; reflexivity.
Qed.

Lemma X16_selector_selects_a_listed_worktree_witness :
  exists m,
    tui.selector_Update
      (tui.NewSelector sample.candidates) (tui.KeyMsg "enter")
    = Returns (m, tui.Quit) /\
    tui.selected m = Some (sample.wt "/repo" "refs/heads/main" true false) /\
    In (sample.wt "/repo" "refs/heads/main" true false) sample.candidates /\
    tui.done m = true.
Proof.
  eexists. split; [reflexivity|]. split; [reflexivity|].
  refine (proj1 (proj2 (proj2
    (X16_selector_selects_a_listed_worktree sample.candidates _ _))) _ _).
  - eapply (spec.sel_Update _ _ _ (tui.KeyMsg "enter") tui.Quit);
      [apply spec.sel_New | reflexivity].
  - reflexivity.
Defined.

(** ** Branch resolution, continued *)

Section ResolverMore.
Context {RT : GoRuntime}.

Lemma filter_sublist_bool {A} (p : A -> bool) (l : list A) :
  sublist (List.filter p l) l.
Proof.
  induction l as [|x l IH]; cbn; [constructor|].
  destruct (p x); now constructor.
Qed.

Lemma find_sublist {A} (p : A -> bool) (l : list A) (x : A) :
  List.find p l = Some x -> sublist [x] l.
Proof.
  induction l as [|y l IH]; cbn; [discriminate|].
  destruct (p y).
  - intros [= ->]. constructor. apply sublist_nil_l.
  - intros Hf. constructor. now apply IH.
Qed.

Lemma filter_filter_same {A} (p : A -> bool) (l : list A) :
  List.filter p (List.filter p l) = List.filter p l.
Proof.
  induction l as [|x l IH]; cbn; [reflexivity|].
  destruct (p x) eqn:Hp; cbn; [rewrite Hp, IH|]; auto.
Qed.

Lemma filter_nil_iff {A} (p : A -> bool) (l : list A) :
  List.filter p l = [] <-> (forall x, In x l -> p x = false).
Proof.
  induction l as [|x l IH]; cbn; [tauto|].
  destruct (p x) eqn:Hp.
  - split; [discriminate|]. intros Hall.
    specialize (Hall x (or_introl eq_refl)). congruence.
  - rewrite IH. split.
    + intros Hall y [<-|Hy]; auto.
    + intros Hall y Hy. apply Hall. now right.
Qed.

Lemma In_filter_bool {A} (p : A -> bool) (l : list A) (x : A) :
  In x (List.filter p l) -> In x l.
Proof. intros Hx. now apply List.filter_In in Hx. Qed.

(** X17: what the resolver returns is the list of worktrees with some
    left out, in the order given; and resolving the same query among the
    worktrees returned returns them all again. *)
Theorem X17_matchWorktrees_sublist_and_idempotent
  (worktrees : list git.Worktree) (query : string) :
  sublist (cmd.matchWorktrees worktrees query) worktrees /\
  cmd.matchWorktrees (cmd.matchWorktrees worktrees query) query
  = cmd.matchWorktrees worktrees query.
Proof.
  rewrite (matchWorktrees_tiers worktrees query).
  destruct (List.find (spec.equalsQuery query) worktrees) as [wt|] eqn:Hf.
  - split; [now apply find_sublist in Hf|].
    rewrite matchWorktrees_tiers. cbn [List.find].
    apply find_some in Hf. now rewrite (proj2 Hf).
  - pose proof (proj1 (find_none_iff _ _) Hf) as Hnone.
    destruct (List.filter (spec.startsWithQuery query) worktrees)
      as [|x xs] eqn:Hp.
    + split; [apply filter_sublist_bool|].
      rewrite matchWorktrees_tiers.
      rewrite (proj2 (find_none_iff (spec.equalsQuery query)
                        (List.filter (spec.containsQuery query) worktrees)))
        by (intros y Hy; apply Hnone; now apply In_filter_bool in Hy).
      rewrite (proj2 (filter_nil_iff (spec.startsWithQuery query)
                        (List.filter (spec.containsQuery query) worktrees)))
        by (intros y Hy; apply (proj1 (filter_nil_iff _ _) Hp);
            now apply In_filter_bool in Hy).
      apply filter_filter_same.
    + rewrite <- Hp. split; [apply filter_sublist_bool|].
      rewrite matchWorktrees_tiers.
      rewrite (proj2 (find_none_iff (spec.equalsQuery query)
                        (List.filter (spec.startsWithQuery query) worktrees)))
        by (intros y Hy; apply Hnone; now apply In_filter_bool in Hy).
      rewrite filter_filter_same. now rewrite Hp.
Qed.

End ResolverMore.

(** ** Synchronisation text *)

(** X18: [SyncText] is "-" exactly when the record is neither ahead nor
    behind; when a count is positive its arrow and number are shown, behind
    before ahead; and when the counts are not both zero but none is
    positive the text is empty. *)
Theorem X18_SyncText_dash_iff (w : git.Worktree) :
  (git.SyncText w = "-" <-> git.Ahead w = 0 /\ git.Behind w = 0) /\
  (0 < git.Behind w -> 0 < git.Ahead w ->
   git.SyncText w
   = git.arrowDown ++ strings.Itoa (git.Behind w) ++ " "
     ++ git.arrowUp ++ strings.Itoa (git.Ahead w)) /\
  (0 < git.Behind w -> git.Ahead w <= 0 ->
   git.SyncText w = git.arrowDown ++ strings.Itoa (git.Behind w)) /\
  (git.Behind w <= 0 -> 0 < git.Ahead w ->
   git.SyncText w = git.arrowUp ++ strings.Itoa (git.Ahead w)) /\
  (git.Behind w <= 0 -> git.Ahead w <= 0 ->
   ~ (git.Ahead w = 0 /\ git.Behind w = 0) -> git.SyncText w = "").
Proof.
  unfold git.SyncText.
  destruct (Z.eqb_spec (git.Ahead w) 0) as [Ha|Ha];
    destruct (Z.eqb_spec (git.Behind w) 0) as [Hb|Hb]; cbn [andb];
    destruct (Z.ltb_spec 0 (git.Behind w)) as [Hb'|Hb'];
    destruct (Z.ltb_spec 0 (git.Ahead w)) as [Ha'|Ha']; try lia;
    cbn [append app strings.Join git.arrowDown git.arrowUp String.append];
    repeat split; intros; try lia; try tauto; try discriminate;
    try reflexivity.
Qed.


(** ** Paths of new worktrees *)

Lemma ascii_eqb_false (c d : ascii) : c <> d -> Ascii.eqb c d = false.
Proof. intros Hn. now apply Ascii.eqb_neq. Qed.

Lemma replaceByte_fixes (c : ascii) :
  ~ In c spec.unsafeBytes -> strings.replaceByte config.replacerPairs c = c.
Proof.
  unfold spec.unsafeBytes, config.replacerPairs.
  cbn [map fst In strings.replaceByte]. intros Hn.
  repeat (rewrite ascii_eqb_false; [|intros ->; apply Hn; tauto]).
  reflexivity.
Qed.

Lemma replaceByte_safe (c : ascii) :
  ~ In (strings.replaceByte config.replacerPairs c) spec.unsafeBytes.
Proof.
  unfold config.replacerPairs. cbn [strings.replaceByte].
  repeat match goal with
         | |- context [Ascii.eqb c ?d] =>
             destruct (Ascii.eqb_spec c d) as [->|?]
         end;
    unfold spec.unsafeBytes, config.replacerPairs; cbn [map fst In];
    intros Hin; repeat (destruct Hin as [Hin|Hin]; try congruence).
Qed.

(** X19: a sanitised branch name has as many bytes as the branch name and
    none of the bytes that the replacer maps; a name without any such byte
    is returned as it is, and so sanitising twice changes nothing more. *)
Theorem X19_sanitizeBranch_removes_unsafe_bytes (branch : string) :
  String.length (config.sanitizeBranch branch) = String.length branch /\
  (forall c, In c (spec.bytes (config.sanitizeBranch branch)) ->
             ~ In c spec.unsafeBytes) /\
  ((forall c, In c (spec.bytes branch) -> ~ In c spec.unsafeBytes) ->
   config.sanitizeBranch branch = branch) /\
  config.sanitizeBranch (config.sanitizeBranch branch)
  = config.sanitizeBranch branch.
Proof.
  unfold config.sanitizeBranch.
  assert (Hsafe : forall s c,
            In c (spec.bytes (strings.ByteReplace config.replacerPairs s)) ->
            ~ In c spec.unsafeBytes).
  { induction s as [|d s IH]; cbn; [tauto|].
    intros c [<-|Hc]; [apply replaceByte_safe|now apply IH]. }
  assert (Hfix : forall s,
            (forall c, In c (spec.bytes s) -> ~ In c spec.unsafeBytes) ->
            strings.ByteReplace config.replacerPairs s = s).
  { induction s as [|d s IH];
      cbn [strings.ByteReplace spec.bytes list_ascii_of_string In];
      [reflexivity|]. intros Hall.
    rewrite replaceByte_fixes by (apply Hall; now left).
    rewrite IH; [reflexivity|]. intros c Hc. apply Hall. now right. }
  split; [|split; [|split]].
  - induction branch as [|d s IH]; cbn; [reflexivity|now rewrite IH].
  - apply Hsafe.
  - apply Hfix.
  - apply Hfix, Hsafe.
Qed.

Lemma HasPrefix_app_clear (old t x : string) :
  strings.HasPrefix t old = false ->
  (forall d x', x = String d x' -> ~ In d (spec.bytes old)) ->
  strings.HasPrefix (t ++ x) old = false.
Proof.
  revert t. induction old as [|a old IH]; intros t Ht Hx.
  - destruct t; discriminate.
  - destruct t as [|b t]; cbn [String.append].
    + destruct x as [|d x']; [reflexivity|]. cbn.
      rewrite ascii_eqb_false; [reflexivity|].
      intros ->. apply (Hx d x' eq_refl). now left.
    + cbn in Ht |- *. destruct (Ascii.eqb a b); [|reflexivity].
      cbn [andb] in *. apply IH; [exact Ht|].
      intros d x' Hd Hin. apply (Hx d x' Hd). now right.
Qed.

Lemma replaceFrom_app_clear (r x old new : string) :
  strings.Contains r old = false ->
  (forall d x', x = String d x' -> ~ In d (spec.bytes old)) ->
  strings.replaceFrom (r ++ x) old new 0
  = r ++ strings.replaceFrom x old new 0.
Proof.
  intros Hc Hx. induction r as [|c r IH]; [reflexivity|].
  cbn [strings.Contains] in Hc. apply orb_false_iff in Hc.
  destruct Hc as [Hp Hc].
  pose proof (HasPrefix_app_clear old (String c r) x Hp Hx) as Hp'.
  cbn [String.append] in Hp' |- *. cbn [strings.replaceFrom].
  rewrite Hp'. now rewrite (IH Hc).
Qed.

Lemma string_app_nil_r (s : string) : s ++ "" = s.
Proof. induction s as [|c s IH]; cbn; [reflexivity|now rewrite IH]. Qed.

Section Paths.
Context {FP : filepath.Library}.

(** X20: with the adjacent layout and the default pattern (spelled out or
    left empty) the new worktree is placed beside the repository, in the
    directory named after the repository and the sanitised branch with a
    dash in between, provided that the name of the repository does not
    contain the placeholder of the branch. *)
Theorem X20_WorktreePath_default_pattern
  (c : config.Config) (repoRoot branch : string) :
  config.Strategy (config.Layout c) <> config.LayoutSubdirectory ->
  config.Pattern (config.Layout c) = ""
  \/ config.Pattern (config.Layout c) = "{repo}-{branch}" ->
  strings.Contains (filepath.Base repoRoot) "{branch}" = false ->
  config.WorktreePath c repoRoot branch
  = filepath.Join
      [filepath.Dir repoRoot;
       filepath.Base repoRoot ++ "-" ++ config.sanitizeBranch branch].
Proof.
  intros Hs Hp Hc. unfold config.WorktreePath.
  rewrite (proj2 (String.eqb_neq _ _) Hs).
  assert (Epat : (if String.eqb (config.Pattern (config.Layout c)) ""
                  then "{repo}-{branch}"
                  else config.Pattern (config.Layout c))
                 = "{repo}-{branch}")
    by (destruct Hp as [-> | ->]; reflexivity).
  cbv zeta. rewrite Epat. do 2 f_equal.
  change (strings.ReplaceAll "{repo}-{branch}" "{repo}"
            (filepath.Base repoRoot))
    with (filepath.Base repoRoot ++ "-{branch}").
  unfold strings.ReplaceAll.
  rewrite replaceFrom_app_clear.
  - cbn. now rewrite string_app_nil_r.
  - exact Hc.
  - intros d x' [= <- _]. cbn. intros Hin.
    repeat (destruct Hin as [Hin|Hin]; try discriminate). exact Hin.
Qed.

(** With the subdirectory layout the pattern is not read. *)
Lemma WorktreePath_subdirectory (c : config.Config)
  (repoRoot branch : string) :
  config.Strategy (config.Layout c) = config.LayoutSubdirectory ->
  config.WorktreePath c repoRoot branch
  = filepath.Join [repoRoot; ".worktrees"; config.sanitizeBranch branch].
Proof. intros Hs. unfold config.WorktreePath. now rewrite Hs. Qed.

End Paths.

Lemma X20_WorktreePath_default_pattern_witness :
  config.WorktreePath (H := sample.paths) config.Default
    "/home/u/repo" "feature/auth"
  = "/home/u/repo-feature-auth".
Proof.
  exact (X20_WorktreePath_default_pattern (FP := sample.paths)
           config.Default "/home/u/repo" "feature/auth"
           ltac:(discriminate) (or_intror eq_refl) eq_refl).
Defined.


(** ** The commands *)

Section Commands.
Context {RT : GoRuntime} {HO : Host} {PF : git.Platform}
  {FP : filepath.Library} {FS : os.FileSystem} {DC : config.Decoder}.

(** *** What the steps of a command invoke *)

Lemma bind_appends {A B} (c : Git A) (k : A -> Git B) (log : host.Log)
  (p : host.Invocation * host.Completed -> Prop) :
  (exists n1, snd (c log) = (log ++ n1)%list /\ Forall p n1) ->
  (exists n2, snd (k (fst (c log)) (snd (c log)))
              = (snd (c log) ++ n2)%list /\ Forall p n2) ->
  exists new, snd (bind c k log) = (log ++ new)%list /\ Forall p new.
Proof.
  intros (n1 & L1 & P1) (n2 & L2 & P2). unfold bind.
  destruct (c log) as [a log1]. cbn [fst snd] in *. subst log1.
  exists (n1 ++ n2)%list. rewrite L2, <- app_assoc.
  split; [reflexivity|]. now apply Forall_app.
Qed.

Lemma ret_appends {A} (a : A) (log : host.Log)
  (p : host.Invocation * host.Completed -> Prop) :
  exists new, snd (ret a log) = (log ++ new)%list /\ Forall p new.
Proof. exists []. cbn. now rewrite app_nil_r. Qed.

Lemma run_appends (dir : string) (args : list string) (log : host.Log)
  (p : host.Invocation * host.Completed -> Prop) :
  (forall c, p ({| host.inv_dir := dir; host.inv_args := args |}, c)) ->
  exists new, snd (git.run dir args log) = (log ++ new)%list /\ Forall p new.
Proof.
  intros Hp. destruct (run_log dir args log) as [L _]. cbv zeta in L.
  eexists. split; [exact L|]. repeat constructor. apply Hp.
Qed.

Lemma reads_spares (worktrees : list git.Worktree) (defaultBranch : string)
  (e : host.Invocation * host.Completed) :
  spec.reads e -> spec.spares worktrees defaultBranch e.
Proof.
  unfold spec.reads, spec.spares, spec.removes.
  intros Hq path [Hr|Hr]; rewrite Hr in Hq; discriminate.
Qed.

Lemma reads_not_isRemove (new : host.Log) :
  Forall spec.reads new ->
  List.filter spec.isRemove new = [] /\ List.filter spec.isPrune new = [].
Proof.
  induction 1 as [|e new He _ [IH1 IH2]]; [split; reflexivity|].
  cbn [List.filter]. rewrite IH1, IH2.
  unfold spec.reads in He. destruct e as [[d args] c]. cbn [fst] in He.
  unfold spec.isRemove, spec.isPrune. cbn [fst host.inv_args].
  destruct args as [|a [|b [|x [|y rest]]]]; cbn in He |- *;
    try discriminate; try (split; reflexivity).
  all: revert He;
    repeat match goal with
           | |- context [String.eqb ?u ?v] =>
               destruct (String.eqb_spec u v); subst
           end; cbn; try discriminate; intros; split; reflexivity.
Qed.

Lemma RepoRoot_reads (dir : string) (log : host.Log) :
  exists new, snd (git.RepoRoot dir log) = (log ++ new)%list /\
              Forall spec.reads new.
Proof. apply run_appends. intros c. reflexivity. Qed.

Lemma ListWorktrees_reads (repoDir : string) (log : host.Log) :
  exists new, snd (git.ListWorktrees repoDir log) = (log ++ new)%list /\
              Forall spec.reads new.
Proof.
  eexists. split; [apply ListWorktrees_log|].
  repeat constructor.
Qed.

Lemma DefaultBranch_reads (dir : string) (log : host.Log) :
  exists new, snd (git.DefaultBranch dir log) = (log ++ new)%list /\
              Forall spec.reads new.
Proof.
  unfold git.DefaultBranch. apply bind_appends.
  - apply run_appends. intros c. reflexivity.
  - destruct (git.run dir _ log) as [[out [e|]] log1]; cbn [fst snd];
      [|apply ret_appends].
    apply bind_appends.
    + cbn [git.firstVerified]. apply bind_appends.
      * apply run_appends. intros c. reflexivity.
      * destruct (git.run dir _ log1) as [[o1 [e1|]] log2];
          cbn [fst snd]; [|apply ret_appends].
        apply bind_appends.
        -- apply run_appends. intros c. reflexivity.
        -- destruct (git.run dir _ log2) as [[o2 [e2|]] log3];
             cbn [fst snd]; apply ret_appends.
    + destruct (fst _); apply ret_appends.
Qed.

Lemma EnrichWorktree_reads (w : git.Worktree) (defaultBranch : string)
  (log : host.Log) :
  exists new, snd (git.EnrichWorktree w defaultBranch log)
              = (log ++ new)%list /\ Forall spec.reads new.
Proof.
  destruct (git.IsBare w) eqn:Hb;
    [|destruct (git.NotExist log (git.Path w)) eqn:Hn].
  - rewrite EnrichWorktree_skips by (rewrite Hb; auto). apply ret_appends.
  - rewrite EnrichWorktree_skips by auto. apply ret_appends.
  - rewrite (EnrichWorktree_blocks w defaultBranch log Hb Hn). cbv zeta.
    destruct (countStatus_step w log) as [L1 _]. cbv zeta in L1.
    destruct (git.countStatus w log) as [w1 l1]. cbn [fst snd] in *.
    destruct (countAheadBehind_step w1 l1) as [(e2 & L2 & D2 & Q2) _].
    cbv zeta in L2.
    destruct (git.countAheadBehind w1 l1) as [w2 l2]. cbn [fst snd] in *.
    destruct (checkMerged_step w2 defaultBranch l2) as [L3 _].
    cbv zeta in L3.
    destruct (git.checkMerged w2 defaultBranch l2) as [w3 l3].
    cbn [fst snd] in *.
    destruct (readLastCommit_step w3 l3) as [(e4 & L4 & D4 & Q4) _].
    cbv zeta in L4.
    rewrite L4. subst l1 l2.
    destruct L3 as [->|(e3 & -> & D3 & Q3)].
    + eexists [_; e2; e4]. rewrite <- !app_assoc.
      split; [reflexivity|]. repeat constructor; assumption.
    + eexists [_; e2; e3; e4]. rewrite <- !app_assoc.
      split; [reflexivity|]. repeat constructor; assumption.
Qed.

Lemma EnrichWorktree_same (w : git.Worktree) (defaultBranch : string)
  (log : host.Log) :
  spec.sameWorktree w (fst (git.EnrichWorktree w defaultBranch log)).
Proof.
  destruct (git.IsBare w) eqn:Hb;
    [|destruct (git.NotExist log (git.Path w)) eqn:Hn].
  - rewrite EnrichWorktree_skips by (rewrite Hb; auto).
    repeat split; auto.
  - rewrite EnrichWorktree_skips by auto. repeat split; auto.
  - rewrite (EnrichWorktree_blocks w defaultBranch log Hb Hn). cbv zeta.
    destruct (countStatus_step w log) as [_ F1]. cbv zeta in F1.
    assert (S1 : spec.sameWorktree w (fst (git.countStatus w log))).
    { rewrite F1. destruct (host.run_err _); [repeat split|].
      destruct (String.eqb _ ""); [repeat split|].
      apply statusLine_fold_same. }
    clear F1. destruct (git.countStatus w log) as [w1 l1].
    cbn [fst snd] in *.
    destruct (countAheadBehind_step w1 l1) as [_ F2]. cbv zeta in F2.
    destruct (git.countAheadBehind w1 l1) as [w2 l2]. cbn [fst snd] in *.
    destruct (checkMerged_step w2 defaultBranch l2) as [_ F3].
    cbv zeta in F3.
    destruct (git.checkMerged w2 defaultBranch l2) as [w3 l3].
    cbn [fst snd] in *.
    destruct (readLastCommit_step w3 l3) as [_ F4]. cbv zeta in F4.
    destruct (git.readLastCommit w3 l3) as [w4 l4]. cbn [fst snd] in *.
    destruct S1 as (H1 & H2 & H3 & H4 & H5 & H6).
    unfold spec.sameWorktree.
    destruct F4 as [->|(t & ->)]; destruct F3 as [->|(-> & Hn1 & Hn2)];
      destruct F2 as [->|(a & b & ->)]; cbn;
      rewrite ?H1, ?H2, ?H3, ?H4, ?H5, ?H6; repeat split; auto.
Qed.

Lemma enrichAll_reads (worktrees : list git.Worktree)
  (defaultBranch : string) (log : host.Log) :
  exists new, snd (cmd.enrichAll worktrees defaultBranch log)
              = (log ++ new)%list /\ Forall spec.reads new.
Proof.
  revert log. induction worktrees as [|wt rest IH]; intros log;
    cbn [cmd.enrichAll]; [apply ret_appends|].
  apply bind_appends; [apply EnrichWorktree_reads|].
  apply bind_appends; [apply IH|apply ret_appends].
Qed.

Lemma enrichAll_same (worktrees : list git.Worktree)
  (defaultBranch : string) (log : host.Log) :
  Forall2 spec.sameWorktree worktrees
    (fst (cmd.enrichAll worktrees defaultBranch log)).
Proof.
  revert log. induction worktrees as [|wt rest IH]; intros log;
    cbn [cmd.enrichAll]; [constructor|].
  unfold bind. pose proof (EnrichWorktree_same wt defaultBranch log) as Hs.
  destruct (git.EnrichWorktree wt defaultBranch log) as [wt' log1].
  specialize (IH log1).
  destruct (cmd.enrichAll rest defaultBranch log1) as [rest' log2].
  cbn [fst snd ret] in *. now constructor.
Qed.

Lemma autoPrune_appends (cfg : config.Config) (repoRoot : string)
  (log : host.Log) (p : host.Invocation * host.Completed -> Prop) :
  (forall c, p (spec.pruneInvocation repoRoot, c)) ->
  exists new, snd (cmd.autoPrune cfg repoRoot log) = (log ++ new)%list /\
              Forall p new.
Proof.
  intros Hp. unfold cmd.autoPrune.
  destruct (config.AutoPrune _); [|apply ret_appends].
  apply bind_appends; [|apply ret_appends].
  unfold git.PruneWorktrees. apply bind_appends.
  - apply run_appends. exact Hp.
  - destruct (git.run _ _ log) as [[o e] l]. apply ret_appends.
Qed.

(** *** The filter of [clean] *)

Lemma isCandidate_spared (f : cmd.cleanFlags) (cfgStaleDays : Z)
  (defaultBranch : string) (now now' : time.Time) (wt : git.Worktree) :
  cmd.isCandidate f cfgStaleDays defaultBranch now now' wt = true ->
  git.IsBare wt = false /\ git.IsCurrent wt = false /\
  git.BranchShort wt <> defaultBranch.
Proof.
  unfold cmd.isCandidate.
  destruct (git.IsBare wt); [discriminate|].
  destruct (git.IsCurrent wt); [discriminate|]. cbn [orb].
  destruct (String.eqb_spec (git.BranchShort wt) defaultBranch);
    [discriminate|]. auto.
Qed.

Lemma filterStep_sound (f : cmd.cleanFlags) (cfgStaleDays : Z)
  (defaultBranch : string) (clock : nat -> time.Time * time.Time)
  (worktrees : list git.Worktree) (acc : list cmd.candidate * nat)
  (Q : git.Worktree -> Prop) :
  Forall (fun c => Q (cmd.worktree c)) (fst acc) ->
  (forall wt now now', In wt worktrees ->
     cmd.isCandidate f cfgStaleDays defaultBranch now now' wt = true ->
     Q wt) ->
  Forall (fun c => Q (cmd.worktree c))
    (fst (fold_left (cmd.filterStep f cfgStaleDays defaultBranch clock)
            worktrees acc)).
Proof.
  revert acc. induction worktrees as [|wt rest IH]; intros [cs i] Hacc HQ;
    cbn [fold_left]; [exact Hacc|].
  apply IH; [|intros w n n' Hw; apply HQ; now right].
  unfold cmd.filterStep. destruct (clock i) as [now now'].
  destruct (cmd.isCandidate f cfgStaleDays defaultBranch now now' wt)
    eqn:Hc; cbn [fst] in *; [|exact Hacc].
  unfold append. apply Forall_app. split; [exact Hacc|].
  repeat constructor. cbn. apply (HQ wt now now'); [now left|exact Hc].
Qed.

Lemma filterCandidates_sound (f : cmd.cleanFlags) (cfgStaleDays : Z)
  (defaultBranch : string) (clock : nat -> time.Time * time.Time)
  (worktrees : list git.Worktree) :
  Forall (fun c => In (cmd.worktree c) worktrees /\
                   git.IsBare (cmd.worktree c) = false /\
                   git.IsCurrent (cmd.worktree c) = false /\
                   git.BranchShort (cmd.worktree c) <> defaultBranch)
    (cmd.filterCandidates f cfgStaleDays defaultBranch clock worktrees).
Proof.
  unfold cmd.filterCandidates.
  apply (filterStep_sound f cfgStaleDays defaultBranch clock worktrees
           ([], O)
           (fun wt => In wt worktrees /\ git.IsBare wt = false /\
                      git.IsCurrent wt = false /\
                      git.BranchShort wt <> defaultBranch)).
  - constructor.
  - intros wt now now' Hin Hc. split; [exact Hin|].
    exact (isCandidate_spared _ _ _ _ _ _ Hc).
Qed.

(** *** The removal loop of [clean] *)

Lemma removeCandidates_spares (repoRoot : string)
  (cs : list cmd.candidate) (removed : Z) (out : list cmd.cleanLine)
  (log : host.Log) (worktrees : list git.Worktree)
  (defaultBranch : string) :
  Forall (fun c => exists wt, In wt worktrees /\
                     git.Path wt = git.Path (cmd.worktree c) /\
                     git.IsBare wt = false /\ git.IsCurrent wt = false /\
                     git.BranchShort wt <> defaultBranch) cs ->
  exists new,
    snd (cmd.removeCandidates repoRoot cs removed out log)
    = (log ++ new)%list /\
    Forall (spec.spares worktrees defaultBranch) new.
Proof.
  intros Hcs. revert removed out log.
  induction Hcs as [|c cs Hc _ IH]; intros removed out log;
    cbn [cmd.removeCandidates]; [apply ret_appends|].
  apply bind_appends.
  - destruct (RemoveWorktree_removes repoRoot (git.Path (cmd.worktree c))
                (git.IsMerged (cmd.worktree c)) log) as (new & L & Hr).
    exists new. split; [exact L|]. apply List.Forall_forall.
    intros e He path Hp. rewrite (Hr e path He Hp). exact Hc.
  - destruct (fst _); apply IH.
Qed.

Lemma wrap64_isInt (n : Z) : spec.isInt (time.wrap64 n).
Proof.
  unfold spec.isInt, time.wrap64.
  pose proof (Z.mod_pos_bound (n + 2 ^ 63) (2 ^ 64)). lia.
Qed.

Lemma wrap64_add_l (a k : Z) :
  time.wrap64 (time.wrap64 a + k) = time.wrap64 (a + k).
Proof.
  unfold time.wrap64. f_equal.
  replace ((a + 2 ^ 63) mod 2 ^ 64 - 2 ^ 63 + k + 2 ^ 63)
    with ((a + 2 ^ 63) mod 2 ^ 64 + k) by lia.
  rewrite Z.add_mod_idemp_l by lia. f_equal. lia.
Qed.

Lemma removeCandidates_report (repoRoot : string)
  (cs : list cmd.candidate) (removed : Z) (out : list cmd.cleanLine)
  (log : host.Log) :
  spec.isInt removed ->
  exists (new : host.Log) (outcomes : list cmd.cleanLine),
    cmd.removeCandidates repoRoot cs removed out log
    = ((time.wrap64
          (removed + len (List.filter spec.isRemovedLine outcomes)),
        (out ++ outcomes)%list), (log ++ new)%list) /\
    map fst (List.filter spec.isRemove new)
    = map (fun c => spec.removeInvocation repoRoot
                      (git.Path (cmd.worktree c))) cs /\
    List.filter spec.isPrune new = [] /\
    Forall (fun l => exists branch,
              l = cmd.Removed branch \/
              exists e, l = cmd.FailedToRemove branch e) outcomes /\
    flat_map spec.reportedBranch outcomes
    = map (fun c => git.BranchShort (cmd.worktree c)) cs.
Proof.
  revert removed out log.
  induction cs as [|c cs IH]; intros removed out log Hr;
    cbn [cmd.removeCandidates].
  - exists [], []. cbn. rewrite !app_nil_r, Z.add_0_r, wrap64_int by exact Hr.
    repeat split. constructor.
  - unfold bind.
    destruct (RemoveWorktree_entries repoRoot (git.Path (cmd.worktree c))
                (git.IsMerged (cmd.worktree c)) log)
      as (new1 & L1 & R1 & P1 & _).
    destruct (git.RemoveWorktree repoRoot _ _ log) as [err log1].
    cbn [snd] in L1. subst log1.
    destruct err as [e|].
    + destruct (IH removed (append out (cmd.FailedToRemove
                  (git.BranchShort (cmd.worktree c)) e))
                  (log ++ new1)%list Hr)
        as (new2 & outcomes & E & R2 & P2 & W2 & B2).
      exists (new1 ++ new2)%list,
        (cmd.FailedToRemove (git.BranchShort (cmd.worktree c)) e
         :: outcomes).
      rewrite E. unfold append. rewrite <- !app_assoc.
      cbn [app List.filter spec.isRemovedLine flat_map
             spec.reportedBranch map].
      rewrite !List.filter_app, map_app, R1, R2, P1, P2, B2.
      repeat split. constructor; [eauto|exact W2].
    + destruct (IH (git.incr removed) (append out (cmd.Removed
                  (git.BranchShort (cmd.worktree c))))
                  (log ++ new1)%list (wrap64_isInt _))
        as (new2 & outcomes & E & R2 & P2 & W2 & B2).
      exists (new1 ++ new2)%list,
        (cmd.Removed (git.BranchShort (cmd.worktree c)) :: outcomes).
      rewrite E. unfold append, git.incr. rewrite <- !app_assoc.
      cbn [app List.filter spec.isRemovedLine flat_map
             spec.reportedBranch map].
      rewrite !List.filter_app, map_app, R1, R2, P1, P2, B2.
      rewrite wrap64_add_l. unfold len. cbn [length].
      split; [do 3 f_equal; lia|]. repeat split.
      constructor; [eauto|exact W2].
Qed.

(** *** [clean] *)

Lemma loadFile_log (path : string) (cfg : config.Config) (log : host.Log) :
  snd (config.loadFile path cfg log) = log.
Proof.
  unfold config.loadFile. destruct (os.Stat log path); [reflexivity|].
  destruct (config.DecodeFile log path cfg) as [cfg' [e|]]; reflexivity.
Qed.

Lemma LoadForRepo_log (repoRoot : string) (log : host.Log) :
  snd (config.LoadForRepo repoRoot log) = log.
Proof.
  unfold config.LoadForRepo, bind. cbv zeta.
  destruct os.UserHomeDir as [home [e|]].
  - cbn [ret].
    destruct (negb _); [|reflexivity].
    pose proof (loadFile_log
      (filepath.Join [if String.eqb repoRoot "" then fst Getwd else repoRoot;
                      ".git-wt.toml"]) config.Default log) as L.
    now destruct (config.loadFile _ _ log) as [[cfg1 w1] log1].
  - pose proof (loadFile_log
      (filepath.Join [home; ".config"; "git-wt"; "config.toml"])
      config.Default log) as L0.
    destruct (config.loadFile _ _ log) as [[cfg0 w0] log0]. cbn [snd] in L0.
    subst log0. destruct (negb _); [|reflexivity].
    pose proof (loadFile_log
      (filepath.Join [if String.eqb repoRoot "" then fst Getwd else repoRoot;
                      ".git-wt.toml"]) cfg0 log) as L.
    now destruct (config.loadFile _ _ log) as [[cfg1 w1] log1].
Qed.

(** [clean], stage by stage. *)
Lemma runClean_stages (f : cmd.cleanFlags) (cleanDryRun cleanForce : bool)
  (clock : nat -> time.Time * time.Time) (answer : string)
  (log : host.Log) :
  let root := spec.rootAt log in
  let cfg := spec.configAt log in
  let cs := spec.cleanCandidatesAt f clock log in
  let log4 := snd (spec.enrichedAt log) in
  let warned := spec.configWarningsAt log in
  let shown :=
    append (app (append warned (cmd.Heading (len cs)))
              (map cmd.candidateRow cs)) cmd.Blank in
  let asked := if cleanForce then shown else append shown cmd.Prompt in
  cmd.runClean f cleanDryRun cleanForce clock answer log
  = match snd (fst (git.RepoRoot "" log)) with
    | Some _ => ((Some "not a git repository", []),
                 snd (git.RepoRoot "" log))
    | None =>
        match snd (spec.listingAt log) with
        | Some e =>
            ((Some e, warned),
             snd (git.ListWorktrees root (snd (git.RepoRoot "" log))))
        | None =>
            if len cs =? 0 then
              ((None, append warned cmd.NothingToClean),
               snd (cmd.autoPrune cfg root log4))
            else if cleanDryRun then
              ((None, append shown cmd.DryRunNotice), log4)
            else if spec.confirmed cleanForce answer then
              let r := cmd.removeCandidates root cs 0 asked log4 in
              ((None, append (snd (fst r)) (cmd.Summary (fst (fst r)))),
               snd (cmd.autoPrune cfg root (snd r)))
            else ((None, append asked cmd.Cancelled), log4)
        end
    end.
Proof.
  cbv zeta.
  unfold spec.cleanCandidatesAt, spec.enrichedAt, spec.configAt,
    spec.configWarningsAt, spec.defaultBranchAt, spec.listingAt,
    spec.rootAt, cmd.runClean, bind.
  destruct (git.RepoRoot "" log) as [[root [e0|]] log1]; cbn [fst snd];
    [reflexivity|].
  pose proof (LoadForRepo_log root log1) as Lc.
  destruct (config.LoadForRepo root log1) as [[cfg warned] log1'].
  cbn [fst snd] in *. subst log1'.
  destruct (git.ListWorktrees root log1) as [[wts [e1|]] log2];
    cbn [fst snd]; [reflexivity|].
  destruct (git.DefaultBranch root log2) as [[d ed] log3]. cbn [fst snd].
  destruct (cmd.enrichAll wts d log3) as [wts' log4]. cbn [fst snd].
  set (cs := cmd.filterCandidates _ _ _ _ _).
  destruct (len cs =? 0).
  { now destruct (cmd.autoPrune cfg root log4). }
  destruct cleanDryRun; [reflexivity|].
  unfold spec.confirmed.
  destruct cleanForce; cbn [negb andb orb].
  - destruct (cmd.removeCandidates root cs 0 _ log4) as [[n out] log5].
    cbn [fst snd]. now destruct (cmd.autoPrune cfg root log5).
  - destruct (String.eqb (TrimSpace (ToLower answer)) "y");
      cbn [negb andb orb].
    + destruct (cmd.removeCandidates root cs 0 _ log4) as [[n out] log5].
      cbn [fst snd]. now destruct (cmd.autoPrune cfg root log5).
    + destruct (String.eqb (TrimSpace (ToLower answer)) "yes");
        cbn [negb andb orb]; [|reflexivity].
      destruct (cmd.removeCandidates root cs 0 _ log4) as [[n out] log5].
      cbn [fst snd]. now destruct (cmd.autoPrune cfg root log5).
Qed.

(** The state in which a command has the enriched listing: only queries
    were made. *)
Lemma enrichedAt_reads (log : host.Log) :
  exists new, snd (spec.enrichedAt log) = (log ++ new)%list /\
              Forall spec.reads new.
Proof.
  unfold spec.enrichedAt, spec.defaultBranchAt, spec.listingAt, spec.rootAt.
  destruct (RepoRoot_reads "" log) as (n0 & L0 & Q0).
  destruct (git.RepoRoot "" log) as [[root e0] log1]. cbn [fst snd] in *.
  destruct (ListWorktrees_reads root log1) as (n1 & L1 & Q1).
  destruct (git.ListWorktrees root log1) as [[wts e1] log2].
  cbn [fst snd] in *.
  destruct (DefaultBranch_reads root log2) as (n2 & L2 & Q2).
  destruct (git.DefaultBranch root log2) as [[d e2] log3].
  cbn [fst snd] in *.
  destruct (enrichAll_reads wts d log3) as (n3 & L3 & Q3).
  exists (n0 ++ n1 ++ n2 ++ n3)%list. subst log1 log2 log3.
  rewrite L3, <- !app_assoc. split; [reflexivity|].
  repeat (apply Forall_app; split); assumption.
Qed.

Lemma stages_read (log : host.Log) :
  (exists new, snd (git.RepoRoot "" log) = (log ++ new)%list /\
               Forall spec.reads new) /\
  (exists new,
     snd (git.ListWorktrees (spec.rootAt log) (snd (git.RepoRoot "" log)))
     = (log ++ new)%list /\ Forall spec.reads new).
Proof.
  split; [apply RepoRoot_reads|].
  destruct (RepoRoot_reads "" log) as (n0 & L0 & Q0).
  destruct (ListWorktrees_reads (spec.rootAt log)
              (snd (git.RepoRoot "" log))) as (n1 & L1 & Q1).
  exists (n0 ++ n1)%list. rewrite L1, L0, <- app_assoc.
  split; [reflexivity|]. now apply Forall_app.
Qed.

Lemma Forall2_same_In (ws ws' : list git.Worktree) (w' : git.Worktree) :
  Forall2 spec.sameWorktree ws ws' -> In w' ws' ->
  exists w, In w ws /\ spec.sameWorktree w w'.
Proof.
  induction 1 as [|w v ws ws' Hs _ IH]; intros Hin; [destruct Hin|].
  destruct Hin as [<-|Hin].
  - exists w. split; [now left|exact Hs].
  - destruct (IH Hin) as (u & Hu & Hsu). exists u. split; [now right|auto].
Qed.

Lemma cleanCandidates_spared (f : cmd.cleanFlags)
  (clock : nat -> time.Time * time.Time) (log : host.Log) :
  Forall (fun c => exists wt, In wt (fst (spec.listingAt log)) /\
                     git.Path wt = git.Path (cmd.worktree c) /\
                     git.IsBare wt = false /\ git.IsCurrent wt = false /\
                     git.BranchShort wt <> spec.defaultBranchAt log)
    (spec.cleanCandidatesAt f clock log).
Proof.
  unfold spec.cleanCandidatesAt.
  eapply List.Forall_impl; [|apply filterCandidates_sound].
  intros c (Hin & Hb & Hc & Hd). cbv beta in *.
  unfold spec.enrichedAt in Hin.
  destruct (Forall2_same_In _ _ _ (enrichAll_same _ _ _) Hin)
    as (w & Hw & (S1 & S2 & S3 & S4 & S5 & S6)).
  exists w. split; [exact Hw|]. split; [now rewrite S1|].
  split; [now rewrite <- S4|]. split; [now rewrite <- S6|].
  unfold git.BranchShort in *. now rewrite <- S3.
Qed.

Lemma autoPrune_log (cfg : config.Config) (repoRoot : string)
  (log : host.Log) :
  snd (cmd.autoPrune cfg repoRoot log)
  = if config.AutoPrune (config.Cleanup cfg)
    then (log ++ [(spec.pruneInvocation repoRoot,
                   exec log (spec.pruneInvocation repoRoot))])%list
    else log.
Proof.
  unfold cmd.autoPrune, git.PruneWorktrees, bind.
  destruct (config.AutoPrune _); [|reflexivity].
  destruct (run_log repoRoot ["worktree"; "prune"] log) as [L _].
  cbv zeta in L. now destruct (git.run repoRoot _ log) as [[o e] l].
Qed.

Lemma prune_spares (worktrees : list git.Worktree) (defaultBranch : string)
  (repoRoot : string) (c : host.Completed) :
  spec.spares worktrees defaultBranch (spec.pruneInvocation repoRoot, c).
Proof. intros path [Hr|Hr]; discriminate Hr. Qed.

(** X21: whatever the flags, the clock and the answer, [clean] never
    attempts to remove a worktree that the listing does not hold, that is
    bare, that is the current one, or that is on the default branch. *)
Theorem X21_runClean_spares_current_bare_and_default
  (f : cmd.cleanFlags) (cleanDryRun cleanForce : bool)
  (clock : nat -> time.Time * time.Time) (answer : string)
  (log : host.Log) :
  exists new : host.Log,
    snd (cmd.runClean f cleanDryRun cleanForce clock answer log)
    = (log ++ new)%list /\
    Forall (spec.spares (fst (spec.listingAt log))
              (spec.defaultBranchAt log)) new.
Proof.
  set (p := spec.spares (fst (spec.listingAt log))
              (spec.defaultBranchAt log)).
  assert (Hq : forall new, Forall spec.reads new -> Forall p new).
  { intros new Hn. eapply List.Forall_impl; [|exact Hn].
    intros e. apply reads_spares. }
  rewrite runClean_stages. cbv zeta.
  destruct (stages_read log) as [(n0 & L0 & Q0) (n1 & L1 & Q1)].
  destruct (enrichedAt_reads log) as (n4 & L4 & Q4).
  destruct (snd (fst (git.RepoRoot "" log))); [eauto|].
  destruct (snd (spec.listingAt log)); [eauto|].
  destruct (len _ =? 0).
  { cbn [snd]. rewrite autoPrune_log, L4.
    destruct (config.AutoPrune _); [|eauto].
    eexists. rewrite <- app_assoc. split; [reflexivity|].
    apply Forall_app. split; [auto|].
    repeat constructor. apply prune_spares. }
  destruct cleanDryRun; [eauto|].
  destruct (spec.confirmed cleanForce answer); [|eauto].
  cbn [snd]. rewrite autoPrune_log.
  match goal with
  | |- context [cmd.removeCandidates ?r ?cs ?n ?o ?l] =>
      destruct (removeCandidates_spares r cs n o l _ _
                  (cleanCandidates_spared f clock log)) as (n5 & L5 & Q5)
  end.
  rewrite L5, L4.
  destruct (config.AutoPrune _).
  - eexists. rewrite <- !app_assoc. split; [reflexivity|].
    repeat (apply Forall_app; split); auto.
    repeat constructor. apply prune_spares.
  - eexists. rewrite <- !app_assoc. split; [reflexivity|].
    apply Forall_app; split; auto.
Qed.



Lemma rows_shown (cs : list cmd.candidate) :
  flat_map spec.rowPath (map cmd.candidateRow cs)
  = map (fun c => git.Path (cmd.worktree c)) cs /\
  flat_map spec.rowBranch (map cmd.candidateRow cs)
  = map (fun c => git.BranchShort (cmd.worktree c)) cs /\
  flat_map spec.reportedBranch (map cmd.candidateRow cs) = [] /\
  List.filter spec.isRemovedLine (map cmd.candidateRow cs) = [].
Proof.
  induction cs as [|c cs (IH1 & IH2 & IH3 & IH4)]; [repeat split|].
  cbn. rewrite IH1, IH2, IH3, IH4. repeat split.
Qed.

Lemma warnings_silent (log : host.Log) :
  flat_map spec.rowPath (spec.configWarningsAt log) = [] /\
  flat_map spec.rowBranch (spec.configWarningsAt log) = [] /\
  flat_map spec.reportedBranch (spec.configWarningsAt log) = [] /\
  List.filter spec.isRemovedLine (spec.configWarningsAt log) = [] /\
  forall n, ~ In (cmd.Summary n) (spec.configWarningsAt log).
Proof.
  unfold spec.configWarningsAt.
  induction (snd (fst (config.LoadForRepo _ _)))
    as [|w ws (I1 & I2 & I3 & I4 & I5)]; cbn; [tauto|].
  repeat split; auto. intros n [H|H]; [discriminate H|exact (I5 n H)].
Qed.

(** X24: when [clean] is not a dry run and the confirmation is given, the
    worktrees it attempts to remove are those it displayed, each once and
    in the order displayed; each attempt is reported, as done or as failed,
    under the branch displayed; it prunes at most once; and the summary
    counts the removals reported as done. *)
Theorem X24_runClean_attempts_what_it_displays
  (f : cmd.cleanFlags) (cleanForce : bool)
  (clock : nat -> time.Time * time.Time) (answer : string)
  (log : host.Log) :
  spec.confirmed cleanForce answer = true ->
  let r := cmd.runClean f false cleanForce clock answer log in
  let out := snd (fst r) in
  exists new : host.Log,
    snd r = (log ++ new)%list /\
    map fst (List.filter spec.isRemove new)
    = map (spec.removeInvocation (spec.rootAt log))
        (flat_map spec.rowPath out) /\
    flat_map spec.reportedBranch out = flat_map spec.rowBranch out /\
    (spec.prunes new <= 1)%nat /\
    (forall n, In (cmd.Summary n) out ->
       n = time.wrap64 (len (List.filter spec.isRemovedLine out))).
Proof.
  intros Hyes. cbv zeta. rewrite runClean_stages. cbv zeta. rewrite Hyes.
  destruct (stages_read log) as [(n0 & L0 & Q0) (n1 & L1 & Q1)].
  destruct (enrichedAt_reads log) as (n4 & L4 & Q4).
  pose proof (reads_not_isRemove _ Q0) as [R0 P0].
  pose proof (reads_not_isRemove _ Q1) as [R1 P1].
  pose proof (reads_not_isRemove _ Q4) as [R4 P4].
  destruct (warnings_silent log) as (V1 & V2 & V3 & V4 & V5).
  set (warned := spec.configWarningsAt log) in *.
  unfold spec.prunes.
  destruct (snd (fst (git.RepoRoot "" log))).
  { exists n0. cbn [fst snd flat_map map]. rewrite R0, P0.
    repeat split; auto. intros n []. }
  destruct (snd (spec.listingAt log)).
  { exists n1. cbn [fst snd]. rewrite R1, P1, V1, V2, V3.
    repeat split; auto. intros n Hn. now apply V5 in Hn. }
  destruct (len _ =? 0).
  { cbn [fst snd]. rewrite autoPrune_log, L4. unfold append.
    rewrite !flat_map_app, V1, V2, V3.
    assert (Hs : forall n, ~ In (cmd.Summary n)
                               (warned ++ [cmd.NothingToClean])%list).
    { intros n Hn. apply in_app_iff in Hn.
      destruct Hn as [Hn|[Hn|[]]]; [now apply V5 in Hn|discriminate Hn]. }
    destruct (config.AutoPrune _).
    - eexists. rewrite <- app_assoc. split; [reflexivity|].
      rewrite !List.filter_app, R4, P4. cbn.
      repeat split; auto. intros n Hn. now apply Hs in Hn.
    - exists n4. split; [reflexivity|]. rewrite R4, P4. cbn.
      repeat split; auto. intros n Hn. now apply Hs in Hn. }
  set (cs := spec.cleanCandidatesAt f clock log).
  set (asked := if cleanForce then _ else _).
  destruct (removeCandidates_report (spec.rootAt log) cs 0 asked
              (snd (spec.enrichedAt log)))
    as (n5 & outcomes & E & R5 & P5 & W5 & B5);
    [unfold spec.isInt; lia|].
  rewrite E. cbn [fst snd]. rewrite autoPrune_log, L4.
  destruct (rows_shown cs) as (S1 & S2 & S3 & S4).
  assert (A : flat_map spec.rowPath asked
              = map (fun c => git.Path (cmd.worktree c)) cs /\
              flat_map spec.rowBranch asked
              = map (fun c => git.BranchShort (cmd.worktree c)) cs /\
              flat_map spec.reportedBranch asked = [] /\
              List.filter spec.isRemovedLine asked = []).
  { subst asked. destruct cleanForce; unfold append;
      rewrite ?flat_map_app, ?List.filter_app, V1, V2, V3, V4,
        S1, S2, S3, S4; cbn; rewrite ?app_nil_r; repeat split. }
  destruct A as (A1 & A2 & A3 & A4).
  assert (O : flat_map spec.rowBranch outcomes = [] /\
              flat_map spec.rowPath outcomes = [] /\
              forall n, ~ In (cmd.Summary n) outcomes).
  { clear - W5. induction W5 as [|l ls (b & [->|(e & ->)]) _ (I1 & I2 & I3)];
      cbn; (split; [auto|split; [auto|]]); intros n Hn; auto;
      (destruct Hn as [Hn|Hn]; [discriminate|exact (I3 n Hn)]). }
  destruct O as (O1 & O2 & O3).
  assert (Hasked : forall n, ~ In (cmd.Summary n) asked).
  { intros n Hn. subst asked.
    assert (Hrows : ~ In (cmd.Summary n) (map cmd.candidateRow cs))
      by (intros Hr; apply in_map_iff in Hr as (c & Hc & _);
          discriminate Hc).
    destruct cleanForce; unfold append in Hn;
      repeat (apply in_app_iff in Hn; destruct Hn as [Hn|Hn]);
      repeat (destruct Hn as [Hn|Hn]; try discriminate Hn); auto;
      now apply V5 in Hn. }
  unfold append.
  exists ((n4 ++ n5)
          ++ (if config.AutoPrune (config.Cleanup (spec.configAt log))
              then [(spec.pruneInvocation (spec.rootAt log),
                     exec ((log ++ n4) ++ n5)%list
                       (spec.pruneInvocation (spec.rootAt log)))]
              else []))%list.
  split.
  { destruct (config.AutoPrune _); rewrite <- ?app_assoc;
      rewrite ?app_nil_r; reflexivity. }
  rewrite !List.filter_app, !flat_map_app, !map_app, R4, P4, R5, P5, B5,
    A1, A2, A3, A4, O1, O2.
  cbn [flat_map spec.rowPath spec.rowBranch spec.reportedBranch app
         List.filter spec.isRemovedLine].
  rewrite !app_nil_r, map_map.
  split; [destruct (config.AutoPrune _); cbn; now rewrite app_nil_r|].
  split; [reflexivity|].
  split; [destruct (config.AutoPrune _); cbn; lia|].
  intros n Hin. apply in_app_iff in Hin. destruct Hin as [Hin|[[= <-]|[]]].
  - exfalso. apply in_app_iff in Hin. destruct Hin as [Hin|Hin].
    + exact (Hasked n Hin).
    + exact (O3 n Hin).
  - now rewrite Z.add_0_l.
Qed.

End Commands.


Lemma X24_runClean_attempts_what_it_displays_witness :
  let r := cmd.runClean (H := sample.runtime) (H0 := sample.repository)
             (H1 := sample.platform) (H2 := sample.paths)
             (H3 := sample.noFiles) (H4 := sample.decoder)
             {| cmd.cleanMerged := true; cmd.cleanStaleDays := 0 |}
             false true sample.still "" [] in
  fst r = (None, [cmd.Heading 1;
                  cmd.Row "feature-a" "/repo-feature-a" ["merged"];
                  cmd.Blank; cmd.Removed "feature-a"; cmd.Summary 1]) /\
  map fst (List.filter spec.isRemove (snd r))
  = [spec.removeInvocation "/repo" "/repo-feature-a"].
Proof.
  cbv zeta. split; [reflexivity|].
  destruct (X24_runClean_attempts_what_it_displays
              (RT := sample.runtime) (HO := sample.repository)
              (PF := sample.platform) (FP := sample.paths)
              (FS := sample.noFiles) (DC := sample.decoder)
              {| cmd.cleanMerged := true; cmd.cleanStaleDays := 0 |}
              true sample.still "" [] eq_refl)
    as (new & L & R & _).
  cbn [app] in L. rewrite L, R. reflexivity.
Defined.

(** A local configuration file that does not parse costs a warning, and
    [clean] goes on with what the decoder left of the configuration. *)
Example runClean_warns_about_config :
  fst (cmd.runClean (H := sample.runtime) (H0 := sample.repository)
         (H1 := sample.platform) (H2 := sample.paths)
         (H3 := sample.localFile) (H4 := sample.malformed)
         {| cmd.cleanMerged := true; cmd.cleanStaleDays := 0 |}
         true false sample.still "" [])
  = (None,
     [cmd.ConfigWarning
        ("warning: failed to parse config /repo/.git-wt.toml: "
         ++ "toml: line 1: expected key");
      cmd.Heading 1; cmd.Row "feature-a" "/repo-feature-a" ["merged"];
      cmd.Blank; cmd.DryRunNotice]).
Proof. vm_compute. reflexivity. Qed.
